(** * A shallow embedding of the YouTube downloader (downloader.py, cli.py)

    The Python classes and functions of the repository are written as Rocq
    functions over an explicit state.  Python dictionaries with string keys
    are finite maps, the [Dict[str, bool]] built by the batch loop is an
    insertion-ordered association list, integers are [Z], and every call
    that can raise returns a [result].  The extraction engine (yt_dlp), the
    file system and the YAML/JSON parsers are not part of the repository:
    they are the fields of an environment record [Env]. *)

From Stdlib Require Import ZArith String Ascii List Bool Lia.
From stdpp Require Import base option list gmap strings pretty.

Set Warnings "-register-all".
Open Scope string_scope.
Open Scope list_scope.
Open Scope Z_scope.

(** ** Python values *)

(** The values that configuration files, keyword arguments, progress events
    and engine answers are made of.  Dictionaries have string keys.
    Floating-point numbers are not represented: numeric payloads (byte
    counts, the speed estimate) are integers. *)
Inductive value :=
| VNone
| VBool (b : bool)
| VInt (n : Z)
| VStr (s : string)
| VList (l : list value)
| VDict (d : gmap string value).

(** Instances of Python's [Exception] class, the ones an [except Exception]
    handler catches.  Process-level signals that derive from [BaseException]
    only (a keyboard interrupt) are outside this type. *)
Inductive exn :=
| AttributeError (msg : string)
| KeyError (key : string)
| TypeError (msg : string)
| ZeroDivisionError
| OSError (msg : string)
| FileNotFoundError (msg : string)
| ParseError (msg : string)
| DownloadError (msg : string).

Inductive result (A : Type) :=
| Ok (a : A)
| Raise (e : exn).
Arguments Ok {A} a.
Arguments Raise {A} e.

Definition is_ok {A} (r : result A) : bool :=
  match r with Ok _ => true | Raise _ => false end.

(** [bool(v)] *)
Definition truthy (v : value) : bool :=
  match v with
  | VNone => false
  | VBool b => b
  | VInt n => negb (n =? 0)
  | VStr s => negb (String.eqb s "")
  | VList l => match l with [] => false | _ => true end
  | VDict d => negb (bool_decide (d = ∅))
  end.

(** [v == 'lit'] for a string literal: false, never an error, on other types *)
Definition eq_str (v : value) (lit : string) : bool :=
  match v with VStr s => String.eqb s lit | _ => false end.

(** [v is not None] *)
Definition is_not_None (v : value) : bool :=
  match v with VNone => false | _ => true end.

(** Python's [bool] is a subclass of [int]. *)
Definition as_int (v : value) : option Z :=
  match v with
  | VInt n => Some n
  | VBool b => Some (if b then 1 else 0)
  | _ => None
  end.

(** [c[k]] for a string key *)
Definition getitem (c : value) (k : string) : result value :=
  match c with
  | VDict d =>
      match d !! k with
      | Some v => Ok v
      | None => Raise (KeyError k)
      end
  | VList _ => Raise (TypeError "list indices must be integers or slices, not str")
  | VStr _ => Raise (TypeError "string indices must be integers")
  | _ => Raise (TypeError "object is not subscriptable")
  end.

(** [c.get(k)] and [c.get(k, dflt)]: only dictionaries have the method *)
Definition get_method (c : value) (k : string) (dflt : value) : result value :=
  match c with
  | VDict d => Ok (default dflt (d !! k))
  | _ => Raise (AttributeError "object has no attribute 'get'")
  end.

(** [kwargs.get(k, dflt)] on the keyword dictionary, [dflt] already evaluated *)
Definition kwargs_get (kwargs : gmap string value) (k : string) (dflt : value) : value :=
  default dflt (kwargs !! k).

(** ** Strings *)

Fixpoint replace_char (c : ascii) (s : string) : string :=
  match s with
  | EmptyString => EmptyString
  | String a s' => if Ascii.eqb a c then replace_char c s' else String a (replace_char c s')
  end.

(** [s.replace('p', '')] *)
Definition remove_p (s : string) : string := replace_char "p"%char s.

Definition lower_char (c : ascii) : ascii :=
  let n := nat_of_ascii c in
  if ((65 <=? n) && (n <=? 90))%nat then ascii_of_nat (n + 32)
  else if ((192 <=? n) && (n <=? 222) && negb (n =? 215))%nat then ascii_of_nat (n + 32)
  else c.

(** [s.lower()], characters read as code points below 256 *)
Fixpoint lower (s : string) : string :=
  match s with
  | EmptyString => EmptyString
  | String a s' => String (lower_char a) (lower s')
  end.

(** [s[:n]] *)
Fixpoint str_take (n : nat) (s : string) : string :=
  match n, s with
  | O, _ => EmptyString
  | S _, EmptyString => EmptyString
  | S n', String a s' => String a (str_take n' s')
  end.
Arguments str_take : simpl never.

(** ** Observable effects *)

Inductive level := INFO | WARNING | ERROR.

Inductive effect :=
| Log (lvl : level) (msg : string)
| Print (text : string)
| PrintProgress
| Mkdir (path : string)
| EngineDownload (url : string) (opts : gmap string value)
| EngineExtractInfo (url : string).

(** What the engine does during one [ydl.download([url])]: it may call the
    progress hook any number of times, sees whether the hook returned or
    raised, and finally returns or raises. *)
Inductive engine_run :=
| Return
| Throw (e : exn)
| Hook (d : gmap string value) (k : result unit -> engine_run).

(** The parts of the Python runtime and of third-party libraries (pathlib,
    yaml, json, yt_dlp) that the source calls and does not define.
    - [path_exists p], [path_suffix p]: [Path(p).exists()], [Path(p).suffix];
    - [open_file p]: [open(p, 'r')], the handle standing for the text it
      yields, or the error of opening or reading;
    - [yaml_safe_load], [json_load]: the parsers, [ParseError] standing for
      their own exception classes;
    - [mkdir_parents p]: [Path(p).mkdir(parents=True, exist_ok=True)];
    - [path_join d n]: [str(Path(d) / n)];
    - [ydl_download url opts]: what [YoutubeDL(opts).download([url])] does,
      a function of the URL and the options;
    - [ydl_extract_info url]: [extract_info(url, download=False)] under the
      quiet options of the info query;
    - [str_container], [str_exn]: [str()] of a list or dictionary, and of an
      exception. *)
Record Env := {
  path_exists : string -> bool;
  path_suffix : string -> string;
  open_file : string -> result string;
  yaml_safe_load : string -> result value;
  json_load : string -> result value;
  mkdir_parents : string -> result unit;
  path_join : string -> string -> string;
  ydl_download : string -> gmap string value -> engine_run;
  ydl_extract_info : string -> result value;
  str_container : value -> string;
  str_exn : exn -> string
}.

(** [str(v)], as an f-string placeholder renders it *)
Definition py_str (E : Env) (v : value) : string :=
  match v with
  | VNone => "None"
  | VBool true => "True"
  | VBool false => "False"
  | VInt n => pretty n
  | VStr s => s
  | _ => str_container E v
  end.

(** ** State and error monad *)

Definition M (S A : Type) : Type := S -> result A * S.

Definition ret {S A} (a : A) : M S A := fun s => (Ok a, s).
Definition raise {S A} (e : exn) : M S A := fun s => (Raise e, s).
Definition bind {S A B} (m : M S A) (f : A -> M S B) : M S B :=
  fun s => match m s with
           | (Ok a, s') => f a s'
           | (Raise e, s') => (Raise e, s')
           end.
Definition lift {S A} (r : result A) : M S A := fun s => (r, s).

(** [try: body except Exception as e: handler(e)] *)
Definition try_except {S A} (body : M S A) (handler : exn -> M S A) : M S A :=
  fun s => match body s with
           | (Ok a, s') => (Ok a, s')
           | (Raise e, s') => handler e s'
           end.

Notation "x <- m ;; f" := (bind m (fun x => f))
  (at level 100, m at next level, right associativity).
Notation "m ;;; f" := (bind m (fun _ => f))
  (at level 100, right associativity).

(** ** downloader.py: construction *)

Record Logger := { logger_name : string; logger_level : level }.

(** [logging.getLogger('youtube_downloader')] at level [INFO] *)
Definition init_logger : Logger :=
  {| logger_name := "youtube_downloader"; logger_level := INFO |}.

Definition _get_default_config : value :=
  VDict (list_to_map [
    ("default_quality", VStr "720p");
    ("default_format", VStr "mp4");
    ("output_directory", VStr "./downloads");
    ("max_concurrent_downloads", VInt 3);
    ("retry_attempts", VInt 3);
    ("timeout", VInt 30);
    ("extract_audio", VBool false);
    ("audio_format", VStr "mp3");
    ("download_subtitles", VBool false);
    ("subtitle_languages", VList [VStr "en"]);
    ("filename_template", VStr "%(title)s.%(ext)s");
    ("rate_limit", VNone)
  ]).

Definition emit_to (e : effect) : M (list effect) unit :=
  fun tr => (Ok tt, tr ++ [e]).

(** [self.logger.<lvl>(msg)] while the object is being built: [self_logger]
    is the attribute [self.logger], [None] as long as [__init__] has not
    assigned it. *)
Definition self_logger_log (self_logger : option Logger) (lvl : level) (msg : string)
  : M (list effect) unit :=
  match self_logger with
  | Some _ => emit_to (Log lvl msg)
  | None => raise (AttributeError "'YouTubeDownloader' object has no attribute 'logger'")
  end.

Section Loader.
Variable E : Env.

Definition _load_config (self_logger : option Logger) (config_file : string)
  : M (list effect) value :=
  if negb (path_exists E config_file) then ret _get_default_config
  else
    try_except
      (f <- lift (open_file E config_file);;
       if String.eqb (lower (path_suffix E config_file)) ".yaml" then
         lift (yaml_safe_load E f)
       else if String.eqb (lower (path_suffix E config_file)) ".json" then
         lift (json_load E f)
       else
         self_logger_log self_logger WARNING
           ("Unsupported config format: " +:+ path_suffix E config_file);;;
         ret _get_default_config)
      (fun e =>
         self_logger_log self_logger ERROR ("Error loading config: " +:+ str_exn E e);;;
         ret _get_default_config).

Definition _setup_logging : M (list effect) Logger := ret init_logger.
End Loader.

(** ** downloader.py: the object and its state *)

(** [self.download_stats]: a dictionary with four fixed keys, each holding
    an integer. *)
Record stats := {
  total_downloads : Z;
  successful_downloads : Z;
  failed_downloads : Z;
  total_size : Z
}.

Definition zero_stats : stats :=
  {| total_downloads := 0; successful_downloads := 0;
     failed_downloads := 0; total_size := 0 |}.

Record YouTubeDownloader := {
  config : value;
  logger : Logger;
  download_stats : stats
}.

(** The object together with everything it has done to the outside world. *)
Record state := { self : YouTubeDownloader; trace : list effect }.

Definition emit (e : effect) : M state unit :=
  fun s => (Ok tt, {| self := self s; trace := trace s ++ [e] |}).

(** [self.logger.info/warning/error(msg)] on a constructed object *)
Definition logger_log (lvl : level) (msg : string) : M state unit := emit (Log lvl msg).

Definition self_config : M state value := fun s => (Ok (config (self s)), s).

Definition update_stats (f : stats -> stats) : M state unit :=
  fun s => (Ok tt,
            {| self := {| config := config (self s); logger := logger (self s);
                          download_stats := f (download_stats (self s)) |};
               trace := trace s |}).

Definition incr_total (st : stats) : stats :=
  {| total_downloads := total_downloads st + 1;
     successful_downloads := successful_downloads st;
     failed_downloads := failed_downloads st;
     total_size := total_size st |}.

Definition incr_successful (st : stats) : stats :=
  {| total_downloads := total_downloads st;
     successful_downloads := successful_downloads st + 1;
     failed_downloads := failed_downloads st;
     total_size := total_size st |}.

Definition incr_failed (st : stats) : stats :=
  {| total_downloads := total_downloads st;
     successful_downloads := successful_downloads st;
     failed_downloads := failed_downloads st + 1;
     total_size := total_size st |}.

Definition add_size (n : Z) (st : stats) : stats :=
  {| total_downloads := total_downloads st;
     successful_downloads := successful_downloads st;
     failed_downloads := failed_downloads st;
     total_size := total_size st + n |}.

(** [a / b]: the quotient is a float that only feeds the progress text, so
    only the exceptions of the division are kept. *)
Definition truediv (a b : value) : result unit :=
  match as_int a, as_int b with
  | Some _, Some d => if d =? 0 then Raise ZeroDivisionError else Ok tt
  | _, _ => Raise (TypeError "unsupported operand type(s) for /")
  end.

(** [v > 0] *)
Definition gt_zero (v : value) : result bool :=
  match as_int v with
  | Some n => Ok (0 <? n)
  | None => Raise (TypeError "'>' not supported between these instances")
  end.

(** [x[:200]]; any other type has no slice, which raises *)
Definition slice_200 (v : value) : result value :=
  match v with
  | VStr s => Ok (VStr (str_take 200 s))
  | VList l => Ok (VList (take 200 l))
  | _ => Raise (TypeError "object is not subscriptable")
  end.

(** [x + '...'] *)
Definition add_ellipsis (v : value) : result value :=
  match v with
  | VStr s => Ok (VStr (s +:+ "..."))
  | _ => Raise (TypeError "unsupported operand type(s) for +")
  end.

(** [for f in v]: the elements a loop over [v] visits.  A dictionary yields
    its keys (their order is not kept by the finite map). *)
Definition iterate (v : value) : result (list value) :=
  match v with
  | VList l => Ok l
  | VStr s => Ok (map (fun c => VStr (String c EmptyString)) (list_ascii_of_string s))
  | VDict d => Ok (map (fun kv => VStr (fst kv)) (map_to_list d))
  | _ => Raise (TypeError "object is not iterable")
  end.

Fixpoint mapM {A B} (f : A -> result B) (l : list A) : result (list B) :=
  match l with
  | [] => Ok []
  | x :: l' =>
      match f x with
      | Raise e => Raise e
      | Ok y => match mapM f l' with
                | Raise e => Raise e
                | Ok ys => Ok (y :: ys)
                end
      end
  end.

Definition rbind {A B} (r : result A) (f : A -> result B) : result B :=
  match r with Ok a => f a | Raise e => Raise e end.

Notation "x <-- r ;; f" := (rbind r (fun x => f))
  (at level 100, r at next level, right associativity).

Definition nl : string := String (ascii_of_nat 10) EmptyString.

(** The insertion-ordered [results] dictionary of the batch loop. *)
Fixpoint dict_set (d : list (string * bool)) (k : string) (v : bool) : list (string * bool) :=
  match d with
  | [] => [(k, v)]
  | (k', v') :: d' =>
      if String.eqb k' k then (k', v) :: d' else (k', v') :: dict_set d' k v
  end.

Fixpoint dict_get (d : list (string * bool)) (k : string) : option bool :=
  match d with
  | [] => None
  | (k', v') :: d' => if String.eqb k' k then Some v' else dict_get d' k
  end.

Section Downloader.
Variable E : Env.

(** [YouTubeDownloader(config_file)]: the configuration is loaded on the
    first line, before [self.logger] is assigned on the second. *)
Definition __init__ (config_file : string) : M (list effect) YouTubeDownloader :=
  cfg <- _load_config E None config_file;;
  lg <- _setup_logging;;
  ret {| config := cfg; logger := lg; download_stats := zero_stats |}.

Definition _create_output_directory (path : value) : M state string :=
  match path with
  | VStr p =>
      emit (Mkdir p);;;
      lift (mkdir_parents E p);;;
      ret p
  | _ => raise (TypeError "expected str, bytes or os.PathLike object")
  end.

Definition _get_format_selector (cfg : value) (kwargs : gmap string value) : result string :=
  dq <-- getitem cfg "default_quality";;
  let quality := kwargs_get kwargs "quality" dq in
  df <-- getitem cfg "default_format";;
  let format_type := kwargs_get kwargs "format" df in
  de <-- getitem cfg "extract_audio";;
  if truthy (kwargs_get kwargs "extract_audio" de) then Ok "bestaudio/best"
  else if eq_str quality "best" then
    Ok ("best[ext=" +:+ py_str E format_type +:+ "]/best")
  else if eq_str quality "worst" then
    Ok ("worst[ext=" +:+ py_str E format_type +:+ "]/worst")
  else
    match quality with
    | VStr q =>
        let height := remove_p q in
        Ok ("best[height<=" +:+ height +:+ "][ext=" +:+ py_str E format_type
            +:+ "]/best[height<=" +:+ height +:+ "]/best")
    | _ => Raise (AttributeError "object has no attribute 'replace'")
    end.

(** [str(output_dir / template)] *)
Definition path_div (output_dir : string) (template : value) : result value :=
  match template with
  | VStr t => Ok (VStr (path_join E output_dir t))
  | _ => Raise (TypeError "unsupported operand type(s) for /")
  end.

Definition _get_ydl_opts (kwargs : gmap string value) : M state (gmap string value) :=
  cfg <- self_config;;
  d_out <- lift (getitem cfg "output_directory");;
  output_dir <- _create_output_directory (kwargs_get kwargs "output_directory" d_out);;
  fmt <- lift (_get_format_selector cfg kwargs);;
  d_tpl <- lift (getitem cfg "filename_template");;
  outtmpl <- lift (path_div output_dir (kwargs_get kwargs "filename_template" d_tpl));;
  d_sub <- lift (getitem cfg "download_subtitles");;
  d_auto <- lift (getitem cfg "download_subtitles");;
  d_langs <- lift (getitem cfg "subtitle_languages");;
  d_audio <- lift (getitem cfg "extract_audio");;
  d_afmt <- lift (getitem cfg "audio_format");;
  d_retry <- lift (getitem cfg "retry_attempts");;
  d_timeout <- lift (getitem cfg "timeout");;
  let opts : gmap string value :=
    list_to_map [
      ("format", VStr fmt);
      ("outtmpl", outtmpl);
      ("writesubtitles", kwargs_get kwargs "download_subtitles" d_sub);
      ("writeautomaticsub", kwargs_get kwargs "download_subtitles" d_auto);
      ("subtitleslangs", kwargs_get kwargs "subtitle_languages" d_langs);
      ("ignoreerrors", VBool true);
      ("no_warnings", VBool false);
      ("extractaudio", kwargs_get kwargs "extract_audio" d_audio);
      ("audioformat", kwargs_get kwargs "audio_format" d_afmt);
      ("retries", kwargs_get kwargs "retry_attempts" d_retry);
      ("socket_timeout", kwargs_get kwargs "timeout" d_timeout)
    ] in
  rl <- lift (get_method cfg "rate_limit" VNone);;
  if truthy rl then
    rl' <- lift (getitem cfg "rate_limit");;
    ret (<["ratelimit" := rl']> opts)
  else ret opts.

Definition _progress_hook (d : gmap string value) : M state unit :=
  status <- lift (getitem (VDict d) "status");;
  if eq_str status "downloading" then
    if bool_decide (is_Some (d !! "total_bytes")) then
      let downloaded := default (VInt 0) (d !! "downloaded_bytes") in
      total <- lift (getitem (VDict d) "total_bytes");;
      lift (truediv downloaded total);;;
      let speed := default VNone (d !! "speed") in
      (if is_not_None speed then lift (gt_zero speed) else ret false);;;
      emit PrintProgress
    else
      lift (truediv (default (VInt 0) (d !! "downloaded_bytes")) (VInt 1024));;;
      emit PrintProgress
  else if eq_str status "finished" then
    fn <- lift (getitem (VDict d) "filename");;
    emit (Print (nl +:+ "Download completed: " +:+ py_str E fn));;;
    update_stats incr_successful;;;
    if bool_decide (is_Some (d !! "total_bytes")) then
      tb <- lift (getitem (VDict d) "total_bytes");;
      match as_int tb with
      | Some n => update_stats (add_size n)
      | None => raise (TypeError "unsupported operand type(s) for +=")
      end
    else ret tt
  else ret tt.

(** [ydl.download([url])] with the hook attached: every call of the hook
    runs on the current state, and the engine continues from its outcome. *)
Fixpoint run_engine (t : engine_run) : M state unit :=
  match t with
  | Return => ret tt
  | Throw e => raise e
  | Hook d k => fun s => let (r, s') := _progress_hook d s in run_engine (k r) s'
  end.

Definition download_single (url : string) (kwargs : gmap string value) : M state bool :=
  try_except
    (logger_log INFO ("Starting download: " +:+ url);;;
     update_stats incr_total;;;
     opts <- _get_ydl_opts kwargs;;
     emit (EngineDownload url opts);;;
     run_engine (ydl_download E url opts);;;
     ret true)
    (fun e =>
       logger_log ERROR ("Download failed for " +:+ url +:+ ": " +:+ str_exn E e);;;
       update_stats incr_failed;;;
       ret false).

Fixpoint batch_loop (n_urls : nat) (urls : list string) (kwargs : gmap string value)
    (results : list (string * bool)) : M state (list (string * bool)) :=
  match urls with
  | [] => ret results
  | url :: rest =>
      logger_log INFO ("Processing batch download " +:+ pretty (length results + 1)%nat
                       +:+ "/" +:+ pretty n_urls);;;
      ok <- download_single url kwargs;;
      let results := dict_set results url ok in
      (if negb ok then logger_log WARNING ("Failed to download: " +:+ url) else ret tt);;;
      batch_loop n_urls rest kwargs results
  end.

Definition download_batch (urls : list string) (kwargs : gmap string value)
  : M state (list (string * bool)) :=
  batch_loop (length urls) urls kwargs [].

Definition download_playlist (playlist_url : string) (kwargs : gmap string value)
  : M state bool :=
  try_except
    (logger_log INFO ("Starting playlist download: " +:+ playlist_url);;;
     opts <- _get_ydl_opts kwargs;;
     emit (EngineDownload playlist_url opts);;;
     run_engine (ydl_download E playlist_url opts);;;
     ret true)
    (fun e =>
       logger_log ERROR ("Playlist download failed: " +:+ str_exn E e);;;
       ret false).

Definition format_descriptor (f : value) : result value :=
  fid <-- getitem f "format_id";;
  ext <-- getitem f "ext";;
  h <-- get_method f "height" VNone;;
  Ok (VDict (list_to_map [("format_id", fid); ("ext", ext); ("height", h)])).

Definition get_video_info (url : string) : M state (option (gmap string value)) :=
  try_except
    (emit (EngineExtractInfo url);;;
     info <- lift (ydl_extract_info E url);;
     title <- lift (get_method info "title" VNone);;
     uploader <- lift (get_method info "uploader" VNone);;
     duration <- lift (get_method info "duration" VNone);;
     view_count <- lift (get_method info "view_count" VNone);;
     upload_date <- lift (get_method info "upload_date" VNone);;
     present <- lift (get_method info "description" VNone);;
     description <-
       (if truthy present then
          d <- lift (get_method info "description" (VStr ""));;
          cut <- lift (slice_200 d);;
          lift (add_ellipsis cut)
        else ret VNone);;
     fs <- lift (get_method info "formats" (VList []));;
     items <- lift (iterate fs);;
     formats <- lift (mapM format_descriptor items);;
     ret (Some (list_to_map [
                  ("title", title);
                  ("uploader", uploader);
                  ("duration", duration);
                  ("view_count", view_count);
                  ("upload_date", upload_date);
                  ("description", description);
                  ("formats", VList formats)
                ] : gmap string value)))
    (fun e =>
       logger_log ERROR ("Failed to get video info: " +:+ str_exn E e);;;
       ret None).

(** [self.download_stats.copy()]: the four integers, by value.  The
    reference structure of the copy is the subject of [Module Aliasing]. *)
Definition get_download_stats : M state stats :=
  fun s => (Ok (download_stats (self s)), s).

Definition reset_stats : M state unit :=
  update_stats (fun _ => zero_stats).
End Downloader.

(** ** cli.py: batch file loading *)

(** A call either returns or ends the process through [sys.exit(code)]. *)
Inductive exit_or (A : Type) :=
| Returned (a : A)
| Exited (code : Z).
Arguments Returned {A} a.
Arguments Exited {A} code.

(** The characters [str.strip()] removes, among the code points below 256. *)
Definition is_space (c : ascii) : bool :=
  let n := nat_of_ascii c in
  (((9 <=? n) && (n <=? 13)) || ((28 <=? n) && (n <=? 32)) || (n =? 133) || (n =? 160))%nat.

Fixpoint lstrip (s : string) : string :=
  match s with
  | EmptyString => EmptyString
  | String c s' => if is_space c then lstrip s' else s
  end.

Fixpoint rstrip (s : string) : string :=
  match s with
  | EmptyString => EmptyString
  | String c s' =>
      match rstrip s' with
      | EmptyString => if is_space c then EmptyString else String c EmptyString
      | r => String c r
      end
  end.

(** [s.strip()] *)
Definition strip (s : string) : string := lstrip (rstrip s).

(** [s.startswith('#')] *)
Definition startswith_hash (s : string) : bool :=
  match s with
  | String c _ => Ascii.eqb c "#"%char
  | EmptyString => false
  end.

Definition is_newline (c : ascii) : bool := Ascii.eqb c (ascii_of_nat 10).

(** [for line in f]: the text of the file cut after every newline, each
    line keeping its newline (text mode has already turned every line
    ending into a single newline character). *)
Fixpoint file_lines (text : string) : list string :=
  match text with
  | EmptyString => []
  | String c rest =>
      if is_newline c then String c EmptyString :: file_lines rest
      else match file_lines rest with
           | [] => [String c EmptyString]
           | line :: lines => String c line :: lines
           end
  end.

(** [[line.strip() for line in f if line.strip() and not line.startswith('#')]] *)
Fixpoint stripped_url_lines (lines : list string) : list string :=
  match lines with
  | [] => []
  | line :: rest =>
      if truthy (VStr (strip line)) && negb (startswith_hash line)
      then strip line :: stripped_url_lines rest
      else stripped_url_lines rest
  end.

Definition load_batch_urls (E : Env) (file_path : string)
  : exit_or (list string) * list effect :=
  match open_file E file_path with
  | Ok text => (Returned (stripped_url_lines (file_lines text)), [])
  | Raise (FileNotFoundError _) =>
      (Exited 1, [Print ("Error: Batch file '" +:+ file_path +:+ "' not found.")])
  | Raise e =>
      (Exited 1, [Print ("Error reading batch file: " +:+ str_exn E e)])
  end.

(** The same notions in the words of the specification: the lines of the
    file without their line endings, a blank line, a comment line. *)
Fixpoint text_lines (text : string) : list string :=
  match text with
  | EmptyString => []
  | String c rest =>
      if is_newline c then EmptyString :: text_lines rest
      else match text_lines rest with
           | [] => [String c EmptyString]
           | line :: lines => String c line :: lines
           end
  end.

Fixpoint all_space (s : string) : bool :=
  match s with
  | EmptyString => true
  | String c s' => is_space c && all_space s'
  end.

Definition blank_line (line : string) : bool := all_space line.
Definition comment_line (line : string) : bool := startswith_hash line.

(** ** References: who can reach the statistics dictionary *)

Module Aliasing.
(** A Python dictionary is an object on the heap; [self.download_stats]
    and the caller's variable hold references to such objects. *)
Definition loc := positive.

Record object := { download_stats_ref : loc }.

Definition stats_dict (st : stats) : gmap string value :=
  list_to_map [
    ("total_downloads", VInt (total_downloads st));
    ("successful_downloads", VInt (successful_downloads st));
    ("failed_downloads", VInt (failed_downloads st));
    ("total_size", VInt (total_size st))
  ].

(** [d.copy()]: a new dictionary object with the same keys and values.
    The values here are integers, immutable, so sharing them between the
    two dictionaries is not observable. *)
Definition dict_copy (h : gmap loc (gmap string value)) (l : loc)
  : option (loc * gmap loc (gmap string value)) :=
  match h !! l with
  | Some d => let l' := fresh (dom h) in Some (l', <[l' := d]> h)
  | None => None
  end.

Definition get_download_stats (self : object) (h : gmap loc (gmap string value))
  : option (loc * gmap loc (gmap string value)) :=
  dict_copy h (download_stats_ref self).

(** What a caller can do to a dictionary it holds a reference to. *)
Inductive mutation :=
| SetItem (k : string) (v : value)
| DelItem (k : string)
| Clear
| Update (other : gmap string value).

Definition mutate (m : mutation) (d : gmap string value) : gmap string value :=
  match m with
  | SetItem k v => <[k := v]> d
  | DelItem k => delete k d
  | Clear => ∅
  | Update other => other ∪ d
  end.

Definition apply_mutation (l : loc) (h : gmap loc (gmap string value)) (m : mutation)
  : gmap loc (gmap string value) :=
  alter (mutate m) l h.

Definition apply_mutations (l : loc) (ms : list mutation) (h : gmap loc (gmap string value))
  : gmap loc (gmap string value) :=
  fold_left (apply_mutation l) ms h.
End Aliasing.

(** ** Notions used to state the properties *)

Definition stats_le (a b : stats) : Prop :=
  total_downloads a <= total_downloads b /\
  successful_downloads a <= successful_downloads b /\
  failed_downloads a <= failed_downloads b /\
  total_size a <= total_size b.

(** A progress event does not report a negative file size. *)
Definition size_ok (d : gmap string value) : bool :=
  match d !! "total_bytes" with
  | Some v => match as_int v with Some n => 0 <=? n | None => true end
  | None => true
  end.

Inductive sizes_ok : engine_run -> Prop :=
| sizes_ok_Return : sizes_ok Return
| sizes_ok_Throw e : sizes_ok (Throw e)
| sizes_ok_Hook d k :
    size_ok d = true -> (forall r, sizes_ok (k r)) -> sizes_ok (Hook d k).

Definition engine_sizes_ok (E : Env) : Prop :=
  forall url opts, sizes_ok (ydl_download E url opts).

(** The public operations of the orchestrator, and the progress callback. *)
Inductive operation :=
| CallProgressHook (d : gmap string value)
| CallDownloadSingle (url : string) (kwargs : gmap string value)
| CallDownloadBatch (urls : list string) (kwargs : gmap string value)
| CallDownloadPlaylist (url : string) (kwargs : gmap string value)
| CallGetVideoInfo (url : string)
| CallGetDownloadStats
| CallResetStats.

Definition run_operation (E : Env) (op : operation) (s : state) : state :=
  match op with
  | CallProgressHook d => snd (_progress_hook E d s)
  | CallDownloadSingle url kwargs => snd (download_single E url kwargs s)
  | CallDownloadBatch urls kwargs => snd (download_batch E urls kwargs s)
  | CallDownloadPlaylist url kwargs => snd (download_playlist E url kwargs s)
  | CallGetVideoInfo url => snd (get_video_info E url s)
  | CallGetDownloadStats => snd (get_download_stats s)
  | CallResetStats => snd (reset_stats s)
  end.

Definition is_reset (op : operation) : bool :=
  match op with CallResetStats => true | _ => false end.

Definition operation_sizes_ok (op : operation) : Prop :=
  match op with
  | CallProgressHook d => size_ok d = true
  | _ => True
  end.

(** The three counters of attempts and outcomes, without the size. *)
Definition counts_le (a b : stats) : Prop :=
  total_downloads a <= total_downloads b /\
  successful_downloads a <= successful_downloads b /\
  failed_downloads a <= failed_downloads b.

(** A newly constructed object around a configuration. *)
Definition new_state (cfg : value) : state :=
  {| self := {| config := cfg; logger := init_logger; download_stats := zero_stats |};
     trace := [] |}.

(** How one engine call ends ([run_engine_result] below: the starting state
    plays no role). *)
Definition engine_result (E : Env) (t : engine_run) : result unit :=
  fst (run_engine E t (new_state VNone)).

Definition attempt_fails (E : Env) (opts : gmap string value) (url : string) : bool :=
  negb (is_ok (engine_result E (ydl_download E url opts))).

Definition is_engine_call (e : effect) : bool :=
  match e with EngineDownload _ _ => true | _ => false end.

Definition stats_of (s : state) : stats := download_stats (self s).

(** What a run of the progress hook can change: it leaves the
    configuration, the attempt counter and the failure counter alone, never
    lowers the success counter, and calls no engine. *)
Definition hook_frame (s s' : state) : Prop :=
  config (self s') = config (self s) /\
  total_downloads (stats_of s') = total_downloads (stats_of s) /\
  failed_downloads (stats_of s') = failed_downloads (stats_of s) /\
  successful_downloads (stats_of s) <= successful_downloads (stats_of s') /\
  List.filter is_engine_call (trace s') = List.filter is_engine_call (trace s).

(** [results[url] = outcome] for the outcome the engine decides. *)
Definition record_outcome (E : Env) (opts : gmap string value)
    (d : list (string * bool)) (u : string) : list (string * bool) :=
  dict_set d u (negb (attempt_fails E opts u)).

(** The alternatives of a format selector, in the order the engine tries
    them: the pieces between the slashes. *)
Fixpoint alternatives (sel : string) : list string :=
  match sel with
  | EmptyString => [EmptyString]
  | String c rest =>
      if Ascii.eqb c "/"%char then EmptyString :: alternatives rest
      else match alternatives rest with
           | [] => [String c EmptyString]
           | a :: others => String c a :: others
           end
  end.

(** A format entry the snapshot can be built from: a dictionary with the
    two keys the source reads by subscript. *)
Definition format_entry_ok (f : value) : bool :=
  match f with
  | VDict d => bool_decide (is_Some (d !! "format_id")) && bool_decide (is_Some (d !! "ext"))
  | _ => false
  end.

(** ** A concrete environment *)

Fixpoint rfind_dot (s : string) : option nat :=
  match s with
  | EmptyString => None
  | String c s' =>
      match rfind_dot s' with
      | Some i => Some (S i)
      | None => if Ascii.eqb c "."%char then Some O else None
      end
  end.

Fixpoint str_drop (n : nat) (s : string) : string :=
  match n, s with
  | O, _ => s
  | S _, EmptyString => EmptyString
  | S n', String _ s' => str_drop n' s'
  end.

(** The suffix of a file name without directory part, as pathlib cuts it. *)
Definition name_suffix (name : string) : string :=
  match rfind_dot name with
  | Some i => if ((0 <? i) && (i <? String.length name - 1))%nat then str_drop i name else ""
  | None => ""
  end.

Definition partial_config : value :=
  VDict (list_to_map [
    ("default_format", VStr "mp4");
    ("output_directory", VStr "./downloads");
    ("retry_attempts", VInt 3);
    ("timeout", VInt 30);
    ("extract_audio", VBool false);
    ("audio_format", VStr "mp3");
    ("download_subtitles", VBool false);
    ("subtitle_languages", VList [VStr "en"]);
    ("filename_template", VStr "%(title)s.%(ext)s")
  ]).

Definition finished_event : gmap string value :=
  list_to_map [("status", VStr "finished"); ("filename", VStr "video.mp4");
               ("total_bytes", VInt 1000)].

Definition sample_info : value :=
  VDict (list_to_map [
    ("title", VStr "A title");
    ("description", VStr "short text");
    ("formats", VList [VDict (list_to_map [("format_id", VStr "18"); ("ext", VStr "mp4");
                                            ("height", VInt 360)])])
  ]).

(** A batch file: a comment, an empty line, an indented URL, a URL. *)
Definition sample_batch_file : string :=
  "# my list" +:+ nl +:+ nl +:+ "  https://a  " +:+ nl +:+ "bad://b" +:+ nl.

(** Three configuration files exist: [config.txt] (a format the loader does not know),
    [broken.yaml] (not parseable) and [partial.yaml] (valid, without
    [default_quality]), and the batch file [urls.txt].  Every URL
    downloads, except those starting with [bad]. *)
Definition sample_env : Env := {|
  path_exists := fun p =>
    String.eqb p "config.txt" || String.eqb p "broken.yaml" || String.eqb p "partial.yaml"
    || String.eqb p "urls.txt";
  path_suffix := name_suffix;
  open_file := fun p =>
    if String.eqb p "config.txt" then Ok "quality=720p"
    else if String.eqb p "broken.yaml" then Ok "a: [1"
    else if String.eqb p "partial.yaml" then Ok "default_format: mp4"
    else if String.eqb p "urls.txt" then Ok sample_batch_file
    else Raise (FileNotFoundError p);
  yaml_safe_load := fun text =>
    if String.eqb text "default_format: mp4" then Ok partial_config
    else Raise (ParseError "while parsing a flow sequence");
  json_load := fun _ => Raise (ParseError "Expecting value");
  mkdir_parents := fun _ => Ok tt;
  path_join := fun dir name => dir +:+ "/" +:+ name;
  ydl_download := fun url _ =>
    if String.prefix "bad" url then Throw (DownloadError "Video unavailable")
    else Hook finished_event (fun r => match r with Ok _ => Return | Raise e => Throw e end);
  ydl_extract_info := fun url =>
    if String.prefix "bad" url then Raise (DownloadError "Video unavailable")
    else Ok sample_info;
  str_container := fun _ => "[...]";
  str_exn := fun e =>
    match e with
    | KeyError k => "'" +:+ k +:+ "'"
    | AttributeError m | TypeError m | OSError m | FileNotFoundError m
    | ParseError m | DownloadError m => m
    | ZeroDivisionError => "division by zero"
    end
|}.

(** The default configuration with a rate limit and a numeric quality, as
    a YAML file with [rate_limit: 500K] and [default_quality: 720] gives. *)
Definition limited_config : value :=
  match _get_default_config with
  | VDict d => VDict (<["rate_limit" := VStr "500K"]> (<["default_quality" := VInt 720]> d))
  | v => v
  end.

(** The default configuration with other defaults for quality and format. *)
Definition hd_config : value :=
  match _get_default_config with
  | VDict d =>
      VDict (<["default_quality" := VStr "1080p"]> (<["default_format" := VStr "webm"]> d))
  | v => v
  end.

(** An environment with another engine. *)
Definition with_engine (f : string -> gmap string value -> engine_run) (E : Env) : Env := {|
  path_exists := path_exists E;
  path_suffix := path_suffix E;
  open_file := open_file E;
  yaml_safe_load := yaml_safe_load E;
  json_load := json_load E;
  mkdir_parents := mkdir_parents E;
  path_join := path_join E;
  ydl_download := f;
  ydl_extract_info := ydl_extract_info E;
  str_container := str_container E;
  str_exn := str_exn E
|}.

(** An engine that returns without reporting anything, and one that
    reports a finished file and then fails. *)
Definition silent_engine (url : string) (opts : gmap string value) : engine_run := Return.
Definition late_failure_engine (url : string) (opts : gmap string value) : engine_run :=
  Hook finished_event (fun _ => Throw (DownloadError "postprocessing failed")).

(** A finished event that reports a negative size, and an engine that
    sends it and returns. *)
Definition shrinking_event : gmap string value :=
  list_to_map [("status", VStr "finished"); ("filename", VStr "video.mp4");
               ("total_bytes", VInt (-5))].
Definition shrinking_engine (url : string) (opts : gmap string value) : engine_run :=
  Hook shrinking_event (fun r => match r with Ok _ => Return | Raise e => Throw e end).

(** An engine that reports a file of [2^1034] bytes and returns. *)
Definition huge_event : gmap string value :=
  list_to_map [("status", VStr "finished"); ("filename", VStr "video.mp4");
               ("total_bytes", VInt (2 ^ 1034))].
Definition huge_engine (url : string) (opts : gmap string value) : engine_run :=
  Hook huge_event (fun r => match r with Ok _ => Return | Raise e => Throw e end).

(** An environment with another answer to the info query, and an answer
    with a format entry that has no [ext]. *)
Definition with_info (f : string -> result value) (E : Env) : Env := {|
  path_exists := path_exists E;
  path_suffix := path_suffix E;
  open_file := open_file E;
  yaml_safe_load := yaml_safe_load E;
  json_load := json_load E;
  mkdir_parents := mkdir_parents E;
  path_join := path_join E;
  ydl_download := ydl_download E;
  ydl_extract_info := f;
  str_container := str_container E;
  str_exn := str_exn E
|}.

Definition broken_info : value :=
  VDict (list_to_map [
    ("title", VStr "A title");
    ("view_count", VInt 1234567);
    ("formats", VList [VDict (list_to_map [("format_id", VStr "18"); ("ext", VStr "mp4")]);
                       VDict (list_to_map [("format_id", VStr "22")])])
  ]).

(** An environment in which every file opens with the given text: here a
    batch file whose first line is an indented comment. *)
Definition with_text (text : string) (E : Env) : Env := {|
  path_exists := path_exists E;
  path_suffix := path_suffix E;
  open_file := fun _ => Ok text;
  yaml_safe_load := yaml_safe_load E;
  json_load := json_load E;
  mkdir_parents := mkdir_parents E;
  path_join := path_join E;
  ydl_download := ydl_download E;
  ydl_extract_info := ydl_extract_info E;
  str_container := str_container E;
  str_exn := str_exn E
|}.

Definition commented_batch_file : string :=
  "  # later" +:+ nl +:+ "https://a" +:+ nl.

(** A step that leaves the downloader object alone and starts no download. *)
Definition quiet (s s' : state) : Prop :=
  self s' = self s /\
  List.filter is_engine_call (trace s') = List.filter is_engine_call (trace s).

(** A format entry as [get_video_info] builds it. *)
Definition is_descriptor (f : value) : Prop :=
  exists fid ext h,
    f = VDict (list_to_map [("format_id", fid); ("ext", ext); ("height", h)]).

(** An engine answer with a view count and no formats. *)
Definition sample_info_counted : value :=
  VDict (list_to_map [("title", VStr "A title"); ("view_count", VInt 1234567)]).

(** ** cli.py: the command line *)

(** The [argparse.Namespace] that [parse_arguments] returns.  An option
    that was not given is [None]; the other fields carry the parser's
    defaults. *)
Record Namespace := {
  arg_url : option string;
  arg_format : string;
  arg_quality : string;
  arg_extract_audio : bool;
  arg_audio_format : string;
  arg_batch : option string;
  arg_playlist : bool;
  arg_output_directory : string;
  arg_filename_template : string;
  arg_download_subtitles : bool;
  arg_subtitle_languages : list string;
  arg_retry_attempts : Z;
  arg_timeout : Z;
  arg_rate_limit : option string;
  arg_config : string;
  arg_log_level : string;
  arg_info : bool;
  arg_stats : bool
}.

(** [bool(x)] for an optional string argument: [None] and [''] are false. *)
Definition given (x : option string) : bool :=
  match x with
  | Some s => negb (String.eqb s "")
  | None => false
  end.

(** The text of an optional string argument where the source passes it on
    ([None] renders as its name). *)
Definition arg_text (x : option string) : string := default "None" x.

(** What cli.py needs from the runtime beyond [Env]:
    - [logging_basicConfig lvl]: all of [setup_logging(lvl)], an error when
      the level name is unknown or the log file cannot be opened;
    - [fmt_size_mb n]: the text of [f"{n / 1024 / 1024:.2f}"], for [n] whose
      first quotient is a float;
    - [fmt_rate a b]: the text of [f"{(a / b) * 100:.1f}"], for [b] not zero
      and a quotient that is a float (the product with 100 may be infinite,
      which has a text). *)
Record CliEnv := {
  lib : Env;
  logging_basicConfig : string -> result unit;
  fmt_size_mb : Z -> string;
  fmt_rate : Z -> Z -> string
}.

(** What ends a function of cli.py other than its return. *)
Inductive stop :=
| SysExit (code : Z)
| Uncaught (e : exn)
| UncaughtValueError (msg : string)
| UncaughtOverflowError (msg : string).

Inductive cli_result (A : Type) :=
| Done (a : A)
| Stop (x : stop).
Arguments Done {A} a.
Arguments Stop {A} x.

Definition C (A : Type) : Type := state -> cli_result A * state.

Definition cret {A} (a : A) : C A := fun s => (Done a, s).
Definition cstop {A} (x : stop) : C A := fun s => (Stop x, s).
Definition cbind {A B} (m : C A) (f : A -> C B) : C B :=
  fun s => match m s with
           | (Done a, s') => f a s'
           | (Stop x, s') => (Stop x, s')
           end.

Notation "x <~ m ;; f" := (cbind m (fun x => f))
  (at level 100, m at next level, right associativity).
Notation "m ;;~ f" := (cbind m (fun _ => f))
  (at level 100, right associativity).

(** A call into downloader.py: an exception it lets out is not caught here. *)
Definition from_M {A} (m : M state A) : C A :=
  fun s => match m s with
           | (Ok a, s') => (Done a, s')
           | (Raise e, s') => (Stop (Uncaught e), s')
           end.

Definition cprint (text : string) : C unit := from_M (emit (Print text)).

(** [sys.exit(code)] *)
Definition sys_exit {A} (code : Z) : C A := cstop (SysExit code).

(** [try: body except Exception as e: handler(str(e))]: [SystemExit] is not
    an [Exception] and passes through. *)
Definition try_except_cli {A} (E : Env) (body : C A) (handler : string -> C A) : C A :=
  fun s => match body s with
           | (Stop (Uncaught e), s') => handler (str_exn E e) s'
           | (Stop (UncaughtValueError msg), s') => handler msg s'
           | (Stop (UncaughtOverflowError msg), s') => handler msg s'
           | other => other
           end.

(** The least magnitude that is beyond every float: a quotient of two
    integers is rounded to the nearest float, ties to even, and from
    [2^1024 - 2^970] on the nearest is past the largest one. *)
Definition float_limit : Z := 2 ^ 1024 - 2 ^ 970.

(** Whether [a / b] is out of the floats' range, for [b] other than zero. *)
Definition quotient_too_large (a b : Z) : bool := float_limit * Z.abs b <=? Z.abs a.

(** [a / b] for two integers, where the quotient only feeds a text: what is
    kept is whether the division raises. *)
Definition int_truediv (a b : Z) : C unit :=
  if b =? 0 then cstop (Uncaught ZeroDivisionError)
  else if quotient_too_large a b
  then cstop (UncaughtOverflowError "integer division result too large for a float")
  else cret tt.

(** The digits of a number, last digit first, with a comma after every
    third digit that is followed by another. *)
Fixpoint group3 (rev_digits : list ascii) : list ascii :=
  match rev_digits with
  | a :: rest1 =>
      match rest1 with
      | b :: rest2 =>
          match rest2 with
          | c :: rest3 =>
              match rest3 with
              | [] => [a; b; c]
              | _ :: _ => a :: b :: c :: ","%char :: group3 rest3
              end
          | [] => [a; b]
          end
      | [] => [a]
      end
  | [] => []
  end.

(** [format(n, ',')] for an integer *)
Definition group_thousands (n : Z) : string :=
  let digits := list_ascii_of_string (pretty (Z.abs n)) in
  let grouped := string_of_list_ascii (rev (group3 (rev digits))) in
  if n <? 0 then "-" +:+ grouped else grouped.

(** [f"{v:,}"]: integers are grouped; a string rejects the comma with
    [ValueError]; [None], lists and dictionaries have no such format. *)
Definition format_comma (v : value) : C string :=
  match v with
  | VInt n => cret (group_thousands n)
  | VBool b => cret (if b then "1" else "0")
  | VStr _ => cstop (UncaughtValueError "Cannot specify ',' with 's'.")
  | _ => cstop (Uncaught (TypeError "unsupported format string passed to __format__"))
  end.

(** [x[:10]] *)
Definition slice_10 (v : value) : result value :=
  match v with
  | VStr s => Ok (VStr (str_take 10 s))
  | VList l => Ok (VList (take 10 l))
  | _ => Raise (TypeError "object is not subscriptable")
  end.

(** The character U+2713 and the character U+2717, which the 8-bit
    characters used here hold as their three UTF-8 bytes. *)
Definition check_mark : string :=
  String (ascii_of_nat 226) (String (ascii_of_nat 156) (String (ascii_of_nat 147) EmptyString)).
Definition cross_mark : string :=
  String (ascii_of_nat 226) (String (ascii_of_nat 156) (String (ascii_of_nat 151) EmptyString)).

Section Cli.
Variable CE : CliEnv.

(** [setup_logging(level)] *)
Definition setup_logging (level : string) : result unit := logging_basicConfig CE level.

Definition print_format_line (fmt : value) : C unit :=
  fid <~ from_M (lift (getitem fmt "format_id"));;
  ext <~ from_M (lift (getitem fmt "ext"));;
  h <~ from_M (lift (get_method fmt "height" (VStr "N/A")));;
  cprint ("  " +:+ py_str (lib CE) fid +:+ ": " +:+ py_str (lib CE) ext
          +:+ " (" +:+ py_str (lib CE) h +:+ "p)").

(** [for fmt in formats: print(...)] *)
Fixpoint print_format_lines (formats : list value) : C unit :=
  match formats with
  | [] => cret tt
  | fmt :: rest => print_format_line fmt;;~ print_format_lines rest
  end.

Definition print_video_info (url : string) : C unit :=
  info <~ from_M (get_video_info (lib CE) url);;
  match info with
  | Some info =>
      if truthy (VDict info) then
        title <~ from_M (lift (getitem (VDict info) "title"));;
        cprint ("Title: " +:+ py_str (lib CE) title);;~
        uploader <~ from_M (lift (getitem (VDict info) "uploader"));;
        cprint ("Uploader: " +:+ py_str (lib CE) uploader);;~
        duration <~ from_M (lift (getitem (VDict info) "duration"));;
        cprint ("Duration: " +:+ py_str (lib CE) duration +:+ " seconds");;~
        view_count <~ from_M (lift (getitem (VDict info) "view_count"));;
        views <~ format_comma view_count;;
        cprint ("View Count: " +:+ views);;~
        upload_date <~ from_M (lift (getitem (VDict info) "upload_date"));;
        cprint ("Upload Date: " +:+ py_str (lib CE) upload_date);;~
        description <~ from_M (lift (getitem (VDict info) "description"));;
        cprint ("Description: " +:+ py_str (lib CE) description);;~
        cprint (nl +:+ "Available formats:");;~
        formats <~ from_M (lift (getitem (VDict info) "formats"));;
        first10 <~ from_M (lift (slice_10 formats));;
        items <~ from_M (lift (iterate first10));;
        print_format_lines items
      else cprint "Failed to retrieve video information."
  | None => cprint "Failed to retrieve video information."
  end.

(** The two divisions are divisions of integers, which raise
    [OverflowError] when the quotient is no float; dividing the float
    again by 1024, or multiplying it by 100, raises nothing.  The counts
    are written in full, as [py_str] writes integers: the interpreter's
    optional limit on the digits of an integer's text is taken as switched
    off. *)
Definition print_download_stats : C unit :=
  st <~ from_M get_download_stats;;
  cprint (nl +:+ "Download Statistics:");;~
  cprint ("Total Downloads: " +:+ pretty (total_downloads st));;~
  cprint ("Successful: " +:+ pretty (successful_downloads st));;~
  cprint ("Failed: " +:+ pretty (failed_downloads st));;~
  int_truediv (total_size st) 1024;;~
  cprint ("Total Size: " +:+ fmt_size_mb CE (total_size st) +:+ " MB");;~
  if 0 <? total_downloads st then
    int_truediv (successful_downloads st) (total_downloads st);;~
    cprint ("Success Rate: " +:+ fmt_rate CE (successful_downloads st) (total_downloads st)
            +:+ "%")
  else cret tt.

(** The keyword arguments [main] builds from the namespace. *)
Definition download_opts (args : Namespace) : gmap string value :=
  let opts : gmap string value :=
    list_to_map [
      ("format", VStr (arg_format args));
      ("quality", VStr (arg_quality args));
      ("extract_audio", VBool (arg_extract_audio args));
      ("audio_format", VStr (arg_audio_format args));
      ("output_directory", VStr (arg_output_directory args));
      ("filename_template", VStr (arg_filename_template args));
      ("download_subtitles", VBool (arg_download_subtitles args));
      ("subtitle_languages", VList (map VStr (arg_subtitle_languages args)));
      ("retry_attempts", VInt (arg_retry_attempts args));
      ("timeout", VInt (arg_timeout args))
    ] in
  if given (arg_rate_limit args)
  then <["rate_limit" := VStr (arg_text (arg_rate_limit args))]> opts
  else opts.

(** [load_batch_urls] as a step of [main]: its message is printed, its
    [sys.exit] ends the run. *)
Definition batch_file_urls (file_path : string) : C (list string) :=
  fun s =>
    let (r, printed) := load_batch_urls (lib CE) file_path in
    (match r with Returned urls => Done urls | Exited code => Stop (SysExit code) end,
     {| self := self s; trace := trace s ++ printed |}).

(** [for url, success in results.items(): print(f"{status} {url}")] *)
Fixpoint print_results (results : list (string * bool)) : C unit :=
  match results with
  | [] => cret tt
  | (url, success) :: rest =>
      cprint ((if success then check_mark else cross_mark) +:+ " " +:+ url);;~
      print_results rest
  end.

(** [main] from the point where the downloader object exists. *)
Definition main_with_downloader (args : Namespace) : C unit :=
  if arg_info args then
    if given (arg_url args) then print_video_info (arg_text (arg_url args))
    else cprint "Error: --info requires a URL";;~ sys_exit 1
  else
    try_except_cli (lib CE)
      (if given (arg_batch args) then
         urls <~ batch_file_urls (arg_text (arg_batch args));;
         cprint ("Starting batch download of " +:+ pretty (length urls) +:+ " URLs...");;~
         results <~ from_M (download_batch (lib CE) urls (download_opts args));;
         cprint (nl +:+ "Batch download completed:");;~
         print_results results
       else if arg_playlist args then
         cprint "Starting playlist download...";;~
         success <~ from_M (download_playlist (lib CE) (arg_text (arg_url args))
                              (download_opts args));;
         if success then cprint "Playlist download completed successfully!"
         else cprint "Playlist download failed.";;~ sys_exit 1
       else
         cprint "Starting single video download...";;~
         success <~ from_M (download_single (lib CE) (arg_text (arg_url args))
                              (download_opts args));;
         if success then cprint "Download completed successfully!"
         else cprint "Download failed.";;~ sys_exit 1)
      (fun text => cprint ("Error during download: " +:+ text);;~ sys_exit 1);;~
    if arg_stats args then print_download_stats else cret tt.

(** [main()], given the namespace that [parse_arguments()] returned: the
    outcome of the run and everything it did. *)
Definition main (args : Namespace) : cli_result unit * list effect :=
  match setup_logging (arg_log_level args) with
  | Raise e => (Stop (Uncaught e), [])
  | Ok _ =>
      if negb (given (arg_url args)) && negb (given (arg_batch args)) then
        (Stop (SysExit 1), [Print "Error: Please provide either a URL or a batch file."])
      else
        match __init__ (lib CE) (arg_config args) [] with
        | (Raise e, tr) =>
            (Stop (SysExit 1),
             tr ++ [Print ("Error initializing downloader: " +:+ str_exn (lib CE) e)])
        | (Ok downloader, tr) =>
            let (r, s) := main_with_downloader args {| self := downloader; trace := tr |} in
            (r, trace s)
        end
  end.
End Cli.

(** The namespace of a command line that gives nothing but a URL: every
    other field is the default declared in [parse_arguments]. *)
Definition default_namespace (url : string) : Namespace := {|
  arg_url := Some url;
  arg_format := "mp4";
  arg_quality := "720p";
  arg_extract_audio := false;
  arg_audio_format := "mp3";
  arg_batch := None;
  arg_playlist := false;
  arg_output_directory := "./downloads";
  arg_filename_template := "%(title)s.%(ext)s";
  arg_download_subtitles := false;
  arg_subtitle_languages := ["en"];
  arg_retry_attempts := 3;
  arg_timeout := 30;
  arg_rate_limit := None;
  arg_config := "config.yaml";
  arg_log_level := "INFO";
  arg_info := false;
  arg_stats := false
|}.

(** The same command line with another [--rate-limit]. *)
Definition set_rate_limit (r : option string) (a : Namespace) : Namespace := {|
  arg_url := arg_url a;
  arg_format := arg_format a;
  arg_quality := arg_quality a;
  arg_extract_audio := arg_extract_audio a;
  arg_audio_format := arg_audio_format a;
  arg_batch := arg_batch a;
  arg_playlist := arg_playlist a;
  arg_output_directory := arg_output_directory a;
  arg_filename_template := arg_filename_template a;
  arg_download_subtitles := arg_download_subtitles a;
  arg_subtitle_languages := arg_subtitle_languages a;
  arg_retry_attempts := arg_retry_attempts a;
  arg_timeout := arg_timeout a;
  arg_rate_limit := r;
  arg_config := arg_config a;
  arg_log_level := arg_log_level a;
  arg_info := arg_info a;
  arg_stats := arg_stats a
|}.

(** The same command line in another mode. *)
Definition set_mode (u b : option string) (playlist info stats : bool) (a : Namespace)
  : Namespace := {|
  arg_url := u;
  arg_format := arg_format a;
  arg_quality := arg_quality a;
  arg_extract_audio := arg_extract_audio a;
  arg_audio_format := arg_audio_format a;
  arg_batch := b;
  arg_playlist := playlist;
  arg_output_directory := arg_output_directory a;
  arg_filename_template := arg_filename_template a;
  arg_download_subtitles := arg_download_subtitles a;
  arg_subtitle_languages := arg_subtitle_languages a;
  arg_retry_attempts := arg_retry_attempts a;
  arg_timeout := arg_timeout a;
  arg_rate_limit := arg_rate_limit a;
  arg_config := arg_config a;
  arg_log_level := arg_log_level a;
  arg_info := info;
  arg_stats := stats
|}.

(** The same command line with another [--config]. *)
Definition set_config (path : string) (a : Namespace) : Namespace := {|
  arg_url := arg_url a;
  arg_format := arg_format a;
  arg_quality := arg_quality a;
  arg_extract_audio := arg_extract_audio a;
  arg_audio_format := arg_audio_format a;
  arg_batch := arg_batch a;
  arg_playlist := arg_playlist a;
  arg_output_directory := arg_output_directory a;
  arg_filename_template := arg_filename_template a;
  arg_download_subtitles := arg_download_subtitles a;
  arg_subtitle_languages := arg_subtitle_languages a;
  arg_retry_attempts := arg_retry_attempts a;
  arg_timeout := arg_timeout a;
  arg_rate_limit := arg_rate_limit a;
  arg_config := path;
  arg_log_level := arg_log_level a;
  arg_info := arg_info a;
  arg_stats := arg_stats a
|}.

(** A sample runtime for cli.py; its two float texts are stand-ins that
    cut the fraction off. *)
Definition sample_cli : CliEnv := {|
  lib := sample_env;
  logging_basicConfig := fun _ => Ok tt;
  fmt_size_mb := fun n => pretty (n / 1048576) +:+ ".00";
  fmt_rate := fun a b => pretty (100 * a / b) +:+ ".0"
|}.

(** The sample runtime around another library environment. *)
Definition cli_around (E : Env) : CliEnv := {|
  lib := E;
  logging_basicConfig := logging_basicConfig sample_cli;
  fmt_size_mb := fmt_size_mb sample_cli;
  fmt_rate := fmt_rate sample_cli
|}.

(** Case analysis on the innermost scrutinee of the goal. *)
Ltac step_match :=
  match goal with
  | |- context [match ?x with _ => _ end] =>
      lazymatch x with
      | context [match _ with _ => _ end] => fail
      | _ => destruct x eqn:?
      end
  end.

(** * Properties *)

(** ** The building blocks on concrete inputs *)

Example suffix_of_yaml : lower (name_suffix "Config.YAML") = ".yaml".
Proof. reflexivity. Qed.

Example suffix_of_hidden_file : name_suffix ".yaml" = "".
Proof. reflexivity. Qed.

Example remove_p_480p : remove_p "480p" = "480".
Proof. reflexivity. Qed.

Example strip_padded : strip (" " +:+ nl +:+ " a b " +:+ nl) = "a b".
Proof. reflexivity. Qed.

Example file_lines_keep_endings :
  file_lines ("a" +:+ nl +:+ nl +:+ "b") = ["a" +:+ nl; nl; "b"].
Proof. reflexivity. Qed.

Example text_lines_drop_endings :
  text_lines ("a" +:+ nl +:+ nl +:+ "b") = ["a"; ""; "b"].
Proof. reflexivity. Qed.

Example dict_set_keeps_position :
  dict_set [("a", true); ("b", true)] "a" false = [("a", false); ("b", true)].
Proof. reflexivity. Qed.

Example finished_event_counts :
  stats_of (snd (_progress_hook sample_env finished_event (new_state VNone)))
  = {| total_downloads := 0; successful_downloads := 1;
       failed_downloads := 0; total_size := 1000 |}.
Proof. vm_compute. reflexivity. Qed.

(** ** Configuration loading *)

Section LoaderFacts.
Variable E : Env.

Lemma load_config_missing (lg : option Logger) (path : string) (tr : list effect) :
  path_exists E path = false ->
  _load_config E lg path tr = (Ok _get_default_config, tr).
Proof.
  intros Hmiss. unfold _load_config. rewrite Hmiss. reflexivity.
Qed.

(** Once [self.logger] exists, every fallback path of the loader ends in
    the default record, with one log line. *)
Lemma load_config_unsupported_logged (lg : Logger) (path text : string) (tr : list effect) :
  path_exists E path = true ->
  open_file E path = Ok text ->
  lower (path_suffix E path) <> ".yaml" ->
  lower (path_suffix E path) <> ".json" ->
  _load_config E (Some lg) path tr =
    (Ok _get_default_config,
     tr ++ [Log WARNING ("Unsupported config format: " +:+ path_suffix E path)]).
Proof.
  intros Hex Hopen Hy Hj. unfold _load_config. rewrite Hex. simpl.
  unfold try_except, bind, lift. rewrite Hopen.
  apply String.eqb_neq in Hy, Hj. rewrite Hy, Hj. reflexivity.
Qed.

Lemma load_config_never_raises_logged (lg : Logger) (path : string) (tr : list effect) :
  exists cfg tr', _load_config E (Some lg) path tr = (Ok cfg, tr').
Proof.
  unfold _load_config. destruct (path_exists E path); simpl; [| eauto].
  unfold try_except, bind, lift.
  destruct (open_file E path) as [text|e]; [| simpl; eauto].
  destruct (String.eqb _ ".yaml").
  { destruct (yaml_safe_load E text); simpl; eauto. }
  destruct (String.eqb _ ".json").
  { destruct (json_load E text); simpl; eauto. }
  simpl. eauto.
Qed.

(** During construction the logger attribute is still missing: the
    warning of the unsupported-format branch raises inside the [try], the
    handler's own log call raises again, and that error leaves
    [__init__]. *)
Lemma init_unsupported_raises (path text : string) (tr : list effect) :
  path_exists E path = true ->
  open_file E path = Ok text ->
  lower (path_suffix E path) <> ".yaml" ->
  lower (path_suffix E path) <> ".json" ->
  __init__ E path tr =
    (Raise (AttributeError "'YouTubeDownloader' object has no attribute 'logger'"), tr).
Proof.
  intros Hex Hopen Hy Hj. unfold __init__, _load_config, bind. rewrite Hex. simpl.
  unfold try_except, bind, lift. rewrite Hopen.
  apply String.eqb_neq in Hy, Hj. rewrite Hy, Hj. reflexivity.
Qed.

Lemma init_parse_failure_raises (path text : string) (e : exn) (tr : list effect) :
  path_exists E path = true ->
  open_file E path = Ok text ->
  lower (path_suffix E path) = ".yaml" ->
  yaml_safe_load E text = Raise e ->
  __init__ E path tr =
    (Raise (AttributeError "'YouTubeDownloader' object has no attribute 'logger'"), tr).
Proof.
  intros Hex Hopen Hy Hparse. unfold __init__, _load_config, bind. rewrite Hex. simpl.
  unfold try_except, bind, lift. rewrite Hopen, Hy. simpl. rewrite Hparse. reflexivity.
Qed.

Lemma init_missing_file (path : string) (tr : list effect) :
  path_exists E path = false ->
  __init__ E path tr =
    (Ok {| config := _get_default_config; logger := init_logger;
           download_stats := zero_stats |}, tr).
Proof.
  intros Hmiss. unfold __init__, bind. rewrite (load_config_missing _ _ _ Hmiss).
  reflexivity.
Qed.
End LoaderFacts.

(** C1 (the code does not do what the claim says).  The claim: for a path
    that is missing, does not parse or has an unknown extension, the loader
    returns the default record and raises nothing.  Here the file
    [config.txt] exists and has an extension the loader does not know, and
    [broken.yaml] exists and is not valid YAML: building the downloader on
    either raises [AttributeError] instead of yielding the defaults, since
    the loader logs through [self.logger] before [__init__] has created it. *)
Theorem load_config_fallback_raises_in_init :
  __init__ sample_env "config.txt" [] =
    (Raise (AttributeError "'YouTubeDownloader' object has no attribute 'logger'"), []) /\
  __init__ sample_env "broken.yaml" [] =
    (Raise (AttributeError "'YouTubeDownloader' object has no attribute 'logger'"), []).
Proof.
  split.
  - apply (init_unsupported_raises sample_env "config.txt" "quality=720p");
      vm_compute; congruence.
  - apply (init_parse_failure_raises sample_env "broken.yaml" "a: [1"
             (ParseError "while parsing a flow sequence")); reflexivity.
Qed.

(** ** Option resolution *)

Section ResolverFacts.
Variable E : Env.

(** The result of option resolution is decided by the configuration; the
    state only receives the directory creation in its trace. *)
Lemma get_ydl_opts_normal kwargs s :
  _get_ydl_opts E kwargs s =
    (fst (_get_ydl_opts E kwargs (new_state (config (self s)))),
     {| self := self s;
        trace := trace s ++ trace (snd (_get_ydl_opts E kwargs (new_state (config (self s))))) |}).
Proof.
  destruct s as [[cfg lg st] tr].
  unfold _get_ydl_opts, _create_output_directory, new_state.
  unfold bind, self_config, lift, emit, ret, raise. simpl.
  repeat (step_match; simpl; try done); by rewrite app_nil_r.
Qed.

Lemma get_ydl_opts_result_config kwargs s :
  fst (_get_ydl_opts E kwargs s) = fst (_get_ydl_opts E kwargs (new_state (config (self s)))).
Proof. by rewrite get_ydl_opts_normal. Qed.

Lemma get_ydl_opts_no_engine_call kwargs s :
  List.filter is_engine_call (trace (snd (_get_ydl_opts E kwargs s)))
  = List.filter is_engine_call (trace s).
Proof.
  destruct s as [[cfg lg st] tr].
  unfold _get_ydl_opts, _create_output_directory.
  unfold bind, self_config, lift, emit, ret, raise. simpl.
  repeat (step_match; simpl; try done);
    rewrite List.filter_app; simpl; apply app_nil_r.
Qed.

(** For the seven options that are read with [kwargs.get(key, config[key])]
    the override wins when present and the configuration value is used
    otherwise. *)
Lemma get_ydl_opts_override_precedence kwargs s opts s' (okey ckey : string) :
  _get_ydl_opts E kwargs s = (Ok opts, s') ->
  In (okey, ckey)
     [("writesubtitles", "download_subtitles");
      ("writeautomaticsub", "download_subtitles");
      ("subtitleslangs", "subtitle_languages");
      ("extractaudio", "extract_audio");
      ("audioformat", "audio_format");
      ("retries", "retry_attempts");
      ("socket_timeout", "timeout")] ->
  exists c,
    getitem (config (self s)) ckey = Ok c /\
    opts !! okey = Some (default c (kwargs !! ckey)).
Proof.
  destruct s as [[cfg lg st] tr].
  unfold _get_ydl_opts, _create_output_directory.
  unfold bind, self_config, lift, emit, ret, raise, kwargs_get. simpl.
  intros Hrun Hin. revert Hrun.
  repeat (step_match; simpl; try discriminate).
  all: intros Hrun; injection Hrun as <- _.
  all: repeat (destruct Hin as [Hin | Hin];
               [injection Hin as <- <-; eexists; split; [eassumption | reflexivity] |]).
  all: destruct Hin.
Qed.

(** The override [rate_limit] is never read: adding it to the keyword
    arguments changes nothing. *)
Lemma get_ydl_opts_ignores_rate_limit_override kwargs v s :
  _get_ydl_opts E (<["rate_limit" := v]> kwargs) s = _get_ydl_opts E kwargs s.
Proof.
  unfold _get_ydl_opts, _get_format_selector, kwargs_get.
  rewrite !lookup_insert_ne by done. reflexivity.
Qed.
End ResolverFacts.

(** C2 (the code does not do what the claim says).  The claim: every
    override key wins over the configuration key, [rate_limit] included,
    so that the engine options carry the override's rate limit.  With the
    default configuration and the single override [rate_limit = '1M'],
    which is what the command line passes for [--rate-limit 1M], option
    resolution succeeds and the resulting options have no [ratelimit]
    entry at all: only [self.config] is consulted for it. *)
Theorem rate_limit_override_dropped :
  exists opts s',
    _get_ydl_opts sample_env {["rate_limit" := VStr "1M"]} (new_state _get_default_config)
      = (Ok opts, s') /\
    opts !! "ratelimit" = None /\
    opts !! "retries" = Some (VInt 3).
Proof.
  assert (H : match fst (_get_ydl_opts sample_env {["rate_limit" := VStr "1M"]}
                            (new_state _get_default_config)) with
              | Ok opts => opts !! "ratelimit" = None /\ opts !! "retries" = Some (VInt 3)
              | Raise _ => False
              end) by (vm_compute; split; reflexivity).
  destruct (_get_ydl_opts sample_env _ _) as [[opts | e] s']; [| destruct H].
  exists opts, s'. split; [reflexivity | exact H].
Qed.

(** C3.  With the three configuration keys the selector reads in place:
    the selector is [bestaudio/best] whenever the effective
    [extract_audio] is true, whatever quality and format are; for quality
    [best] and container [F] it is [best[ext=F]/best]; for any other
    quality [q] (not [worst]) it is the three-step chain built from [q]
    without its [p]; and for [480p] with [webm] it is exactly
    [best[height<=480][ext=webm]/best[height<=480]/best], whose
    alternatives come in the order format and height, height only,
    unconstrained. *)
Theorem format_selector_cases (E : Env) (cfg : value) (kwargs : gmap string value)
    (dq df de : value) :
  getitem cfg "default_quality" = Ok dq ->
  getitem cfg "default_format" = Ok df ->
  getitem cfg "extract_audio" = Ok de ->
  let quality := kwargs_get kwargs "quality" dq in
  let format_type := kwargs_get kwargs "format" df in
  let audio := kwargs_get kwargs "extract_audio" de in
  (truthy audio = true -> _get_format_selector E cfg kwargs = Ok "bestaudio/best") /\
  (truthy audio = false -> forall F, quality = VStr "best" -> format_type = VStr F ->
     _get_format_selector E cfg kwargs = Ok ("best[ext=" +:+ F +:+ "]/best")) /\
  (truthy audio = false -> forall q F,
     quality = VStr q -> q <> "best" -> q <> "worst" -> format_type = VStr F ->
     _get_format_selector E cfg kwargs =
       Ok ("best[height<=" +:+ remove_p q +:+ "][ext=" +:+ F
           +:+ "]/best[height<=" +:+ remove_p q +:+ "]/best")) /\
  (truthy audio = false -> quality = VStr "480p" -> format_type = VStr "webm" ->
     exists sel,
       _get_format_selector E cfg kwargs = Ok sel /\
       sel = "best[height<=480][ext=webm]/best[height<=480]/best" /\
       alternatives sel = ["best[height<=480][ext=webm]"; "best[height<=480]"; "best"]).
Proof.
  intros Hq Hf Ha quality format_type audio.
  unfold _get_format_selector, rbind. rewrite Hq, Hf, Ha.
  fold quality format_type audio.
  repeat split.
  - intros ->. reflexivity.
  - intros -> F -> ->. reflexivity.
  - intros -> q F -> Hb Hw ->. simpl.
    apply String.eqb_neq in Hb, Hw. rewrite Hb, Hw. reflexivity.
  - intros -> -> ->. eexists. split; [reflexivity |]. split; reflexivity.
Qed.

Lemma format_selector_cases_witness :
  _get_format_selector sample_env _get_default_config
    {["quality" := VStr "480p"; "format" := VStr "webm"]}
  = Ok "best[height<=480][ext=webm]/best[height<=480]/best".
Proof.
  pose proof (format_selector_cases sample_env _get_default_config
                {["quality" := VStr "480p"; "format" := VStr "webm"]}
                (VStr "720p") (VStr "mp4") (VBool false)) as H.
  destruct H as (_ & _ & _ & H); [vm_compute; reflexivity ..|].
  destruct H as (sel & Hsel & Heq & _); [vm_compute; reflexivity ..|].
  rewrite Hsel, Heq. reflexivity.
Defined.

(** The sentinel [worst] mirrors [best]. *)
Lemma format_selector_worst (E : Env) (cfg : value) (kwargs : gmap string value)
    (dq df de : value) (F : string) :
  getitem cfg "default_quality" = Ok dq ->
  getitem cfg "default_format" = Ok df ->
  getitem cfg "extract_audio" = Ok de ->
  truthy (kwargs_get kwargs "extract_audio" de) = false ->
  kwargs_get kwargs "quality" dq = VStr "worst" ->
  kwargs_get kwargs "format" df = VStr F ->
  _get_format_selector E cfg kwargs = Ok ("worst[ext=" +:+ F +:+ "]/worst").
Proof.
  intros Hq Hf Ha Haudio Hquality Hformat.
  unfold _get_format_selector, rbind. rewrite Hq, Hf, Ha, Haudio, Hquality, Hformat.
  reflexivity.
Qed.

(** ** The progress hook and the engine *)

Lemma hook_frame_refl s : hook_frame s s.
Proof. unfold hook_frame. repeat split; lia. Qed.

Lemma hook_frame_trans s1 s2 s3 : hook_frame s1 s2 -> hook_frame s2 s3 -> hook_frame s1 s3.
Proof.
  unfold hook_frame. intros (?&?&?&?&?) (?&?&?&?&?).
  repeat split; try congruence; lia.
Qed.

Section HookFacts.
Variable E : Env.

Lemma filter_engine_snoc (tr : list effect) (e : effect) :
  is_engine_call e = false ->
  List.filter is_engine_call (tr ++ [e]) = List.filter is_engine_call tr.
Proof.
  intros He. rewrite List.filter_app. simpl. rewrite He. simpl. apply app_nil_r.
Qed.

Lemma progress_hook_result (d : gmap string value) (s1 s2 : state) :
  fst (_progress_hook E d s1) = fst (_progress_hook E d s2).
Proof.
  unfold _progress_hook, bind, lift, emit, update_stats, ret, raise.
  repeat (step_match; simpl; try reflexivity; try congruence).
Qed.

Lemma progress_hook_frame (d : gmap string value) (s : state) :
  hook_frame s (snd (_progress_hook E d s)).
Proof.
  destruct s as [[cfg lg st] tr].
  unfold _progress_hook, bind, lift, emit, update_stats, ret, raise, hook_frame, stats_of.
  repeat (step_match; simpl; try (repeat split; (reflexivity || lia)));
    try (rewrite filter_engine_snoc by reflexivity; repeat split; (reflexivity || lia)).
Qed.

Lemma progress_hook_size (d : gmap string value) (s : state) :
  size_ok d = true ->
  total_size (stats_of s) <= total_size (stats_of (snd (_progress_hook E d s))).
Proof.
  intros Hd. destruct s as [[cfg lg st] tr].
  unfold _progress_hook, bind, lift, emit, update_stats, ret, raise, stats_of.
  unfold size_ok in Hd. unfold getitem.
  repeat (step_match; simpl in *; try lia); simplify_eq; lia.
Qed.
End HookFacts.

Section EngineFacts.
Variable E : Env.

Lemma run_engine_indep (t : engine_run) (s1 s2 : state) :
  fst (run_engine E t s1) = fst (run_engine E t s2).
Proof.
  revert s1 s2. induction t as [| e | d k IH]; intros s1 s2; simpl; try reflexivity.
  pose proof (progress_hook_result E d s1 s2) as Hd.
  destruct (_progress_hook E d s1) as [r1 s1'], (_progress_hook E d s2) as [r2 s2'].
  simpl in Hd. subst r2. apply IH.
Qed.

Lemma run_engine_result (t : engine_run) (s : state) :
  fst (run_engine E t s) = engine_result E t.
Proof. apply run_engine_indep. Qed.

Lemma run_engine_frame (t : engine_run) (s : state) :
  hook_frame s (snd (run_engine E t s)).
Proof.
  revert s. induction t as [| e | d k IH]; intros s; simpl; try apply hook_frame_refl.
  pose proof (progress_hook_frame E d s) as Hd.
  destruct (_progress_hook E d s) as [r s']. simpl in Hd.
  eapply hook_frame_trans; [exact Hd | apply IH].
Qed.

Lemma run_engine_size (t : engine_run) (s : state) :
  sizes_ok t ->
  total_size (stats_of s) <= total_size (stats_of (snd (run_engine E t s))).
Proof.
  intros Ht. revert s. induction Ht as [| e | d k Hd Hk IH]; intros s; simpl; try lia.
  pose proof (progress_hook_size E d s Hd) as Hs.
  destruct (_progress_hook E d s) as [r s']. simpl in Hs.
  specialize (IH r s'). lia.
Qed.

Local Opaque _get_ydl_opts run_engine.

(** One attempt, once its options are resolved. *)
Lemma download_single_resolved url kwargs s opts :
  fst (_get_ydl_opts E kwargs s) = Ok opts ->
  exists s_in,
    config (self s_in) = config (self s) /\
    stats_of s_in = incr_total (stats_of s) /\
    List.filter is_engine_call (trace s_in)
      = List.filter is_engine_call (trace s) ++ [EngineDownload url opts] /\
    download_single E url kwargs s =
      match run_engine E (ydl_download E url opts) s_in with
      | (Ok _, s_out) => (Ok true, s_out)
      | (Raise e, s_out) =>
          (Ok false,
           {| self := {| config := config (self s_out); logger := logger (self s_out);
                         download_stats := incr_failed (stats_of s_out) |};
              trace := trace s_out
                ++ [Log ERROR ("Download failed for " +:+ url +:+ ": " +:+ str_exn E e)] |})
      end.
Proof.
  intros Hopts.
  unfold download_single, try_except, bind, logger_log, emit, update_stats, ret. simpl.
  set (s1 := {| self := _; trace := _ |}).
  assert (Hcfg : config (self s1) = config (self s)) by reflexivity.
  pose proof (get_ydl_opts_no_engine_call E kwargs s1) as Hne.
  rewrite (get_ydl_opts_normal E kwargs s) in Hopts. simpl in Hopts.
  rewrite (get_ydl_opts_normal E kwargs s1) in Hne |- *. rewrite Hcfg, Hopts in *.
  simpl in Hne |- *.
  match goal with |- context [run_engine E _ ?st] => exists st end.
  split; [reflexivity |]. split; [reflexivity |]. split.
  - simpl. rewrite List.filter_app. simpl. rewrite Hne.
    rewrite List.filter_app. simpl. by rewrite app_nil_r.
  - destruct (run_engine E (ydl_download E url opts) _) as [[[]|e] s_out]; reflexivity.
Qed.

Lemma download_single_unresolved url kwargs s e :
  fst (_get_ydl_opts E kwargs s) = Raise e ->
  exists tr,
    List.filter is_engine_call tr = [] /\
    download_single E url kwargs s =
      (Ok false,
       {| self := {| config := config (self s); logger := logger (self s);
                     download_stats := incr_failed (incr_total (stats_of s)) |};
          trace := trace s ++ tr |}).
Proof.
  intros Hopts.
  unfold download_single, try_except, bind, logger_log, emit, update_stats, ret. simpl.
  set (s1 := {| self := _; trace := _ |}).
  assert (Hcfg : config (self s1) = config (self s)) by reflexivity.
  pose proof (get_ydl_opts_no_engine_call E kwargs s1) as Hne.
  rewrite (get_ydl_opts_normal E kwargs s) in Hopts. simpl in Hopts.
  rewrite (get_ydl_opts_normal E kwargs s1) in Hne |- *. rewrite Hcfg, Hopts in *.
  simpl in Hne |- *.
  exists ([Log INFO ("Starting download: " +:+ url)]
          ++ trace (snd (_get_ydl_opts E kwargs (new_state (config (self s)))))
          ++ [Log ERROR ("Download failed for " +:+ url +:+ ": " +:+ str_exn E e)]).
  split.
  2: { rewrite <- !app_assoc. reflexivity. }
  rewrite !List.filter_app in Hne |- *. simpl in Hne |- *.
  rewrite !app_nil_r in Hne. 
  apply (f_equal (@length _)) in Hne. rewrite length_app in Hne.
  destruct (List.filter _ (trace (snd _))); [reflexivity | simpl in Hne; lia].
Qed.
End EngineFacts.

Section OutcomeFacts.
Variable E : Env.
Local Opaque _get_ydl_opts run_engine.

Lemma download_single_outcome url kwargs s opts :
  fst (_get_ydl_opts E kwargs s) = Ok opts ->
  let r := download_single E url kwargs s in
  fst r = Ok (negb (attempt_fails E opts url)) /\
  config (self (snd r)) = config (self s) /\
  total_downloads (stats_of (snd r)) = total_downloads (stats_of s) + 1 /\
  failed_downloads (stats_of (snd r)) =
    failed_downloads (stats_of s) + (if attempt_fails E opts url then 1 else 0) /\
  successful_downloads (stats_of s) <= successful_downloads (stats_of (snd r)) /\
  List.filter is_engine_call (trace (snd r)) =
    List.filter is_engine_call (trace s) ++ [EngineDownload url opts].
Proof.
  intros Hopts.
  destruct (download_single_resolved E url kwargs s opts Hopts)
    as (s_in & Hcfg & Hst & Htr & ->).
  pose proof (run_engine_result E (ydl_download E url opts) s_in) as Hres.
  pose proof (run_engine_frame E (ydl_download E url opts) s_in) as (Hc & Ht & Hf & Hs & Hcalls).
  unfold attempt_fails. rewrite <- Hres.
  destruct (run_engine E (ydl_download E url opts) s_in) as [[[]|e] s_out];
    simpl in *; unfold stats_of in *; simpl;
    rewrite ?Hst in *; simpl in *.
  - repeat split; try congruence; lia.
  - rewrite List.filter_app. simpl. rewrite app_nil_r.
    repeat split; try congruence; lia.
Qed.

Lemma download_single_returns url kwargs s :
  exists b, fst (download_single E url kwargs s) = Ok b.
Proof.
  destruct (fst (_get_ydl_opts E kwargs s)) as [opts|e] eqn:Hopts.
  - destruct (download_single_outcome url kwargs s opts Hopts) as (-> & _). eauto.
  - destruct (download_single_unresolved E url kwargs s e Hopts) as (tr & _ & ->). eauto.
Qed.

Lemma download_single_total url kwargs s :
  total_downloads (stats_of (snd (download_single E url kwargs s)))
  = total_downloads (stats_of s) + 1.
Proof.
  destruct (fst (_get_ydl_opts E kwargs s)) as [opts|e] eqn:Hopts.
  - by destruct (download_single_outcome url kwargs s opts Hopts) as (_ & _ & -> & _).
  - by destruct (download_single_unresolved E url kwargs s e Hopts) as (tr & _ & ->).
Qed.

Lemma download_single_stats_le url kwargs s :
  engine_sizes_ok E ->
  stats_le (stats_of s) (stats_of (snd (download_single E url kwargs s))).
Proof.
  intros HE.
  destruct (fst (_get_ydl_opts E kwargs s)) as [opts|e] eqn:Hopts.
  - destruct (download_single_outcome url kwargs s opts Hopts) as (_ & _ & Ht & Hf & Hs & _).
    destruct (download_single_resolved E url kwargs s opts Hopts)
      as (s_in & Hcfg & Hst & Htr & Heq).
    pose proof (run_engine_size E _ s_in (HE url opts)) as Hsize.
    rewrite Heq in *.
    destruct (run_engine E (ydl_download E url opts) s_in) as [[[]|e] s_out];
      simpl in *; unfold stats_le, stats_of in *; simpl in *; rewrite Hst in *; simpl in *;
      destruct (attempt_fails E opts url); repeat split; lia.
  - destruct (download_single_unresolved E url kwargs s e Hopts) as (tr & _ & ->).
    unfold stats_le, stats_of. simpl. repeat split; lia.
Qed.
End OutcomeFacts.

(** ** Single download *)

(** C4.  For a URL and keyword arguments whose options resolve to [opts]:
    the call adds exactly one to the attempt counter; when the engine call
    raises [e] the call returns [False] (it does not raise), adds exactly
    one to the failure counter and ends by logging the error; when the
    engine call raises nothing the call returns [True] and leaves the
    failure counter alone. *)
Theorem download_single_contract (E : Env) (url : string) (kwargs : gmap string value)
    (s : state) (opts : gmap string value) :
  fst (_get_ydl_opts E kwargs s) = Ok opts ->
  let r := download_single E url kwargs s in
  total_downloads (stats_of (snd r)) = total_downloads (stats_of s) + 1 /\
  match engine_result E (ydl_download E url opts) with
  | Raise e =>
      fst r = Ok false /\
      failed_downloads (stats_of (snd r)) = failed_downloads (stats_of s) + 1 /\
      last (trace (snd r)) =
        Some (Log ERROR ("Download failed for " +:+ url +:+ ": " +:+ str_exn E e))
  | Ok _ =>
      fst r = Ok true /\
      failed_downloads (stats_of (snd r)) = failed_downloads (stats_of s)
  end.
Proof.
  intros Hopts r.
  destruct (download_single_outcome E url kwargs s opts Hopts) as (Hr & _ & Ht & Hf & _).
  fold r in Hr, Ht, Hf. split; [exact Ht |].
  destruct (download_single_resolved E url kwargs s opts Hopts) as (s_in & _ & _ & _ & Heq).
  pose proof (run_engine_result E (ydl_download E url opts) s_in) as Hres.
  unfold attempt_fails in Hr, Hf. rewrite <- Hres in Hr, Hf |- *.
  subst r. rewrite Heq in *.
  destruct (run_engine E (ydl_download E url opts) s_in) as [[[] | e] s_out];
    simpl in *.
  - split; [reflexivity | lia].
  - split; [reflexivity |]. split; [lia |]. apply last_snoc.
Qed.

Lemma sample_options_resolve :
  is_ok (fst (_get_ydl_opts sample_env ∅ (new_state _get_default_config))) = true.
Proof. vm_compute. reflexivity. Qed.

Lemma download_single_contract_witness :
  fst (download_single sample_env "bad://video" ∅ (new_state _get_default_config)) = Ok false /\
  fst (download_single sample_env "https://video" ∅ (new_state _get_default_config)) = Ok true.
Proof.
  pose proof sample_options_resolve as Hok.
  destruct (fst (_get_ydl_opts sample_env ∅ (new_state _get_default_config)))
    as [opts | e] eqn:Hopts; [clear Hok | discriminate Hok].
  split.
  - pose proof (download_single_contract sample_env "bad://video" ∅
                  (new_state _get_default_config) opts Hopts) as (_ & H).
    vm_compute engine_result in H. exact (proj1 H).
  - pose proof (download_single_contract sample_env "https://video" ∅
                  (new_state _get_default_config) opts Hopts) as (_ & H).
    vm_compute engine_result in H. exact (proj1 H).
Defined.

(** ** Batch download *)

Section DictFacts.
Lemma dict_get_set_eq d k v : dict_get (dict_set d k v) k = Some v.
Proof.
  induction d as [| [k' v'] d IH]; simpl.
  - by rewrite String.eqb_refl.
  - destruct (String.eqb k' k) eqn:Hk; simpl; rewrite Hk; [reflexivity | exact IH].
Qed.

Lemma dict_get_set_ne d k k' v : k <> k' -> dict_get (dict_set d k v) k' = dict_get d k'.
Proof.
  intros Hne. induction d as [| [k0 v0] d IH]; simpl.
  - apply String.eqb_neq in Hne. by rewrite Hne.
  - destruct (String.eqb k0 k) eqn:Hk; simpl.
    + apply String.eqb_eq in Hk. subst k0.
      apply String.eqb_neq in Hne. by rewrite Hne.
    + by rewrite IH.
Qed.

Lemma dict_set_keys_in d k v : In k (map fst d) -> map fst (dict_set d k v) = map fst d.
Proof.
  induction d as [| [k0 v0] d IH]; simpl; [tauto |].
  intros Hin. destruct (String.eqb k0 k) eqn:Hk; simpl; [reflexivity |].
  apply String.eqb_neq in Hk. destruct Hin as [? | Hin]; [congruence |].
  by rewrite IH.
Qed.

Lemma dict_set_keys_fresh d k v :
  ~ In k (map fst d) -> map fst (dict_set d k v) = map fst d ++ [k].
Proof.
  induction d as [| [k0 v0] d IH]; simpl; [reflexivity |].
  intros Hnin. destruct (String.eqb k0 k) eqn:Hk; simpl.
  - apply String.eqb_eq in Hk. tauto.
  - rewrite IH; [reflexivity | tauto].
Qed.

Lemma dict_get_keys d k : In k (map fst d) <-> dict_get d k <> None.
Proof.
  induction d as [| [k0 v0] d IH]; simpl; [tauto |].
  destruct (String.eqb k0 k) eqn:Hk.
  - apply String.eqb_eq in Hk. split; [discriminate | auto].
  - apply String.eqb_neq in Hk. rewrite <- IH. split; [| tauto].
    intros [? | ?]; [congruence | assumption].
Qed.

Lemma existsb_eqb_In (u : string) (urls : list string) :
  existsb (String.eqb u) urls = true <-> In u urls.
Proof.
  rewrite existsb_exists. split.
  - intros (x & Hx & Heq). apply String.eqb_eq in Heq. by subst x.
  - intros Hin. exists u. split; [exact Hin | apply String.eqb_refl].
Qed.
End DictFacts.

Section BatchFacts.
Variable E : Env.
Local Opaque download_single.

Lemma batch_loop_spec (n : nat) (urls : list string) kwargs opts :
  forall (acc : list (string * bool)) (s : state),
  fst (_get_ydl_opts E kwargs s) = Ok opts ->
  exists s',
    batch_loop E n urls kwargs acc s
      = (Ok (fold_left (record_outcome E opts) urls acc), s') /\
    List.filter is_engine_call (trace s') =
      List.filter is_engine_call (trace s) ++ map (fun u => EngineDownload u opts) urls /\
    total_downloads (stats_of s') = total_downloads (stats_of s) + Z.of_nat (length urls) /\
    failed_downloads (stats_of s') =
      failed_downloads (stats_of s)
      + Z.of_nat (length (List.filter (attempt_fails E opts) urls)).
Proof.
  induction urls as [| u rest IH]; intros acc s Hopts.
  - exists s. simpl. rewrite app_nil_r. repeat split; lia.
  - cbn [batch_loop fold_left map length List.filter].
    unfold bind at 1. unfold logger_log at 1, emit at 1.
    set (s1 := {| self := self s; trace := _ |}).
    assert (Hopts1 : fst (_get_ydl_opts E kwargs s1) = Ok opts).
    { rewrite (get_ydl_opts_result_config E). simpl.
      by rewrite <- (get_ydl_opts_result_config E). }
    destruct (download_single_outcome E u kwargs s1 opts Hopts1)
      as (Hr & Hcfg & Ht & Hf & _ & Hcalls).
    unfold bind at 1.
    destruct (download_single E u kwargs s1) as [r s2]. simpl in Hr, Hcfg, Ht, Hf, Hcalls.
    subst r.
    set (s3 := snd ((if negb (negb (attempt_fails E opts u))
                     then logger_log WARNING ("Failed to download: " +:+ u)
                     else ret ()) s2)).
    assert (Hs3 : (if negb (negb (attempt_fails E opts u))
                   then logger_log WARNING ("Failed to download: " +:+ u)
                   else ret ()) s2 = (Ok tt, s3) /\
                  self s3 = self s2 /\
                  List.filter is_engine_call (trace s3) = List.filter is_engine_call (trace s2)).
    { subst s3. destruct (attempt_fails E opts u); simpl; [| done].
      rewrite List.filter_app. simpl. by rewrite app_nil_r. }
    destruct Hs3 as (Hrun & Hself & Htr3).
    unfold bind. rewrite Hrun.
    assert (Hopts3 : fst (_get_ydl_opts E kwargs s3) = Ok opts).
    { rewrite (get_ydl_opts_result_config E), Hself, Hcfg. simpl.
      by rewrite <- (get_ydl_opts_result_config E). }
    destruct (IH (dict_set acc u (negb (attempt_fails E opts u))) s3 Hopts3)
      as (s' & Hloop & Hcalls' & Ht' & Hf').
    exists s'. split; [exact Hloop |].
    unfold stats_of in *. rewrite Hself in *.
    rewrite Hcalls', Htr3, Hcalls. subst s1. cbn [self trace] in *.
    rewrite List.filter_app. simpl List.filter.
    rewrite app_nil_r, <- app_assoc. simpl app.
    split; [reflexivity |]. split; [lia |].
    destruct (attempt_fails E opts u); cbn [length]; lia.
Qed.
End BatchFacts.

Section ResultsFacts.
Variable E : Env.
Variable opts : gmap string value.

Lemma fold_record_get (urls : list string) :
  forall (acc : list (string * bool)) (u : string),
  dict_get (fold_left (record_outcome E opts) urls acc) u =
    if existsb (String.eqb u) urls then Some (negb (attempt_fails E opts u))
    else dict_get acc u.
Proof.
  induction urls as [| x rest IH]; intros acc u; simpl; [reflexivity |].
  rewrite IH. destruct (existsb (String.eqb u) rest); [by rewrite orb_true_r |].
  rewrite orb_false_r. unfold record_outcome.
  destruct (String.eqb u x) eqn:Hux.
  - apply String.eqb_eq in Hux. subst x. apply dict_get_set_eq.
  - apply String.eqb_neq in Hux. apply dict_get_set_ne. congruence.
Qed.

Lemma fold_record_keys (urls : list string) :
  forall acc : list (string * bool),
  NoDup (map fst acc ++ urls) ->
  map fst (fold_left (record_outcome E opts) urls acc) = map fst acc ++ urls.
Proof.
  induction urls as [| x rest IH]; intros acc Hnd; simpl.
  - by rewrite app_nil_r.
  - assert (Hfresh : ~ In x (map fst acc)).
    { intros Hin. apply NoDup_app in Hnd as (_ & Hdisj & _).
      apply (Hdisj x); [by apply list_elem_of_In | left]. }
    unfold record_outcome at 2.
    rewrite IH; rewrite (dict_set_keys_fresh _ _ _ Hfresh), <- ?app_assoc; [reflexivity |].
    exact Hnd.
Qed.

Lemma fold_record_keys_nodup (urls : list string) :
  forall acc : list (string * bool),
  NoDup (map fst acc) ->
  NoDup (map fst (fold_left (record_outcome E opts) urls acc)).
Proof.
  induction urls as [| x rest IH]; intros acc Hnd; simpl; [exact Hnd |].
  apply IH. unfold record_outcome.
  destruct (in_dec string_dec x (map fst acc)) as [Hin | Hnin].
  - by rewrite dict_set_keys_in.
  - rewrite dict_set_keys_fresh by exact Hnin.
    apply NoDup_app. split; [exact Hnd |]. split.
    + intros y Hy Hy'. apply list_elem_of_In in Hy, Hy'.
      destruct Hy' as [<- | []]. tauto.
    + apply NoDup_singleton.
Qed.
End ResultsFacts.

(** C5 (as found in the code).  Claimed: a batch of N URLs yields a mapping
    with exactly N entries.  The mapping is keyed by URL, so a URL listed
    twice has one entry.  What holds, for keyword arguments whose options
    resolve to [opts]: the batch returns (it does not raise); the engine is
    called once per listed URL, in input order, with none skipped after a
    failure; the keys of the mapping are the listed URLs, each once; a URL
    is mapped to [False] exactly when it is listed and its engine call
    fails, and is absent exactly when it is not listed; when the listed
    URLs are pairwise
    distinct the keys are the URLs in input order, N entries; the failure
    counter grows by the number of listed URLs whose engine call fails and
    the attempt counter by N. *)
Theorem download_batch_contract (E : Env) (urls : list string)
    (kwargs : gmap string value) (s : state) (opts : gmap string value) :
  fst (_get_ydl_opts E kwargs s) = Ok opts ->
  exists results s',
    download_batch E urls kwargs s = (Ok results, s') /\
    List.filter is_engine_call (trace s') =
      List.filter is_engine_call (trace s) ++ map (fun u => EngineDownload u opts) urls /\
    NoDup (map fst results) /\
    (forall u, In u (map fst results) <-> In u urls) /\
    (forall u, dict_get results u =
               if existsb (String.eqb u) urls
               then Some (negb (attempt_fails E opts u)) else None) /\
    (NoDup urls -> map fst results = urls /\ length results = length urls) /\
    failed_downloads (stats_of s') =
      failed_downloads (stats_of s)
      + Z.of_nat (length (List.filter (attempt_fails E opts) urls)) /\
    total_downloads (stats_of s') = total_downloads (stats_of s) + Z.of_nat (length urls).
Proof.
  intros Hopts. unfold download_batch.
  destruct (batch_loop_spec E (length urls) urls kwargs opts [] s Hopts)
    as (s' & Hrun & Hcalls & Ht & Hf).
  exists (fold_left (record_outcome E opts) urls []), s'.
  split; [exact Hrun |]. split; [exact Hcalls |].
  split; [apply fold_record_keys_nodup; constructor |].
  split.
  { intros u. rewrite dict_get_keys, fold_record_get, <- existsb_eqb_In.
    destruct (existsb (String.eqb u) urls); simpl; split; congruence. }
  split; [intros u; apply fold_record_get |].
  split; [| split; [exact Hf | exact Ht]].
  intros Hnd.
  assert (Hkeys : map fst (fold_left (record_outcome E opts) urls []) = urls)
    by (apply (fold_record_keys E opts urls []); exact Hnd).
  split; [exact Hkeys |].
  rewrite <- Hkeys at 2. by rewrite length_map.
Qed.

Lemma download_batch_contract_witness :
  exists results s',
    download_batch sample_env ["https://a"; "bad://b"; "https://c"] ∅
      (new_state _get_default_config) = (Ok results, s') /\
    dict_get results "bad://b" = Some false /\
    dict_get results "https://c" = Some true /\
    length results = 3%nat /\
    failed_downloads (stats_of s') = 1 /\
    total_downloads (stats_of s') = 3.
Proof.
  pose proof sample_options_resolve as Hok.
  destruct (fst (_get_ydl_opts sample_env ∅ (new_state _get_default_config)))
    as [opts | e] eqn:Hopts; [clear Hok | discriminate Hok].
  destruct (download_batch_contract sample_env ["https://a"; "bad://b"; "https://c"] ∅
              (new_state _get_default_config) opts Hopts)
    as (results & s' & Hrun & _ & _ & _ & Hget & Hlen & Hf & Ht).
  exists results, s'. split; [exact Hrun |].
  pose proof (Hget "bad://b") as Hb. pose proof (Hget "https://c") as Hc.
  vm_compute in Hb, Hc, Hf, Ht.
  assert (Hnd : NoDup ["https://a"; "bad://b"; "https://c"]) by (apply (bool_decide_unpack _); vm_compute; exact I).
  destruct (Hlen Hnd) as (_ & Hn).
  repeat split; assumption.
Defined.

(** The claim as stated fails on a list that names a URL twice: two URLs
    go in, one entry comes out. *)
Lemma download_batch_duplicate_url :
  fst (download_batch sample_env ["https://a"; "https://a"] ∅ (new_state _get_default_config))
    = Ok [("https://a", true)] /\
  length [("https://a", true)] <> length ["https://a"; "https://a"].
Proof.
  split; [vm_compute; reflexivity | simpl; lia].
Qed.

(** ** Video information *)

Section InfoFacts.
Variable E : Env.

Lemma format_descriptor_ok (f : value) :
  format_entry_ok f = true -> exists out, format_descriptor f = Ok out.
Proof.
  destruct f as [| | | | | d]; simpl; try discriminate.
  intros Hf. apply andb_prop in Hf as [Hid Hext].
  apply bool_decide_eq_true in Hid as [fid Hid].
  apply bool_decide_eq_true in Hext as [ext Hext].
  unfold format_descriptor, rbind, getitem, get_method. rewrite Hid, Hext. eauto.
Qed.

Lemma mapM_format_descriptor_ok (fs : list value) :
  forallb format_entry_ok fs = true -> exists out, mapM format_descriptor fs = Ok out.
Proof.
  induction fs as [| f fs IH]; simpl; [eauto |].
  intros Hfs. apply andb_prop in Hfs as [Hf Hfs].
  destruct (format_descriptor_ok f Hf) as [o ->].
  destruct (IH Hfs) as [os ->]. eauto.
Qed.

Lemma str_take_length (n : nat) (s : string) : (String.length (str_take n s) <= n)%nat.
Proof.
  revert s. induction n as [| n IH]; intros s.
  - destruct s; cbv; lia.
  - destruct s as [| a s]; [cbv; lia |].
    change (str_take (S n) (String a s)) with (String a (str_take n s)).
    cbn [String.length]. specialize (IH s). lia.
Qed.

Lemma str_take_prefix (n : nat) (s : string) : String.prefix (str_take n s) s = true.
Proof.
  revert s. induction n as [| n IH]; intros s.
  - destruct s; reflexivity.
  - destruct s as [| a s]; [reflexivity |].
    change (str_take (S n) (String a s)) with (String a (str_take n s)).
    cbn [String.prefix]. rewrite IH.
    destruct (ascii_dec a a); [reflexivity | congruence].
Qed.

Lemma get_video_info_returns (url : string) (s : state) :
  exists r, fst (get_video_info E url s) = Ok r.
Proof.
  unfold get_video_info, try_except, bind, lift, emit, logger_log, ret. simpl.
  repeat (step_match; simpl; eauto).
Qed.

Lemma get_video_info_stats (url : string) (s : state) :
  stats_of (snd (get_video_info E url s)) = stats_of s.
Proof.
  unfold get_video_info, try_except, bind, lift, emit, logger_log, ret. simpl.
  repeat (step_match; simpl; try reflexivity).
Qed.
End InfoFacts.



(** ** Statistics *)

Section StatsFacts.
Variable E : Env.
Hypothesis sizes : engine_sizes_ok E.

Lemma stats_le_refl (a : stats) : stats_le a a.
Proof. unfold stats_le. lia. Qed.

Lemma stats_le_trans (a b c : stats) : stats_le a b -> stats_le b c -> stats_le a c.
Proof. unfold stats_le. lia. Qed.

Lemma progress_hook_stats_le (d : gmap string value) (s : state) :
  size_ok d = true ->
  stats_le (stats_of s) (stats_of (snd (_progress_hook E d s))).
Proof.
  intros Hd. pose proof (progress_hook_frame E d s) as (_ & Ht & Hf & Hs & _).
  pose proof (progress_hook_size E d s Hd). unfold stats_le. lia.
Qed.

Lemma download_playlist_stats_le (url : string) (kwargs : gmap string value) (s : state) :
  stats_le (stats_of s) (stats_of (snd (download_playlist E url kwargs s))).
Proof.
  unfold download_playlist, try_except, bind, logger_log, emit, update_stats, ret. simpl.
  rewrite (get_ydl_opts_normal E). simpl.
  destruct (fst (_get_ydl_opts E kwargs _)) as [opts | e]; simpl; [| apply stats_le_refl].
  match goal with |- context [run_engine E ?t ?st] =>
    pose proof (run_engine_frame E t st) as (_ & Ht & Hf & Hs & _);
    pose proof (run_engine_size E t st (sizes url opts)) as Hsize;
    destruct (run_engine E t st) as [[[] | e] s_out]
  end; simpl in *; unfold stats_le, stats_of in *; simpl in *; lia.
Qed.

Lemma batch_loop_stats_le (n : nat) (urls : list string) (kwargs : gmap string value) :
  forall (acc : list (string * bool)) (s : state),
  stats_le (stats_of s) (stats_of (snd (batch_loop E n urls kwargs acc s))).
Proof.
  induction urls as [| u rest IH]; intros acc s; [apply stats_le_refl |].
  cbn [batch_loop]. unfold bind at 1. unfold logger_log at 1, emit at 1.
  set (s1 := {| self := self s; trace := _ |}).
  pose proof (download_single_stats_le E u kwargs s1 sizes) as Hle.
  destruct (download_single_returns E u kwargs s1) as [b Hb].
  unfold bind at 1.
  destruct (download_single E u kwargs s1) as [r s2]. simpl in Hb, Hle. subst r.
  unfold bind.
  destruct b; simpl.
  - eapply stats_le_trans; [exact Hle | apply IH].
  - eapply stats_le_trans; [exact Hle |].
    match goal with |- context [batch_loop E n rest kwargs ?a ?st] =>
      apply (IH a st) end.
Qed.
End StatsFacts.

Section CountFacts.
Variable E : Env.

Lemma counts_le_refl (a : stats) : counts_le a a.
Proof. unfold counts_le. lia. Qed.

Lemma counts_le_trans (a b c : stats) : counts_le a b -> counts_le b c -> counts_le a c.
Proof. unfold counts_le. lia. Qed.

Lemma progress_hook_counts_le (d : gmap string value) (s : state) :
  counts_le (stats_of s) (stats_of (snd (_progress_hook E d s))).
Proof.
  pose proof (progress_hook_frame E d s) as (_ & Ht & Hf & Hs & _).
  unfold counts_le. lia.
Qed.

Lemma download_single_counts_le (url : string) (kwargs : gmap string value) (s : state) :
  counts_le (stats_of s) (stats_of (snd (download_single E url kwargs s))).
Proof.
  destruct (fst (_get_ydl_opts E kwargs s)) as [opts | e] eqn:Hopts.
  - destruct (download_single_outcome E url kwargs s opts Hopts) as (_ & _ & Ht & Hf & Hs & _).
    unfold counts_le. destruct (attempt_fails E opts url); lia.
  - destruct (download_single_unresolved E url kwargs s e Hopts) as (tr & _ & ->).
    unfold counts_le, stats_of. simpl. lia.
Qed.

Lemma download_playlist_counts_le (url : string) (kwargs : gmap string value) (s : state) :
  counts_le (stats_of s) (stats_of (snd (download_playlist E url kwargs s))).
Proof.
  unfold download_playlist, try_except, bind, logger_log, emit, update_stats, ret. simpl.
  rewrite (get_ydl_opts_normal E). simpl.
  destruct (fst (_get_ydl_opts E kwargs _)) as [opts | e]; simpl; [| apply counts_le_refl].
  match goal with |- context [run_engine E ?t ?st] =>
    pose proof (run_engine_frame E t st) as (_ & Ht & Hf & Hs & _);
    destruct (run_engine E t st) as [[[] | e] s_out]
  end; simpl in *; unfold counts_le, stats_of in *; simpl in *; lia.
Qed.

Lemma batch_loop_counts_le (n : nat) (urls : list string) (kwargs : gmap string value) :
  forall (acc : list (string * bool)) (s : state),
  counts_le (stats_of s) (stats_of (snd (batch_loop E n urls kwargs acc s))).
Proof.
  induction urls as [| u rest IH]; intros acc s; [apply counts_le_refl |].
  cbn [batch_loop]. unfold bind at 1. unfold logger_log at 1, emit at 1.
  set (s1 := {| self := self s; trace := _ |}).
  pose proof (download_single_counts_le u kwargs s1) as Hle.
  destruct (download_single_returns E u kwargs s1) as [b Hb].
  unfold bind at 1.
  destruct (download_single E u kwargs s1) as [r s2]. simpl in Hb, Hle. subst r.
  unfold bind.
  destruct b; simpl.
  - eapply counts_le_trans; [exact Hle | apply IH].
  - eapply counts_le_trans; [exact Hle |].
    match goal with |- context [batch_loop E n rest kwargs ?a ?st] =>
      apply (IH a st) end.
Qed.
End CountFacts.


Lemma sample_env_sizes_ok : engine_sizes_ok sample_env.
Proof.
  intros url opts. simpl. destruct (String.prefix "bad" url); [constructor |].
  constructor; [reflexivity |]. intros [[] | e]; constructor.
Qed.



(** ** Batch file loading *)

Section StripFacts.
Lemma rstrip_newline (s : string) : rstrip (s +:+ nl) = rstrip s.
Proof.
  induction s as [| a s IH]; [reflexivity |].
  change (String a s +:+ nl) with (String a (s +:+ nl)).
  change (rstrip (String a (s +:+ nl)))
    with (match rstrip (s +:+ nl) with
          | EmptyString => if is_space a then EmptyString else String a EmptyString
          | String b r => String a (String b r)
          end).
  by rewrite IH.
Qed.

Lemma strip_newline (s : string) : strip (s +:+ nl) = strip s.
Proof. unfold strip. by rewrite rstrip_newline. Qed.

Lemma startswith_hash_newline (s : string) :
  startswith_hash (s +:+ nl) = startswith_hash s.
Proof. destruct s; reflexivity. Qed.

Lemma lstrip_empty (s : string) : lstrip s = "" <-> all_space s = true.
Proof.
  induction s as [| a s IH]; simpl; [tauto |].
  destruct (is_space a); simpl; [exact IH |]. split; discriminate.
Qed.

Lemma all_space_rstrip (s : string) : all_space (rstrip s) = all_space s.
Proof.
  induction s as [| a s IH]; [reflexivity |].
  cbn [rstrip all_space]. destruct (rstrip s) as [| b r] eqn:Hr.
  - rewrite <- IH. destruct (is_space a) eqn:Ha; cbn [all_space]; by rewrite ?Ha.
  - rewrite <- IH. reflexivity.
Qed.

Lemma strip_truthy (s : string) : truthy (VStr (strip s)) = negb (blank_line s).
Proof.
  unfold blank_line. simpl. f_equal. rewrite <- all_space_rstrip. unfold strip.
  destruct (all_space (rstrip s)) eqn:Hs.
  - apply lstrip_empty in Hs. by rewrite Hs.
  - apply String.eqb_neq. intros Hempty. apply lstrip_empty in Hempty. congruence.
Qed.

(** A line as the file iterator yields it, against the same line without
    its line ending. *)
Lemma lines_related (text : string) :
  Forall2 (fun fl tl => fl = tl \/ fl = tl +:+ nl) (file_lines text) (text_lines text).
Proof.
  induction text as [| c rest IH]; [constructor |].
  cbn [file_lines text_lines]. destruct (is_newline c) eqn:Hc.
  - constructor; [| exact IH]. right.
    apply Ascii.eqb_eq in Hc. by subst c.
  - destruct IH as [| fl tl fls tls Hrel Hrest]; constructor; auto.
    destruct Hrel as [-> | ->]; [by left | by right].
Qed.

Lemma stripped_url_lines_related (fls tls : list string) :
  Forall2 (fun fl tl => fl = tl \/ fl = tl +:+ nl) fls tls ->
  stripped_url_lines fls =
    map strip (List.filter (fun l => negb (blank_line l) && negb (comment_line l)) tls).
Proof.
  induction 1 as [| fl tl fls tls Hrel _ IH]; [reflexivity |].
  cbn [stripped_url_lines List.filter].
  assert (Hstrip : strip fl = strip tl)
    by (destruct Hrel as [-> | ->]; [reflexivity | apply strip_newline]).
  assert (Hhash : startswith_hash fl = comment_line tl)
    by (destruct Hrel as [-> | ->]; [reflexivity | apply startswith_hash_newline]).
  rewrite Hstrip, Hhash, strip_truthy, IH.
  by destruct (negb (blank_line tl) && negb (comment_line tl)).
Qed.
End StripFacts.

(** C8 (as found in the code).  Claimed: the loader returns the lines of
    the file, minus the blank ones and those beginning with [#], in order.
    The lines it returns are trimmed: what holds is that the result is, in
    file order, every line that is neither blank (empty or white space
    only) nor begins with [#], each without its leading and trailing white
    space. *)
Theorem load_batch_urls_contract (E : Env) (file_path text : string) :
  open_file E file_path = Ok text ->
  load_batch_urls E file_path =
    (Returned
       (map strip
          (List.filter (fun l => negb (blank_line l) && negb (comment_line l))
             (text_lines text))),
     []).
Proof.
  intros Hopen. unfold load_batch_urls. rewrite Hopen.
  by rewrite (stripped_url_lines_related _ _ (lines_related text)).
Qed.

Lemma load_batch_urls_contract_witness :
  load_batch_urls sample_env "urls.txt" = (Returned ["https://a"; "bad://b"], []).
Proof.
  rewrite (load_batch_urls_contract sample_env "urls.txt" sample_batch_file); reflexivity.
Defined.

(** The claim as stated fails on the sample file: its third line is
    [  https://a  ], the entry returned for it is [https://a], so what is
    returned is not the list of kept lines. *)
Lemma load_batch_urls_trims_lines :
  text_lines sample_batch_file = ["# my list"; ""; "  https://a  "; "bad://b"] /\
  fst (load_batch_urls sample_env "urls.txt") = Returned ["https://a"; "bad://b"] /\
  fst (load_batch_urls sample_env "urls.txt") <>
    Returned (List.filter (fun l => negb (blank_line l) && negb (comment_line l))
                (text_lines sample_batch_file)).
Proof.
  split; [reflexivity |]. split; [reflexivity |].
  vm_compute. discriminate.
Qed.

(** ** A parsed configuration is used as it is *)

Section VerbatimFacts.
Variable E : Env.

Lemma load_config_parsed (lg : option Logger) (path text : string) (cfg : value)
    (tr : list effect) :
  path_exists E path = true ->
  open_file E path = Ok text ->
  (lower (path_suffix E path) = ".yaml" /\ yaml_safe_load E text = Ok cfg) \/
  (lower (path_suffix E path) = ".json" /\ json_load E text = Ok cfg) ->
  _load_config E lg path tr = (Ok cfg, tr).
Proof.
  intros Hex Hopen Hparse. unfold _load_config. rewrite Hex. simpl.
  unfold try_except, bind, lift. rewrite Hopen.
  destruct Hparse as [[Hsuf Hload] | [Hsuf Hload]]; rewrite Hsuf; simpl;
    by rewrite Hload.
Qed.

Lemma format_selector_missing_key (cfg : value) (kwargs : gmap string value) (e : exn) :
  getitem cfg "default_quality" = Raise e ->
  _get_format_selector E cfg kwargs = Raise e.
Proof. intros Hq. unfold _get_format_selector, rbind. by rewrite Hq. Qed.

Lemma get_ydl_opts_missing_key (kwargs : gmap string value) (s : state)
    (d : value) (p : string) (e : exn) :
  getitem (config (self s)) "output_directory" = Ok d ->
  kwargs_get kwargs "output_directory" d = VStr p ->
  mkdir_parents E p = Ok tt ->
  getitem (config (self s)) "default_quality" = Raise e ->
  fst (_get_ydl_opts E kwargs s) = Raise e.
Proof.
  intros Hout Hdir Hmk Hq.
  unfold _get_ydl_opts, _create_output_directory.
  unfold bind, self_config, lift, emit, ret. simpl.
  rewrite Hout. simpl. rewrite Hdir. simpl. rewrite Hmk. simpl.
  by rewrite (format_selector_missing_key _ _ _ Hq).
Qed.
End VerbatimFacts.

(** C9.  When the file exists, has the extension [.yaml] or [.json] and
    parses to [cfg], the constructed object holds exactly [cfg]: nothing is
    merged in from the defaults.  If [cfg] then has no [default_quality],
    deriving a format selector raises that key error for every set of
    overrides (even one that supplies [quality]), and so does option
    resolution once the output directory is in place; the default [720p]
    is not substituted. *)
Theorem parsed_config_used_verbatim (E : Env) (path text : string) (cfg : value)
    (tr : list effect) :
  path_exists E path = true ->
  open_file E path = Ok text ->
  (lower (path_suffix E path) = ".yaml" /\ yaml_safe_load E text = Ok cfg) \/
  (lower (path_suffix E path) = ".json" /\ json_load E text = Ok cfg) ->
  __init__ E path tr =
    (Ok {| config := cfg; logger := init_logger; download_stats := zero_stats |}, tr) /\
  (getitem cfg "default_quality" = Raise (KeyError "default_quality") ->
   (forall kwargs,
      _get_format_selector E cfg kwargs = Raise (KeyError "default_quality")) /\
   (forall kwargs s d p,
      config (self s) = cfg ->
      getitem cfg "output_directory" = Ok d ->
      kwargs_get kwargs "output_directory" d = VStr p ->
      mkdir_parents E p = Ok tt ->
      fst (_get_ydl_opts E kwargs s) = Raise (KeyError "default_quality"))).
Proof.
  intros Hex Hopen Hparse. split.
  - unfold __init__, bind. by rewrite (load_config_parsed E None path text cfg tr).
  - intros Hmissing. split.
    + intros kwargs. by apply format_selector_missing_key.
    + intros kwargs s d p <- Hout Hdir Hmk.
      by apply (get_ydl_opts_missing_key E kwargs s d p).
Qed.

Lemma parsed_config_used_verbatim_witness :
  fst (__init__ sample_env "partial.yaml" []) =
    Ok {| config := partial_config; logger := init_logger; download_stats := zero_stats |} /\
  fst (_get_ydl_opts sample_env {["quality" := VStr "480p"]} (new_state partial_config))
    = Raise (KeyError "default_quality").
Proof.
  destruct (parsed_config_used_verbatim sample_env "partial.yaml" "default_format: mp4"
              partial_config []) as (Hinit & Hkey).
  - reflexivity.
  - reflexivity.
  - left. split; reflexivity.
  - split; [by rewrite Hinit |].
    destruct Hkey as (_ & Hopts); [vm_compute; reflexivity |].
    apply (Hopts {["quality" := VStr "480p"]} (new_state partial_config)
             (VStr "./downloads") "./downloads").
    + reflexivity.
    + vm_compute. reflexivity.
    + vm_compute. reflexivity.
    + reflexivity.
Defined.

(** A download on such an object does not fall back to the default either:
    the key error is caught, logged and counted as a failure. *)
Lemma download_single_missing_key :
  let r := download_single sample_env "https://video" ∅ (new_state partial_config) in
  fst r = Ok false /\
  failed_downloads (stats_of (snd r)) = 1 /\
  last (trace (snd r)) =
    Some (Log ERROR "Download failed for https://video: 'default_quality'").
Proof. vm_compute. repeat split; reflexivity. Qed.

(** ** The statistics handed out are a detached copy *)

Section AliasingFacts.
Import Aliasing.

Lemma apply_mutations_other (l l0 : loc) (ms : list mutation) :
  l <> l0 ->
  forall h : gmap loc (gmap string value), apply_mutations l ms h !! l0 = h !! l0.
Proof.
  intros Hne. unfold apply_mutations.
  induction ms as [| m ms IH]; intros h; simpl; [reflexivity |].
  rewrite IH. unfold apply_mutation. by apply lookup_alter_ne.
Qed.
End AliasingFacts.

(** C10.  Reading the statistics leaves the state of the orchestrator as
    it was and yields its four counters.  On the heap, where
    [self.download_stats] refers to a dictionary [d]: the read returns a
    reference to a new dictionary with the contents of [d], every existing
    object (the internal dictionary included) is as before, and whatever
    the caller then does through the returned reference, the internal
    dictionary is still [d]. *)
Theorem get_download_stats_detached (s : state) (self_obj : Aliasing.object)
    (h : gmap Aliasing.loc (gmap string value)) :
  get_download_stats s = (Ok (stats_of s), s) /\
  (h !! Aliasing.download_stats_ref self_obj = Some (Aliasing.stats_dict (stats_of s)) ->
   exists l' h',
     Aliasing.get_download_stats self_obj h = Some (l', h') /\
     l' <> Aliasing.download_stats_ref self_obj /\
     h' !! l' = Some (Aliasing.stats_dict (stats_of s)) /\
     (forall l, l <> l' -> h' !! l = h !! l) /\
     forall ms,
       Aliasing.apply_mutations l' ms h' !! Aliasing.download_stats_ref self_obj
       = Some (Aliasing.stats_dict (stats_of s))).
Proof.
  split; [reflexivity |]. intros Hd.
  unfold Aliasing.get_download_stats, Aliasing.dict_copy. rewrite Hd.
  set (l' := fresh (dom h)).
  assert (Hfresh : l' <> Aliasing.download_stats_ref self_obj).
  { intros Heq. apply (is_fresh (dom h)). fold l'. rewrite Heq.
    apply elem_of_dom. eauto. }
  exists l', (<[l' := Aliasing.stats_dict (stats_of s)]> h).
  split; [reflexivity |]. split; [exact Hfresh |].
  split; [apply lookup_insert_eq |].
  split; [intros l Hl; by apply lookup_insert_ne |].
  intros ms. rewrite (apply_mutations_other l' _ ms Hfresh).
  by rewrite lookup_insert_ne.
Qed.

Lemma get_download_stats_detached_witness :
  exists l' h',
    Aliasing.get_download_stats {| Aliasing.download_stats_ref := 1%positive |}
      {[1%positive := Aliasing.stats_dict zero_stats]} = Some (l', h') /\
    l' <> 1%positive /\
    Aliasing.apply_mutations l'
      [Aliasing.SetItem "total_downloads" (VInt 99); Aliasing.Clear] h' !! 1%positive
    = Some (Aliasing.stats_dict zero_stats).
Proof.
  destruct (get_download_stats_detached (new_state _get_default_config)
              {| Aliasing.download_stats_ref := 1%positive |}
              {[1%positive := Aliasing.stats_dict zero_stats]}) as (_ & H).
  destruct H as (l' & h' & Hget & Hne & _ & _ & Hmut).
  - apply lookup_singleton_eq.
  - exists l', h'. split; [exact Hget |]. split; [exact Hne |]. apply Hmut.
Defined.

(** * Further properties of the code *)

(** ** Construction *)

Section InitFacts.
Variable E : Env.

Lemma init_unusable_config (path : string) (tr : list effect) :
  path_exists E path = true ->
  is_ok (open_file E path) = false \/
  (exists text,
     open_file E path = Ok text /\
     ((lower (path_suffix E path) = ".yaml" /\ is_ok (yaml_safe_load E text) = false) \/
      (lower (path_suffix E path) = ".json" /\ is_ok (json_load E text) = false) \/
      (lower (path_suffix E path) <> ".yaml" /\ lower (path_suffix E path) <> ".json"))) ->
  __init__ E path tr =
    (Raise (AttributeError "'YouTubeDownloader' object has no attribute 'logger'"), tr).
Proof.
  intros Hex Hcase. unfold __init__, _load_config, bind. rewrite Hex. simpl.
  unfold try_except, bind, lift.
  destruct Hcase as [Hopen | (text & Hopen & Hcase)].
  - destruct (open_file E path); [discriminate | reflexivity].
  - rewrite Hopen. destruct Hcase as [[Hy Hp] | [[Hj Hp] | [Hy Hj]]].
    + rewrite Hy. simpl. destruct (yaml_safe_load E text); [discriminate | reflexivity].
    + rewrite Hj. simpl. destruct (json_load E text); [discriminate | reflexivity].
    + apply String.eqb_neq in Hy, Hj. rewrite Hy, Hj. reflexivity.
Qed.

Lemma init_trace (path : string) (tr : list effect) :
  snd (__init__ E path tr) = tr.
Proof.
  unfold __init__, _load_config, _setup_logging, try_except, bind, lift, ret,
    self_logger_log, raise.
  repeat (step_match; simpl); reflexivity.
Qed.
End InitFacts.

(** Besides a file that parses, construction has two kinds of outcome.
    From a path that does not exist it
    yields the default configuration, zeroed statistics and no output.
    From an existing file that cannot be opened, does not parse, or has an
    extension other than [.yaml] and [.json] in any letter case, it raises
    [AttributeError] and logs nothing. *)
Theorem init_outcomes (E : Env) (path : string) (tr : list effect) :
  (path_exists E path = false ->
   __init__ E path tr =
     (Ok {| config := _get_default_config; logger := init_logger;
            download_stats := zero_stats |}, tr)) /\
  (path_exists E path = true ->
   is_ok (open_file E path) = false \/
   (exists text,
      open_file E path = Ok text /\
      ((lower (path_suffix E path) = ".yaml" /\ is_ok (yaml_safe_load E text) = false) \/
       (lower (path_suffix E path) = ".json" /\ is_ok (json_load E text) = false) \/
       (lower (path_suffix E path) <> ".yaml" /\ lower (path_suffix E path) <> ".json"))) ->
   __init__ E path tr =
     (Raise (AttributeError "'YouTubeDownloader' object has no attribute 'logger'"), tr)).
Proof.
  split.
  - intros Hmiss. unfold __init__, bind. by rewrite (load_config_missing E None path tr Hmiss).
  - apply init_unusable_config.
Qed.

Lemma init_outcomes_witness :
  fst (__init__ sample_env "config.yaml" []) =
    Ok {| config := _get_default_config; logger := init_logger;
          download_stats := zero_stats |} /\
  fst (__init__ sample_env "broken.yaml" []) =
    Raise (AttributeError "'YouTubeDownloader' object has no attribute 'logger'").
Proof.
  destruct (init_outcomes sample_env "config.yaml" []) as (Hmissing & _).
  destruct (init_outcomes sample_env "broken.yaml" []) as (_ & Hbroken).
  split.
  - rewrite Hmissing; reflexivity.
  - rewrite Hbroken; [reflexivity | reflexivity |].
    right. exists "a: [1". split; [reflexivity |]. left. split; reflexivity.
Defined.

(** ** Option resolution *)

(** A configuration that is not a dictionary (an empty YAML file parses to
    [None]) makes option resolution raise [TypeError] before anything is
    done, for every set of overrides; a download on it calls no engine,
    returns [False] and is counted as an attempt and as a failure. *)
Theorem non_dict_config_fails (E : Env) (url : string) (kwargs : gmap string value)
    (s : state) :
  (forall d, config (self s) <> VDict d) ->
  (exists msg, _get_ydl_opts E kwargs s = (Raise (TypeError msg), s)) /\
  (exists tr,
     List.filter is_engine_call tr = [] /\
     download_single E url kwargs s =
       (Ok false,
        {| self := {| config := config (self s); logger := logger (self s);
                      download_stats := incr_failed (incr_total (stats_of s)) |};
           trace := trace s ++ tr |})).
Proof.
  intros Hcfg.
  assert (Hraise : exists msg, _get_ydl_opts E kwargs s = (Raise (TypeError msg), s)).
  { destruct s as [[cfg lg st] tr]. simpl in Hcfg.
    unfold _get_ydl_opts, bind, self_config, lift. simpl.
    destruct cfg; simpl; eauto. by destruct (Hcfg d). }
  split; [exact Hraise |]. destruct Hraise as [msg Hraise].
  apply (download_single_unresolved E url kwargs s (TypeError msg)). by rewrite Hraise.
Qed.

Lemma non_dict_config_fails_witness :
  fst (download_single sample_env "https://video" ∅ (new_state VNone)) = Ok false.
Proof.
  destruct (non_dict_config_fails sample_env "https://video" ∅ (new_state VNone))
    as (_ & tr & _ & Hrun).
  - intros d. discriminate.
  - by rewrite Hrun.
Defined.

(** The rate limit of the engine options is the configuration's: present
    exactly when the configured value is true in a condition, so that
    [None], the empty string and zero all mean no limit. *)
Theorem rate_limit_comes_from_config (E : Env) (kwargs : gmap string value)
    (s s' : state) (opts : gmap string value) :
  _get_ydl_opts E kwargs s = (Ok opts, s') ->
  exists d,
    config (self s) = VDict d /\
    opts !! "ratelimit" =
      if truthy (default VNone (d !! "rate_limit")) then d !! "rate_limit" else None.
Proof.
  destruct s as [[cfg lg st] tr].
  unfold _get_ydl_opts, _create_output_directory.
  unfold bind, self_config, lift, emit, ret, raise. simpl.
  destruct cfg as [| | | | | d]; simpl; try discriminate.
  intros Hrun. exists d. split; [reflexivity |]. revert Hrun.
  repeat (step_match; simpl; try discriminate).
  all: intros Hrun; injection Hrun as <- _.
  all: cbn [default].
  - apply lookup_insert_eq.
  - by rewrite !lookup_insert_ne by done.
Qed.

Lemma rate_limit_comes_from_config_witness :
  exists opts s',
    _get_ydl_opts sample_env {["quality" := VStr "best"; "rate_limit" := VStr "1M"]}
      (new_state limited_config) = (Ok opts, s') /\
    opts !! "ratelimit" = Some (VStr "500K").
Proof.
  assert (Hok : is_ok (fst (_get_ydl_opts sample_env
                              {["quality" := VStr "best"; "rate_limit" := VStr "1M"]}
                              (new_state limited_config))) = true)
    by (vm_compute; reflexivity).
  destruct (_get_ydl_opts sample_env _ (new_state limited_config))
    as [[opts | e] s'] eqn:Hrun; [clear Hok | discriminate Hok].
  exists opts, s'. split; [reflexivity |].
  destruct (rate_limit_comes_from_config sample_env _ _ s' opts Hrun) as (d & Hd & Hrl).
  unfold new_state, limited_config, _get_default_config in Hd. cbn [config self] in Hd.
  injection Hd as <-. rewrite Hrl. vm_compute. reflexivity.
Defined.

(** When option resolution succeeds it has created the effective output
    directory, once, and changed nothing else; the [format] entry is the
    format selector, [outtmpl] joins directory and file name template, and
    [ignoreerrors] is on and [no_warnings] off whatever the configuration
    and the overrides say. *)
Theorem get_ydl_opts_result (E : Env) (kwargs : gmap string value)
    (s s' : state) (opts : gmap string value) :
  _get_ydl_opts E kwargs s = (Ok opts, s') ->
  exists d_out p sel d_tpl t,
    getitem (config (self s)) "output_directory" = Ok d_out /\
    kwargs_get kwargs "output_directory" d_out = VStr p /\
    mkdir_parents E p = Ok tt /\
    s' = {| self := self s; trace := trace s ++ [Mkdir p] |} /\
    _get_format_selector E (config (self s)) kwargs = Ok sel /\
    opts !! "format" = Some (VStr sel) /\
    getitem (config (self s)) "filename_template" = Ok d_tpl /\
    kwargs_get kwargs "filename_template" d_tpl = VStr t /\
    opts !! "outtmpl" = Some (VStr (path_join E p t)) /\
    opts !! "ignoreerrors" = Some (VBool true) /\
    opts !! "no_warnings" = Some (VBool false).
Proof.
  destruct s as [[cfg lg st] tr].
  unfold _get_ydl_opts, _create_output_directory, path_div.
  unfold bind, self_config, lift, emit, ret, raise. simpl.
  repeat (step_match; simpl; try discriminate).
  all: intros Hrun; injection Hrun as <- <-.
  all: repeat match goal with u : unit |- _ => destruct u end.
  all: simplify_eq.
  all: do 5 eexists.
  all: repeat (split; [first [eassumption | reflexivity] |]); reflexivity.
Qed.

Lemma get_ydl_opts_result_witness :
  exists opts s',
    _get_ydl_opts sample_env {["output_directory" := VStr "/tmp/v"]}
      (new_state _get_default_config) = (Ok opts, s') /\
    trace s' = [Mkdir "/tmp/v"] /\
    opts !! "outtmpl" = Some (VStr "/tmp/v/%(title)s.%(ext)s").
Proof.
  assert (Hok : is_ok (fst (_get_ydl_opts sample_env {["output_directory" := VStr "/tmp/v"]}
                              (new_state _get_default_config))) = true)
    by (vm_compute; reflexivity).
  destruct (_get_ydl_opts sample_env _ (new_state _get_default_config))
    as [[opts | e] s'] eqn:Hrun; [clear Hok | discriminate Hok].
  exists opts, s'. split; [reflexivity |].
  destruct (get_ydl_opts_result sample_env _ _ s' opts Hrun)
    as (d_out & p & sel & d_tpl & t & Hd & Hp & _ & Hs & _ & _ & Ht & Ht' & Hout & _).
  vm_compute in Hd. injection Hd as <-.
  vm_compute in Hp. injection Hp as <-.
  vm_compute in Ht. injection Ht as <-.
  vm_compute in Ht'. injection Ht' as <-.
  split; [by rewrite Hs | exact Hout].
Defined.

Section CliOptionFacts.
Variable args : Namespace.

Lemma download_opts_lookup (k : string) (v : value) :
  In (k, v)
     [("format", VStr (arg_format args));
      ("quality", VStr (arg_quality args));
      ("extract_audio", VBool (arg_extract_audio args));
      ("audio_format", VStr (arg_audio_format args));
      ("output_directory", VStr (arg_output_directory args));
      ("filename_template", VStr (arg_filename_template args));
      ("download_subtitles", VBool (arg_download_subtitles args));
      ("subtitle_languages", VList (map VStr (arg_subtitle_languages args)));
      ("retry_attempts", VInt (arg_retry_attempts args));
      ("timeout", VInt (arg_timeout args))] ->
  forall dflt, kwargs_get (download_opts args) k dflt = v.
Proof.
  intros Hin dflt. unfold kwargs_get, download_opts.
  repeat (destruct Hin as [Hin | Hin];
          [injection Hin as <- <-;
           destruct (given (arg_rate_limit args));
           rewrite ?(lookup_insert_ne _ "rate_limit") by done; reflexivity |]).
  destruct Hin.
Qed.
End CliOptionFacts.

(** The command line always passes all ten overrides, so the values a
    configuration file gives to those keys never reach the engine: two
    configurations that both hold the keys the resolver reads, and agree
    on [rate_limit], resolve to the same result. *)
Theorem cli_overrides_hide_config (E : Env) (args : Namespace) (s1 s2 : state) :
  (forall k, In k ["output_directory"; "default_quality"; "default_format";
                   "extract_audio"; "filename_template"; "download_subtitles";
                   "subtitle_languages"; "audio_format"; "retry_attempts"; "timeout"] ->
             is_ok (getitem (config (self s1)) k) = true /\
             is_ok (getitem (config (self s2)) k) = true) ->
  getitem (config (self s1)) "rate_limit" = getitem (config (self s2)) "rate_limit" ->
  fst (_get_ydl_opts E (download_opts args) s1) = fst (_get_ydl_opts E (download_opts args) s2).
Proof.
  intros Hkeys Hrl.
  destruct s1 as [[cfg1 lg1 st1] tr1], s2 as [[cfg2 lg2 st2] tr2]. simpl in Hkeys, Hrl.
  assert (Hget : forall k, In k ["output_directory"; "default_quality"; "default_format";
                   "extract_audio"; "filename_template"; "download_subtitles";
                   "subtitle_languages"; "audio_format"; "retry_attempts"; "timeout"] ->
                 exists v1 v2, getitem cfg1 k = Ok v1 /\ getitem cfg2 k = Ok v2).
  { intros k Hk. destruct (Hkeys k Hk) as [H1 H2].
    destruct (getitem cfg1 k), (getitem cfg2 k); try discriminate. eauto. }
  assert (Hdict : exists d1 d2, cfg1 = VDict d1 /\ cfg2 = VDict d2).
  { destruct (Hkeys "timeout") as [H1 H2]; [simpl; tauto |].
    destruct cfg1, cfg2; try discriminate. eauto. }
  destruct Hdict as (d1 & d2 & -> & ->).
  unfold _get_ydl_opts, _create_output_directory, _get_format_selector, path_div.
  unfold bind, rbind, self_config, lift, emit, ret, raise. cbn [self config fst snd].
  repeat match goal with
         | |- context [getitem (VDict d1) ?k] =>
             lazymatch k with
             | "rate_limit" => fail
             | _ => let v1 := fresh "v" in let v2 := fresh "w" in
                    let H1 := fresh "H" in let H2 := fresh "H" in
                    destruct (Hget k) as (v1 & v2 & H1 & H2);
                    [simpl; tauto | rewrite H1, H2]
             end
         end.
  rewrite !(download_opts_lookup args "output_directory" _ ltac:(simpl; tauto)).
  rewrite !(download_opts_lookup args "quality" _ ltac:(simpl; tauto)).
  rewrite !(download_opts_lookup args "format" _ ltac:(simpl; tauto)).
  rewrite !(download_opts_lookup args "extract_audio" _ ltac:(simpl; tauto)).
  rewrite !(download_opts_lookup args "filename_template" _ ltac:(simpl; tauto)).
  rewrite !(download_opts_lookup args "download_subtitles" _ ltac:(simpl; tauto)).
  rewrite !(download_opts_lookup args "subtitle_languages" _ ltac:(simpl; tauto)).
  rewrite !(download_opts_lookup args "audio_format" _ ltac:(simpl; tauto)).
  rewrite !(download_opts_lookup args "retry_attempts" _ ltac:(simpl; tauto)).
  rewrite !(download_opts_lookup args "timeout" _ ltac:(simpl; tauto)).
  cbn [getitem] in Hrl. unfold get_method. cbn [getitem].
  destruct (mkdir_parents E (arg_output_directory args)); simpl; [| reflexivity].
  destruct (d1 !! "rate_limit") as [r1 |] eqn:Hr1, (d2 !! "rate_limit") as [r2 |] eqn:Hr2;
    try discriminate; simplify_eq; simpl.
  - repeat (step_match; simpl; try reflexivity).
  - repeat (step_match; simpl; try reflexivity).
Qed.

Lemma cli_overrides_hide_config_witness :
  fst (_get_ydl_opts sample_env (download_opts (default_namespace "https://video"))
         (new_state hd_config))
  = fst (_get_ydl_opts sample_env (download_opts (default_namespace "https://video"))
           (new_state _get_default_config)).
Proof.
  apply (cli_overrides_hide_config sample_env (default_namespace "https://video")
           (new_state hd_config) (new_state _get_default_config)).
  - intros k Hk. simpl in Hk.
    repeat (destruct Hk as [<- | Hk]; [split; vm_compute; reflexivity |]).
    destruct Hk.
  - vm_compute. reflexivity.
Defined.



Section HeightFacts.
Lemma remove_p_filter (q : string) :
  list_ascii_of_string (remove_p q) =
    List.filter (fun c => negb (Ascii.eqb c "p")) (list_ascii_of_string q).
Proof.
  unfold remove_p. induction q as [| a q IH]; [reflexivity |].
  cbn [replace_char list_ascii_of_string List.filter].
  destruct (Ascii.eqb a "p"); cbn [negb list_ascii_of_string]; by rewrite IH.
Qed.
End HeightFacts.

(** For a quality that is a string other than [best] and [worst], without
    audio extraction, the selector is the three-step chain whose height
    ceiling is the quality with every letter [p] taken out, wherever it
    stands, and every other character kept in its place: [1080p60] gives
    the ceiling [108060], and a quality without [p] is its own ceiling.
    The container is written as [str] writes it, string or not. *)
Theorem format_selector_height (E : Env) (cfg : value) (kwargs : gmap string value)
    (dq df de : value) (q : string) :
  getitem cfg "default_quality" = Ok dq ->
  getitem cfg "default_format" = Ok df ->
  getitem cfg "extract_audio" = Ok de ->
  truthy (kwargs_get kwargs "extract_audio" de) = false ->
  kwargs_get kwargs "quality" dq = VStr q ->
  q <> "best" -> q <> "worst" ->
  exists height,
    _get_format_selector E cfg kwargs =
      Ok ("best[height<=" +:+ height +:+ "][ext="
          +:+ py_str E (kwargs_get kwargs "format" df)
          +:+ "]/best[height<=" +:+ height +:+ "]/best") /\
    list_ascii_of_string height =
      List.filter (fun c => negb (Ascii.eqb c "p")) (list_ascii_of_string q) /\
    (~ In "p"%char (list_ascii_of_string q) -> height = q).
Proof.
  intros Hq Hf Ha Haudio Hquality Hbest Hworst.
  exists (remove_p q). split; [| split].
  - unfold _get_format_selector, rbind. rewrite Hq, Hf, Ha, Haudio, Hquality.
    apply String.eqb_neq in Hbest, Hworst. cbn [eq_str]. by rewrite Hbest, Hworst.
  - apply remove_p_filter.
  - intros Hnp. unfold remove_p. clear -Hnp.
    induction q as [| a q IH]; [reflexivity |].
    cbn [replace_char]. cbn [list_ascii_of_string In] in Hnp.
    destruct (Ascii.eqb a "p") eqn:Hap.
    + apply Ascii.eqb_eq in Hap. tauto.
    + rewrite IH; [reflexivity | tauto].
Qed.

Lemma format_selector_height_witness :
  _get_format_selector sample_env _get_default_config
    (<["quality" := VStr "1080p60"]> ∅) =
    Ok "best[height<=108060][ext=mp4]/best[height<=108060]/best".
Proof.
  destruct (format_selector_height sample_env _get_default_config
              (<["quality" := VStr "1080p60"]> ∅)
              (VStr "720p") (VStr "mp4") (VBool false) "1080p60")
    as (height & Hsel & Hchars & _);
    [reflexivity | reflexivity | reflexivity | reflexivity | reflexivity
    | discriminate | discriminate |].
  rewrite Hsel.
  assert (Hheight : height = "108060").
  { rewrite <- (string_of_list_ascii_of_string height), Hchars. reflexivity. }
  rewrite Hheight. reflexivity.
Defined.

(** ** The progress hook *)

Section HookCases.
Variable E : Env.

Lemma progress_hook_finished_run (d : gmap string value) (s : state) (fn : value) (n : Z) :
  d !! "status" = Some (VStr "finished") ->
  d !! "filename" = Some fn ->
  d !! "total_bytes" = Some (VInt n) ->
  _progress_hook E d s =
    (Ok tt,
     {| self := {| config := config (self s); logger := logger (self s);
                   download_stats := add_size n (incr_successful (stats_of s)) |};
        trace := trace s ++ [Print (nl +:+ "Download completed: " +:+ py_str E fn)] |}).
Proof.
  intros Hst Hfn Htb. unfold _progress_hook, bind, lift, emit, update_stats, ret, getitem.
  rewrite Hst, Hfn, Htb. reflexivity.
Qed.
End HookCases.

(** A [finished] event that names its file counts one success, prints the
    completion line and adds the reported size, or nothing when no size is
    reported.  When the size is present but not a number (such as [None])
    the success is counted all the same and the hook then raises
    [TypeError]. *)
Theorem progress_hook_finished (E : Env) (d : gmap string value) (s : state) (fn : value) :
  d !! "status" = Some (VStr "finished") ->
  d !! "filename" = Some fn ->
  let r := _progress_hook E d s in
  config (self (snd r)) = config (self s) /\
  trace (snd r) = trace s ++ [Print (nl +:+ "Download completed: " +:+ py_str E fn)] /\
  total_downloads (stats_of (snd r)) = total_downloads (stats_of s) /\
  failed_downloads (stats_of (snd r)) = failed_downloads (stats_of s) /\
  successful_downloads (stats_of (snd r)) = successful_downloads (stats_of s) + 1 /\
  match d !! "total_bytes" with
  | None => fst r = Ok tt /\ total_size (stats_of (snd r)) = total_size (stats_of s)
  | Some v =>
      match as_int v with
      | Some n => fst r = Ok tt /\ total_size (stats_of (snd r)) = total_size (stats_of s) + n
      | None =>
          (exists msg, fst r = Raise (TypeError msg)) /\
          total_size (stats_of (snd r)) = total_size (stats_of s)
      end
  end.
Proof.
  intros Hst Hfn. destruct s as [[cfg lg st] tr].
  unfold _progress_hook, bind, lift, emit, update_stats, ret, raise, getitem, stats_of.
  rewrite Hst, Hfn. simpl.
  destruct (d !! "total_bytes") as [v |] eqn:Htb.
  - rewrite bool_decide_eq_true_2 by eauto. simpl.
    destruct (as_int v); simpl; repeat split; eauto.
  - rewrite bool_decide_eq_false_2 by (intros [? ?]; discriminate). simpl.
    repeat split; reflexivity.
Qed.

Lemma progress_hook_finished_witness :
  stats_of (snd (_progress_hook sample_env finished_event (new_state VNone)))
  = {| total_downloads := 0; successful_downloads := 1;
       failed_downloads := 0; total_size := 1000 |}.
Proof.
  pose proof (progress_hook_finished sample_env finished_event (new_state VNone)
                (VStr "video.mp4")) as H.
  destruct H as (_ & _ & Ht & Hf & Hs & Hsize); [vm_compute; reflexivity ..|].
  change (finished_event !! "total_bytes") with (Some (VInt 1000)) in Hsize.
  cbn [as_int] in Hsize. destruct Hsize as [_ Hsize].
  destruct (stats_of _) as [t su f sz]. simpl in *. by subst.
Defined.

(** A [downloading] event never changes the statistics, whether the hook
    returns or raises; with a reported total of zero bytes the percentage
    divides by zero and the hook raises [ZeroDivisionError], leaving the
    state as it was. *)
Theorem progress_hook_downloading (E : Env) (d : gmap string value) (s : state) :
  d !! "status" = Some (VStr "downloading") ->
  self (snd (_progress_hook E d s)) = self s /\
  (d !! "total_bytes" = Some (VInt 0) ->
   as_int (default (VInt 0) (d !! "downloaded_bytes")) <> None ->
   _progress_hook E d s = (Raise ZeroDivisionError, s)).
Proof.
  intros Hst. destruct s as [[cfg lg st] tr].
  unfold _progress_hook, bind, lift, emit, update_stats, ret, raise, getitem.
  rewrite Hst. simpl. split.
  - repeat (step_match; simpl; try reflexivity).
  - intros Htb Hdl. rewrite Htb. simpl.
    unfold truediv. destruct (as_int (default (VInt 0) (d !! "downloaded_bytes")));
      [reflexivity | congruence].
Qed.

Lemma progress_hook_downloading_witness :
  fst (_progress_hook sample_env
         {["status" := VStr "downloading"; "total_bytes" := VInt 0;
           "downloaded_bytes" := VInt 0]} (new_state VNone))
  = Raise ZeroDivisionError.
Proof.
  destruct (progress_hook_downloading sample_env
              {["status" := VStr "downloading"; "total_bytes" := VInt 0;
                "downloaded_bytes" := VInt 0]} (new_state VNone)) as (_ & H).
  - vm_compute. reflexivity.
  - rewrite H; [reflexivity | vm_compute; reflexivity | ].
    vm_compute. discriminate.
Defined.

(** An event without [status] raises [KeyError], and so does a [finished]
    event without [filename], before the success is counted; an event
    with any status other than [downloading] and [finished] is ignored.
    In all three cases the state is unchanged. *)
Theorem progress_hook_other_events (E : Env) (d : gmap string value) (s : state) :
  (d !! "status" = None -> _progress_hook E d s = (Raise (KeyError "status"), s)) /\
  (d !! "status" = Some (VStr "finished") -> d !! "filename" = None ->
   _progress_hook E d s = (Raise (KeyError "filename"), s)) /\
  (forall v, d !! "status" = Some v ->
             eq_str v "downloading" = false -> eq_str v "finished" = false ->
             _progress_hook E d s = (Ok tt, s)).
Proof.
  unfold _progress_hook, bind, lift, ret, getitem. repeat split.
  - intros ->. reflexivity.
  - intros -> ->. reflexivity.
  - intros v -> -> ->. reflexivity.
Qed.

Lemma progress_hook_other_events_witness :
  _progress_hook sample_env {["status" := VStr "error"]} (new_state VNone)
  = (Ok tt, new_state VNone).
Proof.
  destruct (progress_hook_other_events sample_env {["status" := VStr "error"]}
              (new_state VNone)) as (_ & _ & H).
  apply (H (VStr "error")); reflexivity.
Defined.

(** ** Success and failure counting *)

(** Successes are counted by the progress hook alone.  When the engine
    returns without ever calling the hook, the download returns [True]
    and the success counter stays where it was. *)
Theorem success_needs_finished_event (E : Env) (url : string)
    (kwargs : gmap string value) (s : state) (opts : gmap string value) :
  fst (_get_ydl_opts E kwargs s) = Ok opts ->
  ydl_download E url opts = Return ->
  let r := download_single E url kwargs s in
  fst r = Ok true /\
  total_downloads (stats_of (snd r)) = total_downloads (stats_of s) + 1 /\
  successful_downloads (stats_of (snd r)) = successful_downloads (stats_of s) /\
  failed_downloads (stats_of (snd r)) = failed_downloads (stats_of s).
Proof.
  intros Hopts Hrun r.
  destruct (download_single_resolved E url kwargs s opts Hopts)
    as (s_in & _ & Hst & _ & Heq).
  subst r. rewrite Heq, Hrun. simpl. rewrite Hst. simpl. repeat split.
Qed.

Lemma success_needs_finished_event_witness :
  let r := download_single (with_engine silent_engine sample_env) "https://video" ∅
             (new_state _get_default_config) in
  fst r = Ok true /\ successful_downloads (stats_of (snd r)) = 0.
Proof.
  assert (Hok : is_ok (fst (_get_ydl_opts (with_engine silent_engine sample_env) ∅
                              (new_state _get_default_config))) = true)
    by (vm_compute; reflexivity).
  destruct (fst (_get_ydl_opts (with_engine silent_engine sample_env) ∅
                   (new_state _get_default_config)))
    as [opts | e] eqn:Hopts; [clear Hok | discriminate Hok].
  destruct (success_needs_finished_event (with_engine silent_engine sample_env)
              "https://video" ∅ (new_state _get_default_config) opts Hopts)
    as (Hr & _ & Hs & _); [reflexivity |].
  split; [exact Hr | exact Hs].
Defined.

(** When the engine reports a finished file and then raises, the same
    attempt is counted as a success and as a failure: after it, successes
    plus failures exceed attempts by one more than before. *)
Theorem finished_then_failure_counts_both (E : Env) (url : string)
    (kwargs : gmap string value) (s : state) (opts d : gmap string value)
    (k : result unit -> engine_run) (fn : value) (n : Z) (e : exn) :
  fst (_get_ydl_opts E kwargs s) = Ok opts ->
  ydl_download E url opts = Hook d k ->
  d !! "status" = Some (VStr "finished") ->
  d !! "filename" = Some fn ->
  d !! "total_bytes" = Some (VInt n) ->
  k (Ok tt) = Throw e ->
  let r := download_single E url kwargs s in
  fst r = Ok false /\
  total_downloads (stats_of (snd r)) = total_downloads (stats_of s) + 1 /\
  successful_downloads (stats_of (snd r)) = successful_downloads (stats_of s) + 1 /\
  failed_downloads (stats_of (snd r)) = failed_downloads (stats_of s) + 1.
Proof.
  intros Hopts Hrun Hst Hfn Htb Hk r.
  destruct (download_single_resolved E url kwargs s opts Hopts)
    as (s_in & _ & Hin & _ & Heq).
  subst r. rewrite Heq, Hrun. cbn [run_engine].
  rewrite (progress_hook_finished_run E d s_in fn n Hst Hfn Htb), Hk.
  simpl. rewrite Hin. simpl. repeat split.
Qed.

Lemma finished_then_failure_counts_both_witness :
  let r := download_single (with_engine late_failure_engine sample_env) "https://video" ∅
             (new_state _get_default_config) in
  fst r = Ok false /\
  total_downloads (stats_of (snd r)) = 1 /\
  successful_downloads (stats_of (snd r)) = 1 /\
  failed_downloads (stats_of (snd r)) = 1.
Proof.
  assert (Hok : is_ok (fst (_get_ydl_opts (with_engine late_failure_engine sample_env) ∅
                              (new_state _get_default_config))) = true)
    by (vm_compute; reflexivity).
  destruct (fst (_get_ydl_opts (with_engine late_failure_engine sample_env) ∅
                   (new_state _get_default_config)))
    as [opts | e] eqn:Hopts; [clear Hok | discriminate Hok].
  apply (finished_then_failure_counts_both (with_engine late_failure_engine sample_env)
           "https://video" ∅ (new_state _get_default_config) opts finished_event
           (fun _ => Throw (DownloadError "postprocessing failed"))
           (VStr "video.mp4") 1000 (DownloadError "postprocessing failed") Hopts);
    reflexivity.
Defined.

(** ** Playlist download *)

Section PlaylistFacts.
Variable E : Env.
Local Opaque _get_ydl_opts run_engine.

Lemma download_playlist_resolved url kwargs s opts :
  fst (_get_ydl_opts E kwargs s) = Ok opts ->
  exists s_in,
    self s_in = self s /\
    List.filter is_engine_call (trace s_in)
      = List.filter is_engine_call (trace s) ++ [EngineDownload url opts] /\
    download_playlist E url kwargs s =
      match run_engine E (ydl_download E url opts) s_in with
      | (Ok _, s_out) => (Ok true, s_out)
      | (Raise e, s_out) =>
          (Ok false,
           {| self := self s_out;
              trace := trace s_out
                ++ [Log ERROR ("Playlist download failed: " +:+ str_exn E e)] |})
      end.
Proof.
  intros Hopts.
  unfold download_playlist, try_except, bind, logger_log, emit, ret. simpl.
  set (s1 := {| self := _; trace := _ |}).
  pose proof (get_ydl_opts_no_engine_call E kwargs s1) as Hne.
  rewrite (get_ydl_opts_normal E kwargs s) in Hopts. simpl in Hopts.
  rewrite (get_ydl_opts_normal E kwargs s1) in Hne |- *.
  change (config (self s1)) with (config (self s)) in *. rewrite Hopts in *.
  simpl in Hne |- *.
  match goal with |- context [run_engine E _ ?st] => exists st end.
  split; [reflexivity |]. split.
  - simpl. rewrite List.filter_app. simpl. rewrite Hne.
    rewrite List.filter_app. simpl. by rewrite app_nil_r.
  - destruct (run_engine E (ydl_download E url opts) _) as [[[] | e] s_out]; reflexivity.
Qed.

Lemma download_playlist_unresolved url kwargs s e :
  fst (_get_ydl_opts E kwargs s) = Raise e ->
  fst (download_playlist E url kwargs s) = Ok false /\
  self (snd (download_playlist E url kwargs s)) = self s /\
  List.filter is_engine_call (trace (snd (download_playlist E url kwargs s)))
    = List.filter is_engine_call (trace s).
Proof.
  intros Hopts.
  unfold download_playlist, try_except, bind, logger_log, emit, ret. simpl.
  set (s1 := {| self := _; trace := _ |}).
  pose proof (get_ydl_opts_no_engine_call E kwargs s1) as Hne.
  rewrite (get_ydl_opts_normal E kwargs s) in Hopts. simpl in Hopts.
  rewrite (get_ydl_opts_normal E kwargs s1) in Hne |- *.
  change (config (self s1)) with (config (self s)) in *. rewrite Hopts in *.
  simpl in Hne |- *. split; [reflexivity |]. split; [reflexivity |].
  rewrite List.filter_app. simpl. rewrite app_nil_r, Hne.
  rewrite List.filter_app. simpl. by rewrite app_nil_r.
Qed.
End PlaylistFacts.

(** A playlist download never raises.  With options that resolve it calls
    the engine once and returns whether that call ended without an
    exception.  Unlike a single download it counts neither an attempt nor
    a failure: the two counters are the same before and after, also when
    it returns [False]. *)
Theorem download_playlist_contract (E : Env) (url : string)
    (kwargs : gmap string value) (s : state) :
  let r := download_playlist E url kwargs s in
  (exists b, fst r = Ok b) /\
  total_downloads (stats_of (snd r)) = total_downloads (stats_of s) /\
  failed_downloads (stats_of (snd r)) = failed_downloads (stats_of s) /\
  (forall opts,
     fst (_get_ydl_opts E kwargs s) = Ok opts ->
     fst r = Ok (negb (attempt_fails E opts url)) /\
     List.filter is_engine_call (trace (snd r)) =
       List.filter is_engine_call (trace s) ++ [EngineDownload url opts]).
Proof.
  intros r. subst r.
  destruct (fst (_get_ydl_opts E kwargs s)) as [opts | e] eqn:Hopts.
  - destruct (download_playlist_resolved E url kwargs s opts Hopts)
      as (s_in & Hself & Hcalls & Heq).
    pose proof (run_engine_result E (ydl_download E url opts) s_in) as Hres.
    pose proof (run_engine_frame E (ydl_download E url opts) s_in)
      as (_ & Ht & Hf & _ & Hfr).
    rewrite Heq. unfold stats_of in *. rewrite <- Hself.
    assert (Hfails : attempt_fails E opts url
                     = negb (is_ok (fst (run_engine E (ydl_download E url opts) s_in))))
      by (unfold attempt_fails; by rewrite Hres).
    destruct (run_engine E (ydl_download E url opts) s_in) as [[[] | e] s_out];
      simpl in *.
    + split; [eauto |]. split; [exact Ht |]. split; [exact Hf |].
      intros o Ho. injection Ho as <-. rewrite Hfails. split; [reflexivity | congruence].
    + split; [eauto |]. split; [exact Ht |]. split; [exact Hf |].
      intros o Ho. injection Ho as <-. rewrite Hfails. split; [reflexivity |].
      rewrite List.filter_app. simpl. rewrite app_nil_r. congruence.
  - destruct (download_playlist_unresolved E url kwargs s e Hopts) as (Hr & Hself & _).
    rewrite Hr. unfold stats_of. rewrite Hself.
    split; [eauto |]. split; [reflexivity |]. split; [reflexivity |].
    intros o Ho. discriminate.
Qed.

Lemma download_playlist_contract_witness :
  fst (download_playlist sample_env "bad://list" ∅ (new_state _get_default_config)) = Ok false /\
  failed_downloads
    (stats_of (snd (download_playlist sample_env "bad://list" ∅
                      (new_state _get_default_config)))) = 0.
Proof.
  pose proof sample_options_resolve as Hok.
  destruct (fst (_get_ydl_opts sample_env ∅ (new_state _get_default_config)))
    as [opts | e] eqn:Hopts; [clear Hok | discriminate Hok].
  destruct (download_playlist_contract sample_env "bad://list" ∅
              (new_state _get_default_config)) as (_ & _ & Hf & Hres).
  destruct (Hres opts Hopts) as (Hr & _).
  split; [rewrite Hr; reflexivity | rewrite Hf; reflexivity].
Defined.

(** ** Batch download without usable options *)

Section BatchUnresolved.
Variable E : Env.
Local Opaque download_single.

Lemma batch_loop_unresolved (n : nat) (urls : list string) kwargs e :
  forall (acc : list (string * bool)) (s : state),
  fst (_get_ydl_opts E kwargs s) = Raise e ->
  exists s',
    batch_loop E n urls kwargs acc s
      = (Ok (fold_left (fun d u => dict_set d u false) urls acc), s') /\
    List.filter is_engine_call (trace s') = List.filter is_engine_call (trace s) /\
    total_downloads (stats_of s') = total_downloads (stats_of s) + Z.of_nat (length urls) /\
    failed_downloads (stats_of s') = failed_downloads (stats_of s) + Z.of_nat (length urls).
Proof.
  induction urls as [| u rest IH]; intros acc s Hopts.
  - exists s. cbn [batch_loop fold_left length]. repeat split; lia.
  - cbn [batch_loop fold_left length].
    unfold bind at 1. unfold logger_log at 1, emit at 1.
    set (s1 := {| self := self s; trace := _ |}).
    assert (Hopts1 : fst (_get_ydl_opts E kwargs s1) = Raise e).
    { rewrite (get_ydl_opts_result_config E). simpl.
      by rewrite <- (get_ydl_opts_result_config E). }
    destruct (download_single_unresolved E u kwargs s1 e Hopts1) as (tr & Htr & Hrun).
    unfold bind at 1. rewrite Hrun. cbn [negb].
    unfold bind at 1. unfold logger_log at 1, emit at 1.
    set (s3 := {| self := _; trace := _ |}).
    assert (Hopts3 : fst (_get_ydl_opts E kwargs s3) = Raise e).
    { rewrite (get_ydl_opts_result_config E). simpl.
      by rewrite <- (get_ydl_opts_result_config E). }
    destruct (IH (dict_set acc u false) s3 Hopts3) as (s' & Hloop & Hcalls & Ht & Hf).
    exists s'. split; [exact Hloop |].
    rewrite Hcalls, Ht, Hf. subst s3 s1. unfold stats_of. cbn [self trace download_stats
      incr_failed incr_total total_downloads failed_downloads].
    rewrite !List.filter_app, Htr. simpl List.filter. rewrite !app_nil_r.
    repeat split; lia.
Qed.

Lemma fold_set_false_get (urls : list string) :
  forall (acc : list (string * bool)) (u : string),
  dict_get (fold_left (fun d u => dict_set d u false) urls acc) u =
    if existsb (String.eqb u) urls then Some false else dict_get acc u.
Proof.
  induction urls as [| x rest IH]; intros acc u; simpl; [reflexivity |].
  rewrite IH. destruct (existsb (String.eqb u) rest); [by rewrite orb_true_r |].
  rewrite orb_false_r. destruct (String.eqb u x) eqn:Hux.
  - apply String.eqb_eq in Hux. subst x. apply dict_get_set_eq.
  - apply String.eqb_neq in Hux. apply dict_get_set_ne. congruence.
Qed.
End BatchUnresolved.

(** When option resolution raises (an incomplete or malformed
    configuration, a directory that cannot be created), a batch still runs
    to its end: every listed URL is mapped to [False] without the engine
    being called once, and both the attempt counter and the failure
    counter grow by the number of listed URLs. *)
Theorem download_batch_unresolved (E : Env) (urls : list string)
    (kwargs : gmap string value) (s : state) (e : exn) :
  fst (_get_ydl_opts E kwargs s) = Raise e ->
  exists results s',
    download_batch E urls kwargs s = (Ok results, s') /\
    (forall u, dict_get results u =
               if existsb (String.eqb u) urls then Some false else None) /\
    List.filter is_engine_call (trace s') = List.filter is_engine_call (trace s) /\
    total_downloads (stats_of s') = total_downloads (stats_of s) + Z.of_nat (length urls) /\
    failed_downloads (stats_of s') = failed_downloads (stats_of s) + Z.of_nat (length urls).
Proof.
  intros Hopts. unfold download_batch.
  destruct (batch_loop_unresolved E (length urls) urls kwargs e [] s Hopts)
    as (s' & Hrun & Hrest).
  eexists _, s'. split; [exact Hrun |]. split; [| exact Hrest].
  intros u. apply fold_set_false_get.
Qed.

Lemma download_batch_unresolved_witness :
  exists results s',
    download_batch sample_env ["https://a"; "https://b"] ∅ (new_state partial_config)
      = (Ok results, s') /\
    dict_get results "https://a" = Some false /\
    failed_downloads (stats_of s') = 2.
Proof.
  destruct (download_batch_unresolved sample_env ["https://a"; "https://b"] ∅
              (new_state partial_config) (KeyError "default_quality"))
    as (results & s' & Hrun & Hget & _ & _ & Hf).
  - vm_compute. reflexivity.
  - exists results, s'. split; [exact Hrun |].
    split; [rewrite Hget; reflexivity | rewrite Hf; reflexivity].
Defined.

(** ** Video information: what the query touches and what it builds *)

Section InfoCases.
Variable E : Env.

Lemma mapM_format_descriptor_fails (fs : list value) :
  forallb format_entry_ok fs = false -> exists e, mapM format_descriptor fs = Raise e.
Proof.
  induction fs as [| f fs IH]; simpl; [discriminate |].
  destruct (format_entry_ok f) eqn:Hf; simpl.
  - intros Hfs. destruct (format_descriptor_ok f Hf) as [o ->].
    destruct (IH Hfs) as [e ->]. eauto.
  - intros _. destruct f as [| | | | | d]; simpl; eauto.
    unfold format_descriptor, rbind, getitem.
    simpl in Hf. apply andb_false_iff in Hf as [Hf | Hf];
      apply bool_decide_eq_false in Hf.
    + destruct (d !! "format_id") eqn:Hid; [destruct Hf; eauto | eauto].
    + destruct (d !! "format_id"); [| eauto].
      destruct (d !! "ext") eqn:Hext; [destruct Hf; eauto | eauto].
Qed.

Lemma mapM_format_descriptor_shape (fs out : list value) :
  mapM format_descriptor fs = Ok out ->
  length out = length fs /\
  forall i f, fs !! i = Some f ->
    exists d fid ext,
      f = VDict d /\ d !! "format_id" = Some fid /\ d !! "ext" = Some ext /\
      out !! i = Some (VDict (list_to_map [("format_id", fid); ("ext", ext);
                                           ("height", default VNone (d !! "height"))])).
Proof.
  revert out. induction fs as [| f fs IH]; intros out; simpl.
  - intros Hout. injection Hout as <-. split; [reflexivity |]. intros i f Hf. discriminate.
  - destruct (format_descriptor f) as [o |] eqn:Hf; [| discriminate].
    destruct (mapM format_descriptor fs) as [os |] eqn:Hfs; [| discriminate].
    intros Hout. injection Hout as <-.
    destruct (IH os eq_refl) as (Hlen & Hshape).
    split; [simpl; by rewrite Hlen |].
    intros [| i] f0 Hf0; simpl in Hf0.
    + injection Hf0 as <-. unfold format_descriptor, rbind, getitem, get_method in Hf.
      destruct f as [| | | | | d]; try discriminate.
      destruct (d !! "format_id") as [fid |] eqn:Hid; [| discriminate].
      destruct (d !! "ext") as [ext |] eqn:Hext; [| discriminate].
      injection Hf as <-. exists d, fid, ext. repeat split; assumption.
    + apply (Hshape i f0 Hf0).
Qed.
End InfoCases.

(** The info query only queries: the object (configuration and all four
    counters) is the same afterwards, and all it does to the outside is
    one metadata request to the engine, followed by one error log line
    exactly when the result is [None]. *)
Theorem get_video_info_frame (E : Env) (url : string) (s : state) :
  exists r tr,
    get_video_info E url s =
      (Ok r, {| self := self s; trace := trace s ++ EngineExtractInfo url :: tr |}) /\
    match r with
    | Some _ => tr = []
    | None => exists msg, tr = [Log ERROR ("Failed to get video info: " +:+ msg)]
    end.
Proof.
  unfold get_video_info, try_except, bind, lift, emit, logger_log, ret. simpl.
  repeat (step_match; simpl);
    first [ by (exists None; eexists; split; [by rewrite <- app_assoc | eauto])
          | by (eexists (Some _), []; split; reflexivity) ].
Qed.

Section InfoSnapshot.
Variable E : Env.

Lemma description_cases (info : gmap string value) :
  (exists desc, info !! "description" = Some (VStr desc)) \/
  truthy (default VNone (info !! "description")) = false ->
  exists descr,
    (descr = VNone \/ exists desc, descr = VStr (str_take 200 desc +:+ "...")) /\
    (truthy (default VNone (info !! "description")) = false -> descr = VNone) /\
    forall (s : state),
      (if truthy (default VNone (info !! "description"))
       then (d <- lift (get_method (VDict info) "description" (VStr ""));;
             cut <- lift (slice_200 d);;
             lift (add_ellipsis cut))
       else ret VNone) s = (Ok descr, s).
Proof.
  intros [[desc Hdesc] | Hfalsy].
  - rewrite Hdesc. simpl. destruct (String.eqb desc "") eqn:Hempty; simpl.
    + exists VNone. split; [by left |]. split; [reflexivity | reflexivity].
    + exists (VStr (str_take 200 desc +:+ "...")). split; [right; eauto |].
      split; [discriminate |]. intros s.
      unfold bind, lift, get_method. rewrite Hdesc. reflexivity.
  - rewrite Hfalsy. exists VNone. split; [by left |]. split; reflexivity.
Qed.

Lemma get_video_info_snapshot (url : string) (s : state) (info : gmap string value)
    (fs : list value) :
  ydl_extract_info E url = Ok (VDict info) ->
  (exists desc, info !! "description" = Some (VStr desc)) \/
  truthy (default VNone (info !! "description")) = false ->
  default (VList []) (info !! "formats") = VList fs ->
  forallb format_entry_ok fs = true ->
  exists descr out,
    (descr = VNone \/ exists desc, descr = VStr (str_take 200 desc +:+ "...")) /\
    (truthy (default VNone (info !! "description")) = false -> descr = VNone) /\
    mapM format_descriptor fs = Ok out /\
    get_video_info E url s =
      (Ok (Some (list_to_map [
                   ("title", default VNone (info !! "title"));
                   ("uploader", default VNone (info !! "uploader"));
                   ("duration", default VNone (info !! "duration"));
                   ("view_count", default VNone (info !! "view_count"));
                   ("upload_date", default VNone (info !! "upload_date"));
                   ("description", descr);
                   ("formats", VList out)])),
       {| self := self s; trace := trace s ++ [EngineExtractInfo url] |}).
Proof.
  intros Hinfo Hdesc Hfs Hok.
  destruct (mapM_format_descriptor_ok fs Hok) as [out Hout].
  destruct (description_cases info Hdesc) as (descr & Hshape & Hnone & Hrun).
  exists descr, out. split; [exact Hshape |]. split; [exact Hnone |]. split; [exact Hout |].
  unfold get_video_info, try_except. unfold bind at 1. unfold emit at 1.
  unfold bind at 1. unfold lift at 1. rewrite Hinfo.
  do 6 (unfold bind at 1; unfold lift at 1; unfold get_method at 1).
  unfold bind at 1. cbn [truthy]. rewrite Hrun.
  unfold bind, lift, get_method, ret. rewrite Hfs. cbn [iterate]. rewrite Hout.
  reflexivity.
Qed.
End InfoSnapshot.

(** A snapshot copies title, uploader, duration, view count and upload
    date from the engine's answer, with [None] for each one that is absent;
    its formats are the engine's in the same order and number, each reduced
    to [format_id], [ext] and [height], the height being [None] when the
    engine gives none; its description is [None] when the engine gives no
    description, [None] or the empty string. *)
Theorem get_video_info_snapshot_fields (E : Env) (url : string) (s : state)
    (info : gmap string value) (fs : list value) :
  ydl_extract_info E url = Ok (VDict info) ->
  (exists desc, info !! "description" = Some (VStr desc)) \/
  truthy (default VNone (info !! "description")) = false ->
  default (VList []) (info !! "formats") = VList fs ->
  forallb format_entry_ok fs = true ->
  exists snap out,
    fst (get_video_info E url s) = Ok (Some snap) /\
    (forall k, In k ["title"; "uploader"; "duration"; "view_count"; "upload_date"] ->
               snap !! k = Some (default VNone (info !! k))) /\
    (truthy (default VNone (info !! "description")) = false ->
     snap !! "description" = Some VNone) /\
    snap !! "formats" = Some (VList out) /\
    length out = length fs /\
    (forall i d, fs !! i = Some (VDict d) ->
       exists fid ext,
         d !! "format_id" = Some fid /\ d !! "ext" = Some ext /\
         out !! i = Some (VDict (list_to_map [("format_id", fid); ("ext", ext);
                                              ("height", default VNone (d !! "height"))]))).
Proof.
  intros Hinfo Hdesc Hfs Hok.
  destruct (get_video_info_snapshot E url s info fs Hinfo Hdesc Hfs Hok)
    as (descr & out & _ & Hnone & Hout & Hrun).
  destruct (mapM_format_descriptor_shape fs out Hout) as (Hlen & Hshape).
  eexists _, out. rewrite Hrun. split; [reflexivity |]. split.
  { intros k Hk. simpl in Hk.
    repeat (destruct Hk as [<- | Hk]; [reflexivity |]). destruct Hk. }
  split; [intros Hfalsy; rewrite (Hnone Hfalsy); reflexivity |].
  split; [reflexivity |]. split; [exact Hlen |].
  intros i d Hd. destruct (Hshape i (VDict d) Hd) as (d' & fid & ext & Heq & Hid & Hext & Hi).
  injection Heq as <-. eauto.
Qed.

Lemma get_video_info_snapshot_fields_witness :
  exists snap,
    fst (get_video_info sample_env "https://video" (new_state _get_default_config))
      = Ok (Some snap) /\
    snap !! "view_count" = Some VNone /\
    snap !! "title" = Some (VStr "A title").
Proof.
  destruct (get_video_info_snapshot_fields sample_env "https://video"
              (new_state _get_default_config)
              (list_to_map [
                 ("title", VStr "A title");
                 ("description", VStr "short text");
                 ("formats", VList [VDict (list_to_map [("format_id", VStr "18");
                                                         ("ext", VStr "mp4");
                                                         ("height", VInt 360)])])])
              [VDict (list_to_map [("format_id", VStr "18"); ("ext", VStr "mp4");
                                   ("height", VInt 360)])])
    as (snap & out & Hsnap & Hfields & _).
  - reflexivity.
  - left. exists "short text". vm_compute. reflexivity.
  - vm_compute. reflexivity.
  - vm_compute. reflexivity.
  - exists snap. split; [exact Hsnap |]. split.
    + rewrite (Hfields "view_count"); [vm_compute; reflexivity | simpl; tauto].
    + rewrite (Hfields "title"); [vm_compute; reflexivity | simpl; tauto].
Defined.

(** One format entry that is not a dictionary, or lacks [format_id] or
    [ext], costs the whole answer: the query returns [None]. *)
Theorem get_video_info_bad_format_entry (E : Env) (url : string) (s : state)
    (info : gmap string value) (fs : list value) :
  ydl_extract_info E url = Ok (VDict info) ->
  info !! "formats" = Some (VList fs) ->
  forallb format_entry_ok fs = false ->
  fst (get_video_info E url s) = Ok None.
Proof.
  intros Hinfo Hfs Hbad.
  destruct (mapM_format_descriptor_fails fs Hbad) as [e He].
  unfold get_video_info, try_except, bind, lift, emit, logger_log, ret, get_method.
  simpl. rewrite Hinfo. simpl. rewrite Hfs. simpl.
  repeat (step_match; simpl; try reflexivity).
  all: simplify_eq.
Qed.

Lemma get_video_info_bad_format_entry_witness :
  fst (get_video_info (with_info (fun _ => Ok broken_info) sample_env) "https://video"
         (new_state _get_default_config)) = Ok None.
Proof.
  apply (get_video_info_bad_format_entry (with_info (fun _ => Ok broken_info) sample_env)
           "https://video" (new_state _get_default_config)
           (list_to_map [
              ("title", VStr "A title");
              ("view_count", VInt 1234567);
              ("formats", VList [VDict (list_to_map [("format_id", VStr "18");
                                                      ("ext", VStr "mp4")]);
                                 VDict (list_to_map [("format_id", VStr "22")])])])
           [VDict (list_to_map [("format_id", VStr "18"); ("ext", VStr "mp4")]);
            VDict (list_to_map [("format_id", VStr "22")])]).
  - reflexivity.
  - vm_compute. reflexivity.
  - vm_compute. reflexivity.
Defined.

(** ** Batch file loading: what the entries look like *)

Section StripMore.
Lemma rstrip_idempotent (s : string) : rstrip (rstrip s) = rstrip s.
Proof.
  induction s as [| c s IH]; [reflexivity |].
  cbn [rstrip]. destruct (rstrip s) as [| b r] eqn:Hr.
  - destruct (is_space c) eqn:Hc; [reflexivity |]. cbn [rstrip]. by rewrite Hc.
  - cbn [rstrip]. cbn [rstrip] in IH. by rewrite IH.
Qed.

Lemma rstrip_fixed_lstrip (t : string) : rstrip t = t -> rstrip (lstrip t) = lstrip t.
Proof.
  induction t as [| c t IH]; [reflexivity |].
  intros Hfix. cbn [lstrip]. destruct (is_space c) eqn:Hc; [| exact Hfix].
  apply IH. cbn [rstrip] in Hfix. destruct (rstrip t) as [| b r] eqn:Hr.
  - rewrite Hc in Hfix. discriminate.
  - by injection Hfix.
Qed.

Lemma lstrip_idempotent (s : string) : lstrip (lstrip s) = lstrip s.
Proof.
  induction s as [| c s IH]; [reflexivity |].
  cbn [lstrip]. destruct (is_space c) eqn:Hc; [exact IH |].
  cbn [lstrip]. by rewrite Hc.
Qed.

Lemma strip_idempotent (s : string) : strip (strip s) = strip s.
Proof.
  unfold strip.
  rewrite (rstrip_fixed_lstrip (rstrip s) (rstrip_idempotent s)).
  apply lstrip_idempotent.
Qed.

Lemma lstrip_head (s : string) (c : ascii) (r : string) :
  lstrip s = String c r -> is_space c = false.
Proof.
  induction s as [| a s IH]; [discriminate |].
  cbn [lstrip]. destruct (is_space a) eqn:Ha; [exact IH |].
  intros Heq. injection Heq as <- _. exact Ha.
Qed.

Lemma stripped_url_lines_in (lines : list string) (u : string) :
  In u (stripped_url_lines lines) <->
  exists line, In line lines /\ u = strip line /\
               truthy (VStr (strip line)) = true /\ startswith_hash line = false.
Proof.
  induction lines as [| l lines IH]; cbn [stripped_url_lines].
  - split; [intros [] | intros (? & [] & _)].
  - destruct (truthy (VStr (strip l)) && negb (startswith_hash l)) eqn:Hkeep.
    + apply andb_prop in Hkeep as [Ht Hh]. apply negb_true_iff in Hh.
      cbn [In]. rewrite IH. split.
      * intros [<- | (line & Hin & Hrest)]; [exists l; tauto | exists line; tauto].
      * intros (line & [<- | Hin] & -> & Hrest); [by left | right; exists line; tauto].
    + rewrite IH. cbn [In]. split.
      * intros (line & Hin & Hrest). exists line. tauto.
      * intros (line & [<- | Hin] & -> & Ht & Hh); [| exists line; tauto].
        rewrite Ht, Hh in Hkeep. discriminate.
Qed.
End StripMore.

(** Every entry the loader returns is usable as it is: it is not empty,
    stripping it again changes nothing, and it does not begin with white
    space. *)
Theorem load_batch_urls_entries_clean (E : Env) (file_path text : string)
    (urls : list string) (u : string) :
  open_file E file_path = Ok text ->
  fst (load_batch_urls E file_path) = Returned urls ->
  In u urls ->
  u <> "" /\ strip u = u /\
  match u with String c _ => is_space c = false | EmptyString => False end.
Proof.
  intros Hopen Hrun Hin. unfold load_batch_urls in Hrun. rewrite Hopen in Hrun.
  injection Hrun as <-.
  apply stripped_url_lines_in in Hin as (line & _ & -> & Ht & _).
  assert (Hne : strip line <> "").
  { intros Hempty. rewrite Hempty in Ht. discriminate. }
  split; [exact Hne |]. split; [apply strip_idempotent |].
  destruct (strip line) as [| c r] eqn:Hs; [congruence |].
  unfold strip in Hs. exact (lstrip_head _ _ _ Hs).
Qed.

Lemma load_batch_urls_entries_clean_witness :
  strip "https://a" = "https://a".
Proof.
  apply (load_batch_urls_entries_clean sample_env "urls.txt" sample_batch_file
           ["https://a"; "bad://b"] "https://a"); [reflexivity | reflexivity |].
  simpl. tauto.
Defined.

(** Only the first character of the line as written decides whether it is
    a comment.  A comment that is indented is not skipped: it comes back,
    stripped, as an entry that begins with [#]. *)
Theorem load_batch_urls_keeps_indented_comment (E : Env) (file_path text line : string)
    (urls : list string) :
  open_file E file_path = Ok text ->
  fst (load_batch_urls E file_path) = Returned urls ->
  In line (text_lines text) ->
  comment_line line = false ->
  startswith_hash (strip line) = true ->
  In (strip line) urls.
Proof.
  intros Hopen Hrun Hin Hnc Hhash. unfold load_batch_urls in Hrun. rewrite Hopen in Hrun.
  injection Hrun as <-.
  rewrite (stripped_url_lines_related _ _ (lines_related text)).
  apply in_map, filter_In. split; [exact Hin |].
  rewrite Hnc, <- strip_truthy. simpl.
  destruct (strip line); [discriminate | reflexivity].
Qed.

Lemma load_batch_urls_keeps_indented_comment_witness :
  fst (load_batch_urls (with_text commented_batch_file sample_env) "urls.txt")
    = Returned ["# later"; "https://a"] /\
  In "# later" ["# later"; "https://a"].
Proof.
  split; [reflexivity |].
  apply (load_batch_urls_keeps_indented_comment
           (with_text commented_batch_file sample_env) "urls.txt" commented_batch_file
           "  # later" ["# later"; "https://a"]); try reflexivity.
  simpl. tauto.
Defined.

(** ** cli.py: printing *)

Section PrintFacts.
Variable CE : CliEnv.

Lemma int_truediv_in_range (a b : Z) (s : state) :
  b <> 0 -> quotient_too_large a b = false -> int_truediv a b s = (Done tt, s).
Proof.
  intros Hb Hq. unfold int_truediv. apply Z.eqb_neq in Hb. by rewrite Hb, Hq.
Qed.

Lemma int_truediv_cases (a b : Z) (s : state) :
  b <> 0 ->
  int_truediv a b s = (Done tt, s) \/
  exists msg, int_truediv a b s = (Stop (UncaughtOverflowError msg), s).
Proof.
  intros Hb. unfold int_truediv. apply Z.eqb_neq in Hb. rewrite Hb.
  destruct (quotient_too_large a b); [right; by eexists | by left].
Qed.

Lemma print_download_stats_run (s : state) :
  quotient_too_large (total_size (stats_of s)) 1024 = false ->
  (0 < total_downloads (stats_of s) ->
   quotient_too_large (successful_downloads (stats_of s)) (total_downloads (stats_of s))
     = false) ->
  exists tr,
    print_download_stats CE s = (Done tt, {| self := self s; trace := trace s ++ tr |}) /\
    length tr = if 0 <? total_downloads (stats_of s) then 6%nat else 5%nat.
Proof.
  intros Hsize Hrate. unfold print_download_stats, cprint, stats_of in *.
  unfold cbind, from_M, get_download_stats, emit, cret.
  cbn [self trace fst snd].
  rewrite int_truediv_in_range by (done || lia). cbn [self trace].
  destruct (0 <? total_downloads (download_stats (self s))) eqn:Hpos.
  - apply Z.ltb_lt in Hpos.
    rewrite int_truediv_in_range by (lia || auto). cbn [self trace].
    eexists [_; _; _; _; _; _]. split; [| reflexivity].
    by rewrite <- !app_assoc.
  - eexists [_; _; _; _; _]. split; [| reflexivity].
    by rewrite <- !app_assoc.
Qed.

Lemma print_download_stats_size_overflow (s : state) :
  quotient_too_large (total_size (stats_of s)) 1024 = true ->
  print_download_stats CE s =
    (Stop (UncaughtOverflowError "integer division result too large for a float"),
     {| self := self s;
        trace := trace s ++
          [Print (nl +:+ "Download Statistics:");
           Print ("Total Downloads: " +:+ pretty (total_downloads (stats_of s)));
           Print ("Successful: " +:+ pretty (successful_downloads (stats_of s)));
           Print ("Failed: " +:+ pretty (failed_downloads (stats_of s)))] |}).
Proof.
  intros Hsize. unfold print_download_stats, cprint, stats_of in *.
  unfold cbind, from_M, get_download_stats, emit, cret.
  cbn [self trace fst snd].
  unfold int_truediv at 1. rewrite Hsize. cbn [Z.eqb cstop].
  by rewrite <- !app_assoc.
Qed.

Lemma print_download_stats_cases (s : state) :
  exists tr,
    snd (print_download_stats CE s) = {| self := self s; trace := trace s ++ tr |} /\
    (fst (print_download_stats CE s) = Done tt \/
     exists msg, fst (print_download_stats CE s) = Stop (UncaughtOverflowError msg)).
Proof.
  unfold print_download_stats, cprint, stats_of.
  unfold cbind, from_M, get_download_stats, emit, cret.
  cbn [self trace fst snd].
  match goal with |- context [int_truediv ?a 1024 ?st] =>
    destruct (int_truediv_cases a 1024 st) as [-> | (msg & ->)]; [lia | |] end.
  2: { eexists [_; _; _; _]. cbn [fst snd self trace]. rewrite <- !app_assoc.
       split; [reflexivity | right; by eexists]. }
  cbn [self trace].
  destruct (0 <? total_downloads (download_stats (self s))) eqn:Hpos.
  - apply Z.ltb_lt in Hpos.
    match goal with |- context [int_truediv ?a ?b ?st] =>
      destruct (int_truediv_cases a b st) as [-> | (msg & ->)]; [lia | |] end.
    + eexists [_; _; _; _; _; _]. cbn [fst snd self trace]. rewrite <- !app_assoc.
      split; [reflexivity | by left].
    + eexists [_; _; _; _; _]. cbn [fst snd self trace]. rewrite <- !app_assoc.
      split; [reflexivity | right; by eexists].
  - eexists [_; _; _; _; _]. cbn [fst snd self trace]. rewrite <- !app_assoc.
    split; [reflexivity | by left].
Qed.

Lemma print_results_run (results : list (string * bool)) :
  forall s : state,
  exists tr,
    print_results results s = (Done tt, {| self := self s; trace := trace s ++ tr |}) /\
    length tr = length results /\
    List.filter is_engine_call tr = [].
Proof.
  induction results as [| [url ok] rest IH]; intros s.
  - exists []. destruct s. cbn. rewrite app_nil_r. repeat split.
  - cbn [print_results]. unfold cbind at 1, cprint, from_M, emit.
    match goal with |- context [print_results rest ?st] =>
      destruct (IH st) as (tr & Hrun & Hlen & Hcalls); rewrite Hrun end.
    cbn [self trace]. eexists (_ :: tr). rewrite <- app_assoc.
    split; [reflexivity |]. split; [simpl; by rewrite Hlen | exact Hcalls].
Qed.
End PrintFacts.

(** Printing the statistics changes nothing in the downloader, and what
    can go wrong in it is a quotient beyond the floats.  With a cumulative
    size and a success ratio in range it returns after five lines, or six
    when an attempt was counted.  With a cumulative size out of range it
    prints the header and the three counts and dies with [OverflowError].
    It never divides by zero: the ratio is computed only when at least
    one attempt was counted. *)
Theorem print_download_stats_outcomes (CE : CliEnv) (s : state) :
  (quotient_too_large (total_size (stats_of s)) 1024 = false ->
   (0 < total_downloads (stats_of s) ->
    quotient_too_large (successful_downloads (stats_of s)) (total_downloads (stats_of s))
      = false) ->
   exists tr,
     print_download_stats CE s = (Done tt, {| self := self s; trace := trace s ++ tr |}) /\
     length tr = if 0 <? total_downloads (stats_of s) then 6%nat else 5%nat) /\
  (quotient_too_large (total_size (stats_of s)) 1024 = true ->
   print_download_stats CE s =
     (Stop (UncaughtOverflowError "integer division result too large for a float"),
      {| self := self s;
         trace := trace s ++
           [Print (nl +:+ "Download Statistics:");
            Print ("Total Downloads: " +:+ pretty (total_downloads (stats_of s)));
            Print ("Successful: " +:+ pretty (successful_downloads (stats_of s)));
            Print ("Failed: " +:+ pretty (failed_downloads (stats_of s)))] |})) /\
  self (snd (print_download_stats CE s)) = self s /\
  fst (print_download_stats CE s) <> Stop (Uncaught ZeroDivisionError).
Proof.
  split; [apply print_download_stats_run |].
  split; [apply print_download_stats_size_overflow |].
  destruct (print_download_stats_cases CE s) as (tr & Hstate & Hcases).
  rewrite Hstate. split; [reflexivity |].
  destruct Hcases as [-> | (msg & ->)]; discriminate.
Qed.

Lemma print_download_stats_outcomes_witness :
  fst (print_download_stats sample_cli (new_state _get_default_config)) = Done tt /\
  fst (print_download_stats sample_cli
         {| self := {| config := _get_default_config; logger := init_logger;
                       download_stats := add_size (2 ^ 1034) zero_stats |};
            trace := [] |}) =
    Stop (UncaughtOverflowError "integer division result too large for a float").
Proof.
  split.
  - destruct (print_download_stats_outcomes sample_cli (new_state _get_default_config))
      as (Hrun & _).
    destruct Hrun as (tr & Hrun & _);
      [vm_compute; reflexivity | cbn; lia |].
    by rewrite Hrun.
  - destruct (print_download_stats_outcomes sample_cli
                {| self := {| config := _get_default_config; logger := init_logger;
                              download_stats := add_size (2 ^ 1034) zero_stats |};
                   trace := [] |}) as (_ & Hover & _).
    rewrite Hover; [reflexivity | vm_compute; reflexivity].
Defined.

(** When the info query fails, [print_video_info] reports it in one line
    and returns: after the engine request and the error log line the only
    output is the failure message. *)
Theorem print_video_info_engine_failure (CE : CliEnv) (url : string) (s : state) (e : exn) :
  ydl_extract_info (lib CE) url = Raise e ->
  print_video_info CE url s =
    (Done tt,
     {| self := self s;
        trace := trace s ++
          [EngineExtractInfo url;
           Log ERROR ("Failed to get video info: " +:+ str_exn (lib CE) e);
           Print "Failed to retrieve video information."] |}).
Proof.
  intros He.
  unfold print_video_info, cprint, get_video_info, logger_log.
  unfold cbind, from_M, try_except, bind, lift, emit, ret.
  cbn [self trace]. rewrite He. simpl. by rewrite <- !app_assoc.
Qed.

Lemma print_video_info_engine_failure_witness :
  fst (print_video_info sample_cli "bad://video" (new_state _get_default_config)) = Done tt.
Proof.
  rewrite (print_video_info_engine_failure sample_cli "bad://video"
             (new_state _get_default_config) (DownloadError "Video unavailable"));
    reflexivity.
Defined.

(** When the engine's answer has no view count (absent or [None]),
    [print_video_info] prints title, uploader and duration and then dies
    with [TypeError]: [None] cannot be formatted with a thousands
    separator.  Nothing more is printed. *)
Theorem print_video_info_without_view_count (CE : CliEnv) (url : string) (s : state)
    (info : gmap string value) (fs : list value) :
  ydl_extract_info (lib CE) url = Ok (VDict info) ->
  (exists desc, info !! "description" = Some (VStr desc)) \/
  truthy (default VNone (info !! "description")) = false ->
  default (VList []) (info !! "formats") = VList fs ->
  forallb format_entry_ok fs = true ->
  default VNone (info !! "view_count") = VNone ->
  exists msg,
    print_video_info CE url s =
      (Stop (Uncaught (TypeError msg)),
       {| self := self s;
          trace := trace s ++
            [EngineExtractInfo url;
             Print ("Title: " +:+ py_str (lib CE) (default VNone (info !! "title")));
             Print ("Uploader: " +:+ py_str (lib CE) (default VNone (info !! "uploader")));
             Print ("Duration: " +:+ py_str (lib CE) (default VNone (info !! "duration"))
                    +:+ " seconds")] |}).
Proof.
  intros Hinfo Hdesc Hfs Hok Hvc.
  destruct (get_video_info_snapshot (lib CE) url s info fs Hinfo Hdesc Hfs Hok)
    as (descr & out & _ & _ & _ & Hrun).
  unfold print_video_info. unfold cbind at 1. unfold from_M at 1. rewrite Hrun.
  rewrite Hvc.
  match goal with |- context [truthy (VDict ?m)] =>
    assert (Htruthy : truthy (VDict m) = true) end.
  { cbn [truthy]. apply negb_true_iff, bool_decide_eq_false.
    intros Hempty. apply (f_equal (fun m : gmap string value => m !! "title")) in Hempty.
    cbn in Hempty. rewrite lookup_insert_eq in Hempty. discriminate. }
  rewrite Htruthy.
  unfold cprint, format_comma, cstop. unfold cbind, from_M, lift, emit, getitem.
  cbn [list_to_map foldr].
  rewrite lookup_insert_eq.
  rewrite (lookup_insert_ne _ "title" "uploader") by done. rewrite lookup_insert_eq.
  do 2 rewrite (lookup_insert_ne _ _ "duration") by done. rewrite lookup_insert_eq.
  do 3 rewrite (lookup_insert_ne _ _ "view_count") by done. rewrite lookup_insert_eq.
  cbn [self trace]. eexists. by rewrite <- !app_assoc.
Qed.

Lemma print_video_info_without_view_count_witness :
  exists msg,
    fst (print_video_info sample_cli "https://video" (new_state _get_default_config))
    = Stop (Uncaught (TypeError msg)).
Proof.
  destruct (print_video_info_without_view_count sample_cli "https://video"
              (new_state _get_default_config)
              (list_to_map [
                 ("title", VStr "A title");
                 ("description", VStr "short text");
                 ("formats", VList [VDict (list_to_map [("format_id", VStr "18");
                                                         ("ext", VStr "mp4");
                                                         ("height", VInt 360)])])])
              [VDict (list_to_map [("format_id", VStr "18"); ("ext", VStr "mp4");
                                   ("height", VInt 360)])])
    as (msg & Hrun).
  - reflexivity.
  - left. exists "short text". vm_compute. reflexivity.
  - vm_compute. reflexivity.
  - vm_compute. reflexivity.
  - vm_compute. reflexivity.
  - exists msg. by rewrite Hrun.
Defined.

Section FormatLines.
Variable CE : CliEnv.

Lemma mapM_format_descriptor_descriptors (fs out : list value) :
  mapM format_descriptor fs = Ok out -> Forall is_descriptor out.
Proof.
  revert out. induction fs as [| f fs IH]; intros out; simpl.
  - intros Hout. injection Hout as <-. constructor.
  - destruct (format_descriptor f) as [o |] eqn:Hf; [| discriminate].
    destruct (mapM format_descriptor fs) as [os |] eqn:Hfs; [| discriminate].
    intros Hout. injection Hout as <-. constructor; [| by apply IH].
    unfold format_descriptor, rbind in Hf.
    destruct (getitem f "format_id"); [| discriminate].
    destruct (getitem f "ext"); [| discriminate].
    destruct (get_method f "height" VNone); [| discriminate].
    injection Hf as <-. unfold is_descriptor. eauto.
Qed.

Lemma print_format_lines_run (items : list value) :
  Forall is_descriptor items ->
  forall s : state,
  exists tr,
    print_format_lines CE items s = (Done tt, {| self := self s; trace := trace s ++ tr |}) /\
    length tr = length items /\
    List.filter is_engine_call tr = [].
Proof.
  induction 1 as [| f items Hf _ IH]; intros s.
  - exists []. destruct s. cbn. rewrite app_nil_r. repeat split.
  - destruct Hf as (fid & ext & h & ->).
    cbn [print_format_lines]. unfold cbind at 1. unfold print_format_line, cprint.
    unfold cbind, from_M, lift, emit, getitem, get_method.
    cbn [list_to_map foldr].
    rewrite lookup_insert_eq.
    rewrite (lookup_insert_ne _ "format_id" "ext") by done. rewrite lookup_insert_eq.
    do 2 rewrite (lookup_insert_ne _ _ "height") by done. rewrite lookup_insert_eq.
    cbn [default].
    match goal with |- context [print_format_lines CE items ?st] =>
      destruct (IH st) as (tr & Hrun & Hlen & Hcalls); rewrite Hrun end.
    cbn [self trace]. eexists (_ :: tr). rewrite <- app_assoc.
    split; [reflexivity |]. split; [simpl; by rewrite Hlen | exact Hcalls].
Qed.

Lemma quiet_refl (s : state) : quiet s s.
Proof. by split. Qed.

Lemma quiet_trans (s1 s2 s3 : state) : quiet s1 s2 -> quiet s2 s3 -> quiet s1 s3.
Proof. intros [H1 H2] [H3 H4]. split; congruence. Qed.

Lemma quiet_print (s : state) (text : string) :
  quiet s {| self := self s; trace := trace s ++ [Print text] |}.
Proof.
  split; [reflexivity |]. cbn [trace]. rewrite List.filter_app. simpl. apply app_nil_r.
Qed.

Lemma print_format_line_quiet (f : value) (s : state) :
  quiet s (snd (print_format_line CE f s)).
Proof.
  unfold print_format_line, cprint. unfold cbind, from_M, lift, emit.
  repeat (step_match; cbn [snd]; try apply quiet_refl).
  all: simplify_eq; apply quiet_print.
Qed.

Lemma print_format_lines_quiet (items : list value) :
  forall s : state, quiet s (snd (print_format_lines CE items s)).
Proof.
  induction items as [| f items IH]; intros s; [apply quiet_refl |].
  cbn [print_format_lines]. unfold cbind at 1.
  pose proof (print_format_line_quiet f s) as Hline.
  destruct (print_format_line CE f s) as [[[] | x] s1]; cbn [snd] in *; [| exact Hline].
  eapply quiet_trans; [exact Hline | apply IH].
Qed.
End FormatLines.



(** ** cli.py: main *)

Section MainFacts.
Variable CE : CliEnv.

Lemma get_video_info_quiet (url : string) (s : state) :
  quiet s (snd (get_video_info (lib CE) url s)).
Proof.
  unfold get_video_info, try_except, bind, lift, emit, logger_log, ret. simpl.
  repeat (step_match; simpl);
    (split; [reflexivity |]); cbn [trace];
    rewrite ?List.filter_app; simpl; by rewrite ?app_nil_r.
Qed.

Lemma print_video_info_quiet (url : string) (s : state) :
  quiet s (snd (print_video_info CE url s)).
Proof.
  unfold print_video_info. unfold cbind at 1. unfold from_M at 1.
  pose proof (get_video_info_quiet url s) as Hq.
  destruct (get_video_info (lib CE) url s) as [[[info |] | e] s1]; cbn [snd] in *.
  2: { eapply quiet_trans; [exact Hq | apply quiet_print]. }
  2: exact Hq.
  eapply quiet_trans; [exact Hq |]. clear Hq.
  destruct (truthy (VDict info)); [| apply quiet_print].
  unfold cprint, format_comma, cret, cstop. unfold cbind, from_M, lift, emit.
  repeat (step_match; cbn [snd self trace];
          try (split; [reflexivity |]; cbn [trace];
               rewrite ?List.filter_app; simpl; by rewrite ?app_nil_r)).
  all: eapply quiet_trans; [| apply print_format_lines_quiet].
  all: split; [reflexivity |]; cbn [trace];
    rewrite ?List.filter_app; simpl; by rewrite ?app_nil_r.
Qed.
End MainFacts.

Section RateLimitFlag.
Variable E : Env.

Lemma download_single_ignores_rate_limit url kwargs v s :
  download_single E url (<["rate_limit" := v]> kwargs) s = download_single E url kwargs s.
Proof.
  unfold download_single, try_except, bind, logger_log, emit, update_stats, ret. simpl.
  by rewrite get_ydl_opts_ignores_rate_limit_override.
Qed.

Lemma download_playlist_ignores_rate_limit url kwargs v s :
  download_playlist E url (<["rate_limit" := v]> kwargs) s = download_playlist E url kwargs s.
Proof.
  unfold download_playlist, try_except, bind, logger_log, emit, ret. simpl.
  by rewrite get_ydl_opts_ignores_rate_limit_override.
Qed.

Lemma bind_ext {S A B} (m1 m2 : M S A) (f1 f2 : A -> M S B) (s : S) :
  m1 s = m2 s -> (forall a s', f1 a s' = f2 a s') -> bind m1 f1 s = bind m2 f2 s.
Proof.
  intros Hm Hf. unfold bind. rewrite Hm. destruct (m2 s) as [[a | e] s']; [apply Hf | reflexivity].
Qed.

Lemma batch_loop_ignores_rate_limit n urls kwargs v :
  forall acc s,
  batch_loop E n urls (<["rate_limit" := v]> kwargs) acc s = batch_loop E n urls kwargs acc s.
Proof.
  induction urls as [| u urls IH]; intros acc s; [reflexivity |].
  cbn [batch_loop].
  apply bind_ext; [reflexivity | intros _ s1].
  apply bind_ext; [apply download_single_ignores_rate_limit | intros ok s2].
  apply bind_ext; [reflexivity | intros _ s3]. apply IH.
Qed.

Lemma batch_loop_returns n urls kwargs :
  forall acc s, exists r, fst (batch_loop E n urls kwargs acc s) = Ok r.
Proof.
  induction urls as [| u urls IH]; intros acc s; [by eexists |].
  cbn [batch_loop]. unfold bind at 1. unfold logger_log at 1. unfold emit at 1.
  unfold bind at 1.
  match goal with |- context [download_single E u kwargs ?st] =>
    destruct (download_single_returns E u kwargs st) as (b & Hb);
    destruct (download_single E u kwargs st) as [r s1] end.
  cbn [fst] in Hb. subst r.
  unfold bind at 1. destruct (negb b); unfold logger_log, emit, ret; apply IH.
Qed.
Lemma progress_hook_trace_prefix (d : gmap string value) (s : state) :
  exists rest, trace (snd (_progress_hook E d s)) = trace s ++ rest.
Proof.
  destruct s as [[cfg lg st] tr].
  unfold _progress_hook, bind, lift, emit, update_stats, ret, raise.
  repeat (step_match; simpl);
    solve [ exists []; by rewrite app_nil_r | eexists; reflexivity ].
Qed.

Lemma run_engine_trace_prefix (t : engine_run) (s : state) :
  exists rest, trace (snd (run_engine E t s)) = trace s ++ rest.
Proof.
  revert s. induction t as [| e | d k IH]; intros s; simpl;
    try (exists []; by rewrite app_nil_r).
  destruct (progress_hook_trace_prefix d s) as (r1 & Hr1).
  destruct (_progress_hook E d s) as [r s']. cbn [snd] in Hr1.
  destruct (IH r s') as (r2 & ->). rewrite Hr1. eexists. by rewrite <- app_assoc.
Qed.

Lemma download_single_trace_prefix url kwargs s :
  exists rest, trace (snd (download_single E url kwargs s)) = trace s ++ rest.
Proof.
  unfold download_single, try_except, bind, logger_log, emit, update_stats, ret. simpl.
  set (s1 := {| self := _; trace := _ |}).
  rewrite (get_ydl_opts_normal E kwargs s1).
  destruct (fst (_get_ydl_opts E kwargs (new_state (config (self s1))))) as [opts | e].
  - cbn [self trace].
    match goal with |- context [run_engine E ?t ?st] =>
      pose proof (run_engine_trace_prefix t st) as (rest & Hrest);
      destruct (run_engine E t st) as [[[] | e] s2] end;
      cbn [snd trace self] in *; rewrite Hrest; subst s1; cbn [trace];
      eexists; rewrite <- !app_assoc; reflexivity.
  - subst s1. cbn [snd trace self]. eexists. rewrite <- !app_assoc. reflexivity.
Qed.

Lemma batch_loop_trace_prefix n urls kwargs :
  forall acc s, exists rest, trace (snd (batch_loop E n urls kwargs acc s)) = trace s ++ rest.
Proof.
  induction urls as [| u urls IH]; intros acc s.
  - exists []. cbn. by rewrite app_nil_r.
  - cbn [batch_loop]. unfold bind at 1. unfold logger_log at 1. unfold emit at 1.
    unfold bind at 1.
    match goal with |- context [download_single E u kwargs ?st] =>
      destruct (download_single_trace_prefix u kwargs st) as (r1 & Hr1);
      destruct (download_single E u kwargs st) as [[b | e] s1] end;
      cbn [snd trace self] in Hr1.
    + unfold bind at 1.
      destruct (negb b); unfold logger_log, emit, ret;
        match goal with |- context [batch_loop E n urls kwargs ?a ?st] =>
          destruct (IH a st) as (r2 & ->) end;
        cbn [trace]; rewrite Hr1; eexists; rewrite <- !app_assoc; reflexivity.
    + cbn [snd]. rewrite Hr1. eexists. rewrite <- !app_assoc. reflexivity.
Qed.
End RateLimitFlag.

Lemma sample_options_default_cli :
  is_ok (fst (_get_ydl_opts sample_env (download_opts (default_namespace ""))
                (new_state _get_default_config))) = true.
Proof. vm_compute. reflexivity. Qed.

Section MainRuns.
Variable CE : CliEnv.

Lemma download_opts_rate_limit (r : option string) (args : Namespace) :
  download_opts (set_rate_limit r args) = download_opts (set_rate_limit None args) \/
  exists v, download_opts (set_rate_limit r args)
            = <["rate_limit" := v]> (download_opts (set_rate_limit None args)).
Proof.
  unfold download_opts. cbn [set_rate_limit arg_rate_limit arg_format arg_quality
    arg_extract_audio arg_audio_format arg_output_directory arg_filename_template
    arg_download_subtitles arg_subtitle_languages arg_retry_attempts arg_timeout given].
  destruct r as [r |]; [| by left].
  cbn [given]. destruct (negb (r =? ""))%string; [right; by eexists | by left].
Qed.

Lemma cbind_ext {A B} (m1 m2 : C A) (f1 f2 : A -> C B) (s : state) :
  m1 s = m2 s -> (forall a s', f1 a s' = f2 a s') -> cbind m1 f1 s = cbind m2 f2 s.
Proof.
  intros Hm Hf. unfold cbind. rewrite Hm. destruct (m2 s) as [[a | x] s']; [apply Hf | reflexivity].
Qed.

Lemma try_except_cli_ext {A} (m1 m2 : C A) (h : string -> C A) (s : state) :
  m1 s = m2 s -> try_except_cli (lib CE) m1 h s = try_except_cli (lib CE) m2 h s.
Proof. intros Hm. unfold try_except_cli. by rewrite Hm. Qed.

Lemma from_M_ext {A} (m1 m2 : M state A) (s : state) :
  m1 s = m2 s -> from_M m1 s = from_M m2 s.
Proof. intros Hm. unfold from_M. by rewrite Hm. Qed.

Lemma main_with_downloader_rate_limit (r : option string) (args : Namespace) (s : state) :
  main_with_downloader CE (set_rate_limit r args) s
  = main_with_downloader CE (set_rate_limit None args) s.
Proof.
  unfold main_with_downloader.
  cbn [set_rate_limit arg_info arg_url arg_batch arg_playlist arg_stats].
  destruct (arg_info args); [reflexivity |].
  apply cbind_ext; [| reflexivity].
  apply try_except_cli_ext.
  destruct (download_opts_rate_limit r args) as [-> | (v & ->)]; [reflexivity |].
  destruct (given (arg_batch args)); [| destruct (arg_playlist args)].
  - apply cbind_ext; [reflexivity | intros urls s1].
    apply cbind_ext; [reflexivity | intros _ s2].
    apply cbind_ext; [| reflexivity].
    apply from_M_ext. unfold download_batch.
    exact (batch_loop_ignores_rate_limit (lib CE) (length urls) urls _ v [] s2).
  - apply cbind_ext; [reflexivity | intros _ s1].
    apply cbind_ext; [| reflexivity].
    apply from_M_ext.
    exact (download_playlist_ignores_rate_limit (lib CE) _ _ v s1).
  - apply cbind_ext; [reflexivity | intros _ s1].
    apply cbind_ext; [| reflexivity].
    apply from_M_ext.
    exact (download_single_ignores_rate_limit (lib CE) _ _ v s1).
Qed.

Lemma main_info_quiet (args : Namespace) (s : state) :
  arg_info args = true -> quiet s (snd (main_with_downloader CE args s)).
Proof.
  intros Hinfo. unfold main_with_downloader. rewrite Hinfo.
  destruct (given (arg_url args)); [apply print_video_info_quiet |].
  unfold cprint, sys_exit, cstop, cbind, from_M, emit. cbn [snd]. apply quiet_print.
Qed.
End MainRuns.

(** The [--rate-limit] flag changes nothing: a run of [main] with any
    value for it ends the same way and does the same things, in the same
    order, as the run without the flag. *)
Theorem rate_limit_flag_has_no_effect (CE : CliEnv) (r : option string) (args : Namespace) :
  main CE (set_rate_limit r args) = main CE (set_rate_limit None args).
Proof.
  unfold main.
  cbn [set_rate_limit arg_log_level arg_url arg_batch arg_config].
  destruct (setup_logging CE (arg_log_level args)); [| reflexivity].
  destruct (negb (given (arg_url args)) && negb (given (arg_batch args))); [reflexivity |].
  destruct (__init__ (lib CE) (arg_config args) []) as [[d | e] tr]; [| reflexivity].
  by rewrite main_with_downloader_rate_limit.
Qed.

(** With [--info] nothing is downloaded, whatever else the command line
    asks for ([--batch], [--playlist], [--stats]): the run of [main]
    contains no download request to the engine. *)
Theorem info_mode_never_downloads (CE : CliEnv) (args : Namespace) :
  arg_info args = true ->
  List.filter is_engine_call (snd (main CE args)) = [].
Proof.
  intros Hinfo. unfold main.
  destruct (setup_logging CE (arg_log_level args)); [| reflexivity].
  destruct (negb (given (arg_url args)) && negb (given (arg_batch args))); [reflexivity |].
  pose proof (init_trace (lib CE) (arg_config args) []) as Htr.
  destruct (__init__ (lib CE) (arg_config args) []) as [[d | e] tr];
    cbn [snd] in Htr; subst tr; [| reflexivity].
  pose proof (main_info_quiet CE args {| self := d; trace := [] |} Hinfo) as [_ Hq].
  destruct (main_with_downloader CE args _) as [r s]. exact Hq.
Qed.

Lemma info_mode_never_downloads_witness :
  List.filter is_engine_call
    (snd (main sample_cli
            (set_mode (Some "https://video") (Some "urls.txt") true true true
               (default_namespace "https://video")))) = [].
Proof. apply info_mode_never_downloads. reflexivity. Defined.

(** An existing configuration file that cannot be used (it cannot be
    opened, does not parse, or has an extension other than [.yaml] and
    [.json]) ends [main] with exit status 1 right after the message
    [Error initializing downloader: ...]: no default configuration is
    used and nothing is downloaded. *)
Theorem main_unusable_config_exits (CE : CliEnv) (args : Namespace) :
  is_ok (setup_logging CE (arg_log_level args)) = true ->
  given (arg_url args) || given (arg_batch args) = true ->
  path_exists (lib CE) (arg_config args) = true ->
  is_ok (open_file (lib CE) (arg_config args)) = false \/
  (exists text,
     open_file (lib CE) (arg_config args) = Ok text /\
     ((lower (path_suffix (lib CE) (arg_config args)) = ".yaml"
       /\ is_ok (yaml_safe_load (lib CE) text) = false) \/
      (lower (path_suffix (lib CE) (arg_config args)) = ".json"
       /\ is_ok (json_load (lib CE) text) = false) \/
      (lower (path_suffix (lib CE) (arg_config args)) <> ".yaml"
       /\ lower (path_suffix (lib CE) (arg_config args)) <> ".json"))) ->
  main CE args =
    (Stop (SysExit 1),
     [Print ("Error initializing downloader: " +:+
             str_exn (lib CE)
               (AttributeError "'YouTubeDownloader' object has no attribute 'logger'"))]).
Proof.
  intros Hlog Hgiven Hex Hcase. unfold main.
  destruct (setup_logging CE (arg_log_level args)); [| discriminate].
  destruct (given (arg_url args)), (given (arg_batch args)); try discriminate;
    cbn [negb andb]; by rewrite (init_unusable_config (lib CE) _ [] Hex Hcase).
Qed.

Lemma main_unusable_config_exits_witness :
  main sample_cli (set_config "config.txt" (default_namespace "https://video")) =
    (Stop (SysExit 1),
     [Print "Error initializing downloader: 'YouTubeDownloader' object has no attribute 'logger'"]).
Proof.
  apply (main_unusable_config_exits sample_cli
           (set_config "config.txt" (default_namespace "https://video")));
    [reflexivity | reflexivity | reflexivity |].
  right. exists "quality=720p". split; [reflexivity |].
  right. right. split; vm_compute; discriminate.
Defined.

Section ExitStatus.
Variable CE : CliEnv.

Lemma download_playlist_outcome url kwargs s opts :
  fst (_get_ydl_opts (lib CE) kwargs s) = Ok opts ->
  fst (download_playlist (lib CE) url kwargs s) = Ok (negb (attempt_fails (lib CE) opts url)).
Proof.
  intros Hopts.
  destruct (download_playlist_resolved (lib CE) url kwargs s opts Hopts) as (s_in & _ & _ & Heq).
  pose proof (run_engine_result (lib CE) (ydl_download (lib CE) url opts) s_in) as Hres.
  rewrite Heq. unfold attempt_fails. rewrite <- Hres.
  by destruct (run_engine (lib CE) (ydl_download (lib CE) url opts) s_in) as [[[] | e] s_out].
Qed.

Lemma load_batch_urls_returned (file_path : string) (urls : list string) :
  fst (load_batch_urls (lib CE) file_path) = Returned urls ->
  load_batch_urls (lib CE) file_path = (Returned urls, []).
Proof.
  unfold load_batch_urls.
  destruct (open_file (lib CE) file_path) as [text | []]; cbn [fst]; intros H;
    try discriminate H. by injection H as ->.
Qed.

Lemma cbind_done {A B} (m : C A) (f : A -> C B) (s s' : state) (a : A) :
  m s = (Done a, s') -> cbind m f s = f a s'.
Proof. intros Hm. unfold cbind. by rewrite Hm. Qed.

Lemma cbind_stop {A B} (m : C A) (f : A -> C B) (s s' : state) (x : stop) :
  m s = (Stop x, s') -> cbind m f s = (Stop x, s').
Proof. intros Hm. unfold cbind. by rewrite Hm. Qed.

Lemma try_except_cli_done {A} (body : C A) (h : string -> C A) (s s' : state) (a : A) :
  body s = (Done a, s') -> try_except_cli (lib CE) body h s = (Done a, s').
Proof. intros Hm. unfold try_except_cli. by rewrite Hm. Qed.

Lemma try_except_cli_exit {A} (body : C A) (h : string -> C A) (s s' : state) (code : Z) :
  body s = (Stop (SysExit code), s') ->
  try_except_cli (lib CE) body h s = (Stop (SysExit code), s').
Proof. intros Hm. unfold try_except_cli. by rewrite Hm. Qed.

Lemma stats_step_cases (args : Namespace) (s : state) :
  fst ((if arg_stats args then print_download_stats CE else cret tt) s) = Done tt \/
  (arg_stats args = true /\
   exists msg, fst ((if arg_stats args then print_download_stats CE else cret tt) s)
               = Stop (UncaughtOverflowError msg)).
Proof.
  destruct (arg_stats args); [| by left].
  destruct (print_download_stats_cases CE s) as (tr & _ & [Hdone | Hover]);
    [by left | by right].
Qed.

Lemma stats_step_trace (args : Namespace) (s : state) :
  exists tr, trace (snd ((if arg_stats args then print_download_stats CE else cret tt) s))
             = trace s ++ tr.
Proof.
  destruct (arg_stats args); [| exists []; cbn; by rewrite app_nil_r].
  destruct (print_download_stats_cases CE s) as (tr & -> & _). by exists tr.
Qed.

Lemma main_batch_run (args : Namespace) (urls : list string) (s : state) :
  arg_info args = false ->
  given (arg_batch args) = true ->
  fst (load_batch_urls (lib CE) (arg_text (arg_batch args))) = Returned urls ->
  exists s2 rest,
    main_with_downloader CE args s =
      (if arg_stats args then print_download_stats CE else cret tt) s2 /\
    trace s2 = trace s ++
      Print ("Starting batch download of " +:+ pretty (length urls) +:+ " URLs...") :: rest.
Proof.
  intros Hinfo Hbatch Hurls. unfold main_with_downloader. rewrite Hinfo, Hbatch.
  match goal with |- context [try_except_cli _ ?body _] =>
    assert (exists s2 rest, body s = (Done tt, s2) /\
              trace s2 = trace s ++
                Print ("Starting batch download of " +:+ pretty (length urls)
                       +:+ " URLs...") :: rest) as (s2 & rest & Hbody & Htrace)
  end.
  { erewrite cbind_done;
      [| unfold batch_file_urls; rewrite (load_batch_urls_returned _ urls Hurls); reflexivity].
    erewrite cbind_done; [| reflexivity].
    match goal with |- context [download_batch ?E ?us ?kw] =>
      match goal with |- context [cbind (from_M (download_batch E us kw)) _ ?st] =>
        destruct (batch_loop_returns E (length us) us kw [] st) as (res & Hres);
        destruct (batch_loop_trace_prefix E (length us) us kw [] st) as (r1 & Hr1);
        destruct (batch_loop E (length us) us kw [] st) as [r s1] eqn:Hloop
      end
    end.
    cbn [fst snd] in Hres, Hr1. subst r.
    erewrite cbind_done; [| unfold from_M, download_batch; rewrite Hloop; reflexivity].
    erewrite cbind_done; [| reflexivity].
    match goal with |- context [print_results res ?st] =>
      destruct (print_results_run res st) as (tr & -> & _) end.
    eexists _, _. split; [reflexivity |].
    cbn [trace self]. rewrite Hr1. cbn [trace]. rewrite app_nil_r, <- !app_assoc.
    reflexivity. }
  erewrite cbind_done; [| by apply try_except_cli_done].
  by exists s2, rest.
Qed.

Lemma main_download_run (args : Namespace) (opts : gmap string value) (s : state) :
  arg_info args = false ->
  given (arg_batch args) = false ->
  fst (_get_ydl_opts (lib CE) (download_opts args) (new_state (config (self s)))) = Ok opts ->
  exists s2,
    (attempt_fails (lib CE) opts (arg_text (arg_url args)) = true ->
     main_with_downloader CE args s = (Stop (SysExit 1), s2) /\
     last (trace s2) =
       Some (Print (if arg_playlist args then "Playlist download failed."
                    else "Download failed."))) /\
    (attempt_fails (lib CE) opts (arg_text (arg_url args)) = false ->
     main_with_downloader CE args s =
       (if arg_stats args then print_download_stats CE else cret tt) s2).
Proof.
  intros Hinfo Hbatch Hopts. unfold main_with_downloader. rewrite Hinfo, Hbatch.
  set (url := arg_text (arg_url args)) in *.
  match goal with |- context [try_except_cli _ ?body _] =>
    assert (exists s2,
              body s = (if attempt_fails (lib CE) opts url
                        then Stop (SysExit 1) else Done tt, s2) /\
              (attempt_fails (lib CE) opts url = true ->
               last (trace s2) =
                 Some (Print (if arg_playlist args then "Playlist download failed."
                              else "Download failed."))))
      as (s2 & Hbody & Hlast)
  end.
  { destruct (arg_playlist args).
    - erewrite cbind_done; [| reflexivity].
      match goal with |- context [cbind (from_M (download_playlist _ _ _)) _ ?st] =>
        set (s1 := st) end.
      assert (Hopts1 : fst (_get_ydl_opts (lib CE) (download_opts args) s1) = Ok opts)
        by (by rewrite get_ydl_opts_result_config).
      pose proof (download_playlist_outcome url (download_opts args) s1 opts Hopts1) as Hr.
      destruct (download_playlist (lib CE) url (download_opts args) s1) as [r s2] eqn:Hrun.
      cbn [fst] in Hr. subst r.
      erewrite cbind_done; [| unfold from_M; rewrite Hrun; reflexivity].
      destruct (attempt_fails (lib CE) opts url); cbn [negb].
      + eexists. split; [reflexivity |]. intros _. cbn [trace]. apply last_snoc.
      + eexists. split; [reflexivity |]. discriminate.
    - erewrite cbind_done; [| reflexivity].
      match goal with |- context [cbind (from_M (download_single _ _ _)) _ ?st] =>
        set (s1 := st) end.
      assert (Hopts1 : fst (_get_ydl_opts (lib CE) (download_opts args) s1) = Ok opts)
        by (by rewrite get_ydl_opts_result_config).
      pose proof (download_single_outcome (lib CE) url (download_opts args) s1 opts Hopts1)
        as (Hr & _).
      destruct (download_single (lib CE) url (download_opts args) s1) as [r s2] eqn:Hrun.
      cbn [fst] in Hr. subst r.
      erewrite cbind_done; [| unfold from_M; rewrite Hrun; reflexivity].
      destruct (attempt_fails (lib CE) opts url); cbn [negb].
      + eexists. split; [reflexivity |]. intros _. cbn [trace]. apply last_snoc.
      + eexists. split; [reflexivity |]. discriminate. }
  exists s2. destruct (attempt_fails (lib CE) opts url).
  - split; [| discriminate]. intros _.
    erewrite cbind_stop; [| by apply try_except_cli_exit]. auto.
  - split; [discriminate |]. intros _.
    erewrite cbind_done; [| by apply try_except_cli_done]. reflexivity.
Qed.
End ExitStatus.




